(** * Three line-oriented command-line tools: statistics, base conversion, word count

    A shallow embedding of [computeStatistics.py], [convertNumbers.py] and
    [wordCount.py], one module per script, preceded by a module [Py] with the
    Python builtins the scripts call.

    Conventions of the embedding:
    - a Python [int] is a [Z] (unbounded, [//] is [Z.div], [%] is [Z.modulo]);
    - a Python [str] is a [string]; one [ascii] stands for one code point
      below 256;
    - a Python [float] is a binary64 [float] of [PrimFloat];
    - a parser that returns [(ok, value)], with [(False, None)] on failure,
      returns an [option];
    - where a function can raise ([d[k]] on a dictionary, [l[i]] on a
      list), its result is an [option] and [None] stands for the exception;
      the theorems show where it cannot be raised;
    - the loops of a function are the [Fixpoint]s or [Equations] that
      precede it, with the variables they update as arguments;
    - [print] appends one entry to the list of what was printed; the file
      system, the clock and the results file are arguments of [main].

    The modules [Py], [ConvertNumbers], [WordCount] and [ComputeStatistics]
    are the programs; the modules after them state and prove their
    properties. *)

From Equations Require Import Equations.
From stdpp Require Import gmap strings list sorting.
From Stdlib Require Import ZArith String Ascii Lia DecimalString DecimalPos.
From Stdlib Require Import Uint63 PrimFloat FloatOps SpecFloat FloatAxioms.

Open Scope Z_scope.

(** ** Python builtins *)

Module Py.

(** [ch.isspace()] on the code points below 256: TAB..CR, FS..US, space,
    NEL and NBSP. [str.strip()] with no argument uses the same predicate. *)
Definition isspace (ch : ascii) : bool :=
  let n := N_of_ascii ch in
  (((9 <=? n) && (n <=? 13)) || ((28 <=? n) && (n <=? 32))
   || (n =? 133) || (n =? 160))%N.

(** [c in chars] for a one-character [c]. *)
Fixpoint char_in (c : ascii) (chars : string) : bool :=
  match chars with
  | EmptyString => false
  | String d rest => Ascii.eqb c d || char_in c rest
  end.

Fixpoint lstrip_by (p : ascii -> bool) (s : string) : string :=
  match s with
  | EmptyString => EmptyString
  | String c rest => if p c then lstrip_by p rest else s
  end.

Fixpoint rstrip_by (p : ascii -> bool) (s : string) : string :=
  match s with
  | EmptyString => EmptyString
  | String c rest =>
      match rstrip_by p rest with
      | EmptyString => if p c then EmptyString else String c EmptyString
      | kept => String c kept
      end
  end.

(** [s.strip()] *)
Definition strip (s : string) : string := rstrip_by isspace (lstrip_by isspace s).

(** [s.strip(chars)] and [s.rstrip(chars)] *)
Definition strip_chars (chars s : string) : string :=
  rstrip_by (fun c => char_in c chars) (lstrip_by (fun c => char_in c chars) s).

Definition rstrip_chars (chars s : string) : string :=
  rstrip_by (fun c => char_in c chars) s.

(** [len(s)] *)
Definition len (s : string) : Z := Z.of_nat (String.length s).

(** [c * k] for a one-character string [c]: empty when [k <= 0]. *)
Definition str_mul (c : ascii) (k : Z) : string :=
  string_of_list_ascii (replicate (Z.to_nat k) c).

(** The decimal text of the integer [n]: a minus sign for a negative [n],
    then its digits, without leading zeros. This is [str(n)], and what an
    f-string inserts for [{n}], whenever the conversion returns; it is used
    as such for line numbers and counts, which are lengths of lists held in
    memory. *)
Definition str_of_int (n : Z) : string := NilZero.string_of_int (Z.to_int n).

(** [sys.int_max_str_digits], at its default. *)
Definition int_max_str_digits : Z := 4300.

(** [str(n)], and the text of [{n}] in an f-string, for an integer [n] that
    the input decides: CPython raises [ValueError] when [n] has more
    decimal digits, the sign not counted, than [sys.int_max_str_digits];
    [None] stands for it. *)
Definition str_int (n : Z) : option string :=
  let s := str_of_int n in
  let digits := if n <? 0 then len s - 1 else len s in
  if int_max_str_digits <? digits then None else Some s.

(** ["\n".join(lines)] *)
Fixpoint join_lines (lines : list string) : string :=
  match lines with
  | [] => ""
  | [l] => l
  | l :: rest => l +:+ String "010" (join_lines rest)
  end.

Definition tab : string := String "009" EmptyString.
Definition newline : string := String "010" EmptyString.

(** [float(n)] for an [int] in [0, 2^63), the conversion [x / n] applies to
    an [int] divisor: the nearest binary64, ties to even. The scripts apply
    it to list lengths only. *)
Definition float_of_int (n : Z) : float := PrimFloat.of_uint63 (Uint63.of_Z n).

(** Rounding of the rational [num / den] ([den > 0]) to the nearest integer,
    ties to the even one. *)
Definition round_half_even (num den : Z) : Z :=
  let q := num / den in
  let r := num mod den in
  if 2 * r <? den then q
  else if den <? 2 * r then q + 1
  else if Z.even q then q else q + 1.

(** The character of the decimal digit [d]. *)
Definition digit_char (d : Z) : ascii := ascii_of_N (Z.to_N (48 + d)).

(** The [k] decimal digits of [r], most significant first ([0 <= r < 10^k]). *)
Fixpoint frac_digits (k : nat) (r : Z) : string :=
  match k with
  | O => EmptyString
  | S k' => String (digit_char (r / 10 ^ Z.of_nat k' mod 10)) (frac_digits k' r)
  end.

(** The digits of [scaled / 10^prec] in fixed-point notation with [prec]
    fractional digits ([scaled >= 0]). *)
Definition fixed_digits (prec : nat) (scaled : Z) : string :=
  str_of_int (scaled / 10 ^ Z.of_nat prec) +:+ "." +:+
  frac_digits prec (scaled mod 10 ^ Z.of_nat prec).

(** The sign bit of a zero or finite binary64 [x] and its magnitude in
    units of [10^-prec], rounded to the nearest integer, ties to even;
    [None] for an infinity or a NaN. The magnitude of a finite float is
    [m * 2^e] for its integers [m] and [e]. *)
Definition scaled_decimal (prec : nat) (x : float) : option (bool * Z) :=
  match Prim2SF x with
  | S754_zero s => Some (s, 0)
  | S754_finite s m e =>
      Some (s, if 0 <=? e then Z.pos m * 2 ^ e * 10 ^ Z.of_nat prec
               else round_half_even (Z.pos m * 10 ^ Z.of_nat prec) (2 ^ (- e)))
  | _ => None
  end.

(** [f"{x:.{prec}f}"]: the exact value of the binary64 [x], correctly
    rounded (ties to even) to [prec] fractional digits, with a minus sign
    when the sign bit is set; [inf], [-inf] and [nan] for the special
    values. *)
Definition format_f (prec : nat) (x : float) : string :=
  match scaled_decimal prec x with
  | Some (s, scaled) => (if s : bool then "-" else "") +:+ fixed_digits prec scaled
  | None =>
      match Prim2SF x with
      | S754_infinity true => "-inf"
      | S754_infinity false => "inf"
      | _ => "nan"
      end
  end.

(** A [dict], as the list of its items in insertion order. [keq k k'] is
    the test a lookup of [k'] applies to a stored key [k]; assigning to a
    key that is present replaces its value and keeps the stored key and its
    place. *)
Section Dict.
Context {K V : Type} (keq : K -> K -> bool).

Fixpoint dict_get (d : list (K * V)) (k : K) : option V :=
  match d with
  | [] => None
  | (k', v) :: rest => if keq k' k then Some v else dict_get rest k
  end.

Fixpoint dict_set (d : list (K * V)) (k : K) (v : V) : list (K * V) :=
  match d with
  | [] => [(k, v)]
  | (k', v') :: rest =>
      if keq k' k then (k', v) :: rest else (k', v') :: dict_set rest k v
  end.

Definition dict_contains (d : list (K * V)) (k : K) : bool :=
  match dict_get d k with Some _ => true | None => false end.

End Dict.

(** [l[i]] on a list: a negative index counts from the end, [None] stands
    for [IndexError]. *)
Definition getitem {A : Type} (l : list A) (i : Z) : option A :=
  let n := Z.of_nat (List.length l) in
  if (0 <=? i) && (i <? n) then l !! Z.to_nat i
  else if (- n <=? i) && (i <? 0) then l !! Z.to_nat (n + i)
  else None.

(** [sorted(values)] on floats without a NaN: there [<] is a strict weak
    order, the sort of Python is stable, and the list it returns is the one
    below, the values in ascending order with equal values ([0.0] and
    [-0.0]) in the order they came in. *)
Fixpoint sorted_insert (x : float) (l : list float) : list float :=
  match l with
  | [] => [x]
  | y :: rest => if (y <? x)%float then y :: sorted_insert x rest else x :: l
  end.

Fixpoint sorted (values : list float) : list float :=
  match values with
  | [] => []
  | x :: rest => sorted_insert x (sorted rest)
  end.

(** [sorted(values)] on every list of floats. With a NaN in the list the
    comparisons are not consistent, and the order that comes out depends on
    the runs and merges of the sort: it is [nan_order values], a
    rearrangement of the list that is not determined further here. *)
Definition sorted_by (nan_order : list float -> list float)
    (values : list float) : list float :=
  if forallb (fun v => negb (PrimFloat.is_nan v)) values then sorted values
  else nan_order values.

(** An order for the lists with a NaN that leaves them as they are, to run
    the scripts on sample data. *)
Definition nan_order_kept (values : list float) : list float := values.

(** [x ** 0.5] on a float [x], by the cases of CPython's [float_pow]: a NaN
    is returned as it is, an infinity as [+inf], a zero as [+0.0]; the
    power of a negative number is a complex number, for which [None]
    stands; [1.0] gives [1.0]; every other [x] is finite and positive, and
    is handed to the [pow] of the C library, [libm_pow], which is not
    required to round correctly. The square root of such an [x] is in the
    range of the floats, so [pow] reports no range error and [**] raises
    no [OverflowError]. *)
Definition pow_half (libm_pow : float -> float -> float) (x : float)
  : option float :=
  if PrimFloat.is_nan x then Some x
  else if PrimFloat.is_infinity x then Some (PrimFloat.abs x)
  else if (x =? 0)%float then Some 0%float
  else if (x <? 0)%float then None
  else if (x =? 1)%float then Some 1%float
  else Some (libm_pow x 0.5%float).

(** A [pow] that rounds the square root correctly, to run the scripts on
    sample data. *)
Definition sqrt_pow (x y : float) : float := PrimFloat.sqrt x.

(** An exception raised while the lines of an open file are read: the
    [UnicodeDecodeError] of bytes that are not UTF-8, which is a
    [ValueError] and which the scripts do not catch, or an [OSError], which
    they catch. *)
Inductive read_failure : Type :=
| DecodeError
| ReadError (details : string).

(** What [open(path, "r", encoding="utf-8")] followed by iteration gives:
    the two exceptions the scripts catch, raised by [open]; the lines of
    the file, each with its line terminator, when it is read to its end;
    or the lines delivered before a read fails, and the failure. *)
Inductive file_outcome : Type :=
| FileNotFoundError
| OSError (details : string)
| FileLines (raw_lines : list string)
| FileBroken (raw_lines : list string) (failure : read_failure).

(** One run of a script: what it printed, in order, one entry per call of
    [print]; what it wrote to its results file, if it did; the value [main]
    returned. *)
Record run : Type := mkRun {
  console : list string;
  results_file : option string;
  exit_code : Z
}.

End Py.

(** ** convertNumbers.py *)

Module ConvertNumbers.

Definition RESULTS_FILE : string := "ConversionResults.txt".
Definition BIN_NEG_BITS : Z := 10.
Definition HEX_NEG_DIGITS : Z := 10.

(** The two loops of [_parse_int] over [text]: the digit check and the
    base-10 accumulation. [ord(ch) - ord("0")] is the difference of the
    code points. *)
Fixpoint all_digits (text : string) : bool :=
  match text with
  | EmptyString => true
  | String ch rest =>
      if (ch <? "0")%char || ("9" <? ch)%char then false else all_digits rest
  end.

Fixpoint accumulate_base10 (text : string) (value : Z) : Z :=
  match text with
  | EmptyString => value
  | String ch rest =>
      let digit := Z.of_N (N_of_ascii ch) - Z.of_N (N_of_ascii "0") in
      accumulate_base10 rest (value * 10 + digit)
  end.

Definition _parse_int (line : string) : option Z :=
  let text := Py.strip line in
  match text with
  | EmptyString => None
  | String c0 rest =>
      let '(sign, text) :=
        if Py.char_in c0 "+-"
        then ((if Ascii.eqb c0 "-" then -1 else 1), rest)
        else (1, text) in
      match text with
      | EmptyString => None
      | _ =>
          if all_digits text
          then Some (sign * accumulate_base10 text 0)
          else None
      end
  end.

(** The number of binary digits of a positive [x], the measure under which
    the division loops below terminate. *)
Definition nbits (x : Z) : nat :=
  if 0 <? x then S (Z.to_nat (Z.log2 x)) else O.

Lemma nbits_div (b x : Z) : 1 < b -> 0 < x -> (nbits (x / b) < nbits x)%nat.
Proof.
  intros Hb Hx. unfold nbits.
  destruct (Z.ltb_spec 0 x); [|lia].
  destruct (Z.ltb_spec 0 (x / b)); [|lia].
  assert (x / b <= x / 2) by (apply Z.div_le_compat_l; lia).
  assert (Z.log2 (x / b) <= Z.log2 (x / 2)) by (apply Z.log2_le_mono; lia).
  assert (Z.log2 (x / 2) = Z.max 0 (Z.log2 x - 1)) as Hhalf.
  { rewrite <- (Z.log2_shiftr x 1) by lia. now rewrite Z.shiftr_div_pow2 by lia. }
  assert (1 < x).
  { destruct (Z_lt_dec 1 x); [done|]. rewrite Z.div_small in * by lia. lia. }
  assert (0 < Z.log2 x) by (apply Z.log2_pos; lia).
  assert (0 <= Z.log2 (x / b)) by apply Z.log2_nonneg.
  lia.
Qed.

(** [while x > 0: bits.append("1" if (x % 2) == 1 else "0"); x //= 2] *)
Equations? bits_loop (x : Z) (bits : list ascii) : list ascii
  by wf (nbits x) lt :=
  bits_loop x bits with Z_lt_dec 0 x => {
    | left _ =>
        bits_loop (x / 2) (bits ++ [if x mod 2 =? 1 then "1"%char else "0"%char]);
    | right _ => bits }.
Proof. apply nbits_div; lia. Qed.

Definition _to_binary_nonneg (n : Z) : string :=
  if n =? 0 then "0"
  else string_of_list_ascii (rev (bits_loop n [])).

Definition digits : string := "0123456789ABCDEF".

(** [digits[i]]; the index is always [x % 16], which is in range. *)
Definition digits_at (i : Z) : ascii :=
  match String.get (Z.to_nat i) digits with
  | Some c => c
  | None => "000"%char
  end.

(** [while x > 0: out.append(digits[x % 16]); x //= 16] *)
Equations? hex_loop (x : Z) (out : list ascii) : list ascii
  by wf (nbits x) lt :=
  hex_loop x out with Z_lt_dec 0 x => {
    | left _ => hex_loop (x / 16) (out ++ [digits_at (x mod 16)]);
    | right _ => out }.
Proof. apply nbits_div; lia. Qed.

Definition _to_hex_nonneg (n : Z) : string :=
  if n =? 0 then "0"
  else string_of_list_ascii (rev (hex_loop n [])).

Definition _to_twos_complement_binary_10bit (n : Z) : string :=
  let base := Z.shiftl 1 BIN_NEG_BITS in
  let val := base + n in
  let b := _to_binary_nonneg val in
  if Py.len b <? BIN_NEG_BITS
  then Py.str_mul "0" (BIN_NEG_BITS - Py.len b) +:+ b
  else b.

(** [for ch in bin_10: val = val * 2 + (1 if ch == "1" else 0)] *)
Fixpoint bin_value (bin_10 : string) (val : Z) : Z :=
  match bin_10 with
  | EmptyString => val
  | String ch rest => bin_value rest (val * 2 + (if Ascii.eqb ch "1" then 1 else 0))
  end.

Definition _to_sign_extended_hex_10digits_from_bin (bin_10 : string) : string :=
  let val := bin_value bin_10 0 in
  let low_hex := _to_hex_nonneg val in
  let low_hex :=
    if Py.len low_hex <? 2
    then Py.str_mul "0" (2 - Py.len low_hex) +:+ low_hex
    else low_hex in
  if Py.len low_hex <? HEX_NEG_DIGITS
  then Py.str_mul "F" (HEX_NEG_DIGITS - Py.len low_hex) +:+ low_hex
  else low_hex.

Definition _convert_number (n : Z) : string * string :=
  if 0 <=? n then (_to_binary_nonneg n, _to_hex_nonneg n)
  else
    let bin_10 := _to_twos_complement_binary_10bit n in
    let hex_10 := _to_sign_extended_hex_10digits_from_bin bin_10 in
    (bin_10, hex_10).

(** ** Reading numerals back (the two readings the round-trip is stated with) *)

(** The value of one digit character of the alphabet [0-9A-F]. *)
Definition digit_value (c : ascii) : option Z :=
  let n := Z.of_N (N_of_ascii c) in
  if (48 <=? n) && (n <=? 57) then Some (n - 48)
  else if (65 <=? n) && (n <=? 70) then Some (n - 55)
  else None.

Fixpoint int_digits (base : Z) (s : string) (acc : Z) : option Z :=
  match s with
  | EmptyString => Some acc
  | String c rest =>
      match digit_value c with
      | Some d => if d <? base then int_digits base rest (acc * base + d) else None
      | None => None
      end
  end.

(** [int(s, base)] on a plain numeral: a non-empty run of digits of the
    base, most significant first; [None] stands for [ValueError]. *)
Definition int_of_numeral (s : string) (base : Z) : option Z :=
  match s with
  | EmptyString => None
  | _ => int_digits base s 0
  end.

(** [s] left-padded with the character [c] to at least [width] characters
    (the padding the two negative-number helpers write out by hand). *)
Definition pad_left (c : ascii) (width : Z) (s : string) : string :=
  Py.str_mul c (width - Py.len s) +:+ s.

(** The check behind the statement on negative inputs, as one boolean. *)
Definition negative_row_ok (n : Z) : bool :=
  let bin_s := fst (_convert_number n) in
  let hex_s := snd (_convert_number n) in
  String.eqb bin_s (pad_left "0" 10 (_to_binary_nonneg (2 ^ 10 + n)))
  && (Py.len bin_s =? 10)
  && (bin_value bin_s 0 =? 2 ^ 10 + n)
  && String.eqb hex_s
       (pad_left "F" 10 (pad_left "0" 2 (_to_hex_nonneg (bin_value bin_s 0)))).

(** [_read_rows]: the loop over the lines of the file. [line_num] is the
    number of the line before [raw]; the result is what was printed and
    the rows appended, in order. *)
Fixpoint read_loop (raw_lines : list string) (line_num : Z)
  : list string * list (Z * string * string) :=
  match raw_lines with
  | [] => ([], [])
  | raw :: rest =>
      let line_num := line_num + 1 in
      let '(printed, rows) := read_loop rest line_num in
      match _parse_int raw with
      | None =>
          let bad := Py.strip raw in
          match bad with
          | EmptyString => (printed, rows)
          | _ =>
              (("Invalid data at line " +:+ Py.str_of_int line_num +:+ ": '"
                 +:+ bad +:+ "' (ignored)") :: printed, rows)
          end
      | Some val =>
          let '(bin_s, hex_s) := _convert_number val in
          (printed, (val, bin_s, hex_s) :: rows)
      end
  end.

(** Returns what was printed and the pair [(rows, error)]; the pair
    [(None, None)] stands for an exception that leaves [_read_rows]. A
    failure in the middle of the file comes after the lines before it were
    handled. *)
Definition _read_rows (opened : Py.file_outcome) (file_path : string)
  : list string * (option (list (Z * string * string)) * option string) :=
  match opened with
  | Py.FileLines raw_lines =>
      let '(printed, rows) := read_loop raw_lines 0 in
      (printed, (Some rows, None))
  | Py.FileNotFoundError =>
      ([], (None, Some ("Error: file not found -> " +:+ file_path)))
  | Py.OSError exc =>
      ([], (None, Some ("Error: cannot read file -> " +:+ file_path
                         +:+ ". Details: " +:+ exc)))
  | Py.FileBroken raw_lines (Py.ReadError exc) =>
      let '(printed, _) := read_loop raw_lines 0 in
      (printed, (None, Some ("Error: cannot read file -> " +:+ file_path
                              +:+ ". Details: " +:+ exc)))
  | Py.FileBroken raw_lines Py.DecodeError =>
      let '(printed, _) := read_loop raw_lines 0 in
      (printed, (None, None))
  end.

(** [for idx, (val, bin_s, hex_s) in enumerate(rows, start=...)]: the lines
    appended; [None] stands for the [ValueError] of [{val}] on a value of
    more than 4300 digits. *)
Fixpoint row_lines (rows : list (Z * string * string)) (idx : Z)
  : option (list string) :=
  match rows with
  | [] => Some []
  | (val, bin_s, hex_s) :: rest =>
      match Py.str_int val, row_lines rest (idx + 1) with
      | Some val_s, Some lines =>
          Some ((Py.str_of_int idx +:+ Py.tab +:+ val_s +:+ Py.tab
                   +:+ bin_s +:+ Py.tab +:+ hex_s) :: lines)
      | _, _ => None
      end
  end.

Definition _build_report (rows : list (Z * string * string)) (elapsed : float)
  : option string :=
  let lines := ["ITEM" +:+ Py.tab +:+ "VALUE" +:+ Py.tab +:+ "BIN" +:+ Py.tab +:+ "HEX"] in
  match row_lines rows 1 with
  | None => None
  | Some row_rows =>
      let lines := lines ++ row_rows in
      let time_line :=
        Py.rstrip_chars "."
          (Py.rstrip_chars "0" ("TIME (seconds): " +:+ Py.format_f 10%nat elapsed)) in
      let lines := lines ++ [time_line] in
      Some (Py.join_lines lines +:+ Py.newline)
  end.

(** [main]. [argv] is [sys.argv]; [fs] says what opening a path for reading
    gives; [elapsed] is [time.time() - start]; [write_error] is the
    [OSError] raised on writing the results file, if one is. A printed
    entry is the text passed to [print]. An exception that nothing catches
    ends the run with status 1, after what was printed before it. *)
Definition main (argv : list string) (fs : string -> Py.file_outcome)
    (elapsed : float) (write_error : option string) : Py.run :=
  match argv with
  | [_; file_path] =>
      let '(printed, (rows, error)) := _read_rows (fs file_path) file_path in
      match error, rows with
      | Some message, _ => Py.mkRun (printed ++ [message]) None 1
      | None, None => Py.mkRun printed None 1
      | None, Some rows =>
          match _build_report rows elapsed with
          | None => Py.mkRun printed None 1
          | Some report =>
              match write_error with
              | None => Py.mkRun (printed ++ [report]) (Some report) 0
              | Some exc =>
                  Py.mkRun (printed ++ [report;
                              "Warning: could not write '" +:+ RESULTS_FILE
                                +:+ "'. Details: " +:+ exc]) None 0
              end
          end
      end
  | _ => Py.mkRun ["Usage: python convertNumbers.py fileWithData.txt"] None 1
  end.

(** The value of a digit list read least significant digit first. *)
Fixpoint lsb_eval (base : Z) (l : list ascii) : option Z :=
  match l with
  | [] => Some 0
  | c :: rest =>
      match digit_value c, lsb_eval base rest with
      | Some d, Some v => if d <? base then Some (d + base * v) else None
      | _, _ => None
      end
  end.

End ConvertNumbers.

(** ** wordCount.py *)

Module WordCount.

Definition RESULTS_FILE : string := "WordCountResults.txt".

(** [for ch in text: ...] of [_tokenize], with the two lists it updates. *)
Fixpoint tokenize_loop (text : string) (words : list string) (current : list ascii)
  : list string * list ascii :=
  match text with
  | EmptyString => (words, current)
  | String ch rest =>
      if Py.isspace ch then
        match current with
        | [] => tokenize_loop rest words current
        | _ => tokenize_loop rest (words ++ [string_of_list_ascii current]) []
        end
      else tokenize_loop rest words (current ++ [ch])
  end.

Definition _tokenize (text : string) : list string :=
  let '(words, current) := tokenize_loop text [] [] in
  match current with
  | [] => words
  | _ => words ++ [string_of_list_ascii current]
  end.

(** [for w in words: ...] of [_count_words]; [counts] is the dictionary,
    [order] the list. *)
Fixpoint count_loop (words : list string) (counts : gmap string Z)
    (order : list string) : gmap string Z * list string :=
  match words with
  | [] => (counts, order)
  | w :: rest =>
      match counts !! w with
      | Some c => count_loop rest (<[w := c + 1]> counts) order
      | None => count_loop rest (<[w := 1]> counts) (order ++ [w])
      end
  end.

Definition _count_words (words : list string) : gmap string Z * list string :=
  count_loop words ∅ [].

(** [for w in order: lines.append(f"{w}\t{counts[w]}")]; [None] stands for
    the [KeyError] of [counts[w]]. *)
Fixpoint word_lines (counts : gmap string Z) (order : list string)
  : option (list string) :=
  match order with
  | [] => Some []
  | w :: rest =>
      match counts !! w, word_lines counts rest with
      | Some c, Some lines => Some ((w +:+ Py.tab +:+ Py.str_of_int c) :: lines)
      | _, _ => None
      end
  end.

Definition _build_report (counts : gmap string Z) (order : list string)
    (elapsed : float) : option string :=
  match word_lines counts order with
  | None => None
  | Some word_rows =>
      let lines := ["WORD" +:+ Py.tab +:+ "COUNT"] ++ word_rows in
      let lines :=
        lines ++ [Py.rstrip_chars "."
                    (Py.rstrip_chars "0"
                       ("TIME (seconds): " +:+ Py.format_f 10%nat elapsed))] in
      Some (Py.join_lines lines +:+ Py.newline)
  end.

(** The loop of [main] over the lines of the file: what it prints and the
    words it appends to [all_words]. [line_num] is the number of the line
    before [raw_line]. *)
Fixpoint read_loop (raw_lines : list string) (line_num : Z)
  : list string * list string :=
  match raw_lines with
  | [] => ([], [])
  | raw_line :: rest =>
      let line_num := line_num + 1 in
      let '(printed, all_words) := read_loop rest line_num in
      let line := Py.strip_chars Py.newline raw_line in
      match Py.strip line with
      | EmptyString =>
          (("Invalid data at line " +:+ Py.str_of_int line_num
              +:+ ": empty line (ignored)") :: printed, all_words)
      | _ =>
          match _tokenize line with
          | [] =>
              (("Invalid data at line " +:+ Py.str_of_int line_num
                  +:+ ": no words (ignored)") :: printed, all_words)
          | words => (printed, words ++ all_words)
          end
      end
  end.

(** [main], with the parameters of [ConvertNumbers.main]. An exception that
    nothing catches ends the run with status 1, after what was printed
    before it. *)
Definition main (argv : list string) (fs : string -> Py.file_outcome)
    (elapsed : float) (write_error : option string) : Py.run :=
  match argv with
  | [_; file_path] =>
      match fs file_path with
      | Py.FileNotFoundError =>
          Py.mkRun ["Error: file not found -> " +:+ file_path] None 1
      | Py.OSError exc =>
          Py.mkRun ["Error: cannot read file -> " +:+ file_path
                      +:+ ". Details: " +:+ exc] None 1
      | Py.FileBroken raw_lines (Py.ReadError exc) =>
          Py.mkRun ((read_loop raw_lines 0).1
                      ++ ["Error: cannot read file -> " +:+ file_path
                            +:+ ". Details: " +:+ exc]) None 1
      | Py.FileBroken raw_lines Py.DecodeError =>
          Py.mkRun (read_loop raw_lines 0).1 None 1
      | Py.FileLines raw_lines =>
          let '(printed, all_words) := read_loop raw_lines 0 in
          let '(counts, order) := _count_words all_words in
          match _build_report counts order elapsed with
          | None => Py.mkRun printed None 1
          | Some report =>
              match write_error with
              | None => Py.mkRun (printed ++ [report]) (Some report) 0
              | Some exc =>
                  Py.mkRun (printed ++ [report;
                              "Warning: could not write '" +:+ RESULTS_FILE
                                +:+ "'. Details: " +:+ exc]) None 0
              end
          end
      end
  | _ => Py.mkRun ["Usage: python wordCount.py fileWithData.txt"] None 1
  end.

End WordCount.

(** ** computeStatistics.py *)

Module ComputeStatistics.

Definition RESULTS_FILE : string := "StatisticsResults.txt".

(** [text.replace(",", ".")] *)
Fixpoint replace_commas (text : string) : string :=
  match text with
  | EmptyString => EmptyString
  | String ch rest =>
      String (if Ascii.eqb ch "," then "."%char else ch) (replace_commas rest)
  end.

(** [for v in values: total += v; count += 1] *)
Fixpoint mean_loop (values : list float) (total : float) (count : Z) : float * Z :=
  match values with
  | [] => (total, count)
  | v :: rest => mean_loop rest (total + v)%float (count + 1)
  end.

Definition _mean (values : list float) : float :=
  let '(total, count) := mean_loop values 0%float 0 in
  if 0 <? count then (total / Py.float_of_int count)%float else 0%float.

(** [None] stands for the [IndexError] of an index out of range. *)
Definition _median (sorted_values : list float) : option float :=
  let n := Z.of_nat (List.length sorted_values) in
  if n =? 0 then Some 0%float
  else
    let mid := n / 2 in
    if n mod 2 =? 1 then Py.getitem sorted_values mid
    else
      lo ← Py.getitem sorted_values (mid - 1);
      hi ← Py.getitem sorted_values mid;
      Some ((lo + hi) / 2)%float.

(** The three loops of [_mode]. The keys of the two dictionaries are floats,
    matched by [==]: every element of [values] is an object of its own (one
    call of [float] per line), so no key is matched by identity that [==]
    does not match. *)

(** [for idx, v in enumerate(values): ...] *)
Fixpoint mode_count_loop (values : list float) (idx : Z)
    (freq first_pos : list (float * Z)) : list (float * Z) * list (float * Z) :=
  match values with
  | [] => (freq, first_pos)
  | v :: rest =>
      let freq :=
        Py.dict_set PrimFloat.eqb freq v
          (default 0 (Py.dict_get PrimFloat.eqb freq v) + 1) in
      let first_pos :=
        if Py.dict_contains PrimFloat.eqb first_pos v then first_pos
        else Py.dict_set PrimFloat.eqb first_pos v idx in
      mode_count_loop rest (idx + 1) freq first_pos
  end.

(** [for c in freq.values(): max_count = max(max_count, c)] *)
Fixpoint mode_max_loop (freq : list (float * Z)) (max_count : Z) : Z :=
  match freq with
  | [] => max_count
  | (_, c) :: rest => mode_max_loop rest (Z.max max_count c)
  end.

(** [for v, c in freq.items(): ...]; [None] stands for the [KeyError] of
    [first_pos[v]]. *)
Fixpoint mode_best_loop (items first_pos : list (float * Z)) (max_count : Z)
    (best_val : option float) (best_first : option Z)
  : option (option float * option Z) :=
  match items with
  | [] => Some (best_val, best_first)
  | (v, c) :: rest =>
      if c =? max_count then
        match Py.dict_get PrimFloat.eqb first_pos v with
        | None => None
        | Some pos =>
            if match best_first with None => true | Some bf => pos <? bf end
            then mode_best_loop rest first_pos max_count (Some v) (Some pos)
            else mode_best_loop rest first_pos max_count best_val best_first
        end
      else mode_best_loop rest first_pos max_count best_val best_first
  end.

(** Returns the pair [(has_mode, mode_value)]. *)
Definition _mode (values : list float) : option (bool * option float) :=
  let '(freq, first_pos) := mode_count_loop values 0 [] [] in
  let max_count := mode_max_loop freq 0 in
  if max_count <=? 1 then Some (false, None)
  else
    '(best_val, _) ← mode_best_loop freq first_pos max_count None None;
    Some (true, best_val).

(** [for v in values: diff = v - mean_val; acc += diff * diff] *)
Fixpoint variance_loop (values : list float) (mean_val acc : float) : float :=
  match values with
  | [] => acc
  | v :: rest =>
      let diff := (v - mean_val)%float in
      variance_loop rest mean_val (acc + diff * diff)%float
  end.

Definition _population_variance (values : list float) (mean_val : float) : float :=
  let n := Z.of_nat (List.length values) in
  if n =? 0 then 0%float
  else (variance_loop values mean_val 0 / Py.float_of_int n)%float.

Definition _format_number (x : float) : string :=
  let s := Py.rstrip_chars "." (Py.rstrip_chars "0" (Py.format_f 10%nat x)) in
  match s with
  | EmptyString => "0"
  | _ => s
  end.

Record StatisticsResult : Type := mkStatisticsResult {
  count : Z;
  mean : float;
  median : float;
  mode : string;
  sd : float;
  variance : float;
  elapsed : float
}.

Definition _build_report (result : StatisticsResult) : string :=
  let lines :=
    [ "COUNT: " +:+ Py.str_of_int (count result);
      "MEAN: " +:+ _format_number (mean result);
      "MEDIAN: " +:+ _format_number (median result);
      "MODE: " +:+ mode result;
      "SD (Population): " +:+ _format_number (sd result);
      "VARIANCE (Population): " +:+ _format_number (variance result);
      "TIME (seconds): " +:+ _format_number (elapsed result) ] in
  Py.join_lines lines +:+ Py.newline.

Section Platform.

(** [float(text)], Python's conversion of a string to a float; [None]
    stands for [ValueError]. *)
Variable float_of_str : string -> option float.

(** The order [sorted] leaves a list with a NaN in; see [Py.sorted_by]. *)
Variable nan_order : list float -> list float.

(** The [pow] of the C library, which [**] calls on a finite positive
    base. *)
Variable libm_pow : float -> float -> float.

(** [variance_val ** 0.5]; [None] stands for a complex number, the power of
    a negative [variance_val]. *)
Definition _population_std (variance_val : float) : option float :=
  Py.pow_half libm_pow variance_val.

(** [None] stands for an exception of [_median] or [_mode], for the
    [TypeError] of formatting a mode that is [None], or for a standard
    deviation that is a complex number, which the record does not hold. *)
Definition _compute_statistics (values : list float) (elapsed : float)
  : option StatisticsResult :=
  let values_sorted := Py.sorted_by nan_order values in
  let mean_val := _mean values in
  median_val ← _median values_sorted;
  '(has_mode, mode_val) ← _mode values;
  mode_str ← (if has_mode : bool then _format_number <$> mode_val else Some "#N/A");
  let var_val := _population_variance values mean_val in
  sd_val ← _population_std var_val;
  Some (mkStatisticsResult (Z.of_nat (List.length values)) mean_val median_val
          mode_str sd_val var_val elapsed).

Definition _try_parse_number (raw : string) : option float :=
  let text := Py.strip raw in
  match text with
  | EmptyString => None
  | _ => float_of_str (replace_commas text)
  end.

(** [for raw_line in f: ...] of [_read_values]: what it prints and the
    values it appends. [line_num] is the number of the line before
    [raw_line]. *)
Fixpoint read_loop (raw_lines : list string) (line_num : Z)
  : list string * list float :=
  match raw_lines with
  | [] => ([], [])
  | raw_line :: rest =>
      let line_num := line_num + 1 in
      let '(printed, values) := read_loop rest line_num in
      match _try_parse_number raw_line with
      | Some val => (printed, val :: values)
      | None =>
          let bad := Py.strip raw_line in
          match bad with
          | EmptyString => (printed, values)
          | _ =>
              (("Invalid data at line " +:+ Py.str_of_int line_num +:+ ": '"
                  +:+ bad +:+ "' (ignored, continuing)") :: printed, values)
          end
      end
  end.

(** Returns what was printed and the list of values, or [None]; [None]
    stands also for an exception that leaves [_read_values], after which
    [main] ends with status 1 as it does on [None]. A failure in the middle
    of the file comes after the lines before it were handled. *)
Definition _read_values (opened : Py.file_outcome) (file_path : string)
  : list string * option (list float) :=
  match opened with
  | Py.FileLines raw_lines =>
      let '(printed, values) := read_loop raw_lines 0 in
      (printed, Some values)
  | Py.FileNotFoundError =>
      (["Error: file not found -> " +:+ file_path], None)
  | Py.OSError exc =>
      (["Error: cannot read file -> " +:+ file_path +:+ ". Details: " +:+ exc],
       None)
  | Py.FileBroken raw_lines (Py.ReadError exc) =>
      ((read_loop raw_lines 0).1
         ++ ["Error: cannot read file -> " +:+ file_path +:+ ". Details: "
               +:+ exc], None)
  | Py.FileBroken raw_lines Py.DecodeError =>
      ((read_loop raw_lines 0).1, None)
  end.

(** [main], with the parameters of [ConvertNumbers.main]. An exception that
    nothing catches ends the run with status 1, after what was printed
    before it. *)
Definition main (argv : list string) (fs : string -> Py.file_outcome)
    (elapsed : float) (write_error : option string) : Py.run :=
  match argv with
  | [_; file_path] =>
      let '(printed, values) := _read_values (fs file_path) file_path in
      match values with
      | None => Py.mkRun printed None 1
      | Some [] =>
          Py.mkRun (printed ++ ["Error: no valid numeric data found in the file."])
            None 1
      | Some values =>
          match _compute_statistics values elapsed with
          | None => Py.mkRun printed None 1
          | Some result =>
              let report := _build_report result in
              match write_error with
              | None => Py.mkRun (printed ++ [report]) (Some report) 0
              | Some exc =>
                  Py.mkRun (printed ++ [report;
                              "Warning: could not write '" +:+ RESULTS_FILE
                                +:+ "'. Details: " +:+ exc]) None 0
              end
          end
      end
  | _ => Py.mkRun ["Usage: python computeStatistics.py fileWithData.txt"] None 1
  end.

End Platform.

(** A stand-in for [float] on the plain decimal integers [[+-]digits] below
    [2^63], where the conversion is the nearest float of the integer, with
    the sign of the text (so ["-0"] gives [-0.0]); every other text is
    refused. Used to run the tool on sample files. *)
Definition float_of_integer_text (text : string) : option float :=
  match ConvertNumbers._parse_int text with
  | Some n =>
      if 2 ^ 63 <=? Z.abs n then None
      else
        match Py.strip text with
        | String "-"%char _ => Some (- Py.float_of_int (Z.abs n))%float
        | _ => Some (Py.float_of_int n)
        end
  | None => None
  end.

End ComputeStatistics.

(** ** Facts on binary64 comparison *)

Module FloatFacts.

(** What [==] compares: nothing for a NaN, one key for both zeros, the
    float itself otherwise. *)
Definition eq_key (x : spec_float) : option spec_float :=
  match x with
  | S754_nan => None
  | S754_zero _ => Some (S754_zero false)
  | _ => Some x
  end.

Local Ltac key_case :=
  simpl; split;
  [ first [discriminate | intros _; eexists; split; reflexivity]
  | first [reflexivity | intros (k & ? & ?); congruence] ].

Lemma SFeqb_key (x y : spec_float) :
  SFeqb x y = true <-> exists k, eq_key x = Some k /\ eq_key y = Some k.
Proof.
  unfold SFeqb.
  destruct x as [sx|sx| |sx mx ex], y as [sy|sy| |sy my ey];
    try (destruct sx; key_case); try (destruct sy; key_case);
    try (destruct sx, sy; key_case); try key_case.
  simpl. destruct sx, sy; try key_case;
    (destruct (Z.compare_spec ex ey) as [->|Hlt|Hgt];
     [ destruct (Pos.compare_cont Eq mx my) eqn:Hc; simpl;
       [ apply (proj1 (Pos.compare_eq_iff mx my)) in Hc as ->; split; [eauto|done]
       | split; [discriminate|]; intros (k & ? & ?);
         assert (mx = my) as Heq by congruence; apply (proj2 (Pos.compare_eq_iff mx my)) in Heq; unfold Pos.compare in Heq; congruence
       | split; [discriminate|]; intros (k & ? & ?);
         assert (mx = my) as Heq by congruence; apply (proj2 (Pos.compare_eq_iff mx my)) in Heq; unfold Pos.compare in Heq; congruence ]
     | split; [discriminate|]; intros (k & ? & ?);
       assert (ex = ey) by congruence; lia
     | split; [discriminate|]; intros (k & ? & ?);
       assert (ex = ey) by congruence; lia ]).
Qed.

Lemma eqb_key (x y : float) :
  (x =? y)%float = true <->
  exists k, eq_key (Prim2SF x) = Some k /\ eq_key (Prim2SF y) = Some k.
Proof. rewrite eqb_spec. apply SFeqb_key. Qed.

Lemma eqb_sym (x y : float) : (x =? y)%float = (y =? x)%float.
Proof.
  apply eq_true_iff_eq. rewrite !eqb_key.
  split; intros (k & ? & ?); eauto.
Qed.

Lemma eqb_trans (x y z : float) :
  (x =? y)%float = true -> (y =? z)%float = true -> (x =? z)%float = true.
Proof.
  rewrite !eqb_key. intros (k & Hx & Hy) (k' & Hy' & Hz).
  exists k. split; [done|congruence].
Qed.

Lemma eqb_refl_l (x y : float) :
  (x =? y)%float = true -> (x =? x)%float = true.
Proof. intros H. apply (eqb_trans x y x); [done|by rewrite eqb_sym]. Qed.

Lemma eqb_refl_r (x y : float) :
  (x =? y)%float = true -> (y =? y)%float = true.
Proof. intros H. apply (eqb_trans y x y); [by rewrite eqb_sym|done]. Qed.

(** *** Order *)






End FloatFacts.

(** ** Facts on strings and on the rendering of numbers *)

Module StringFacts.
Import Py.

(** Every character of [s] passes the test [p]. *)
Fixpoint str_all (p : ascii -> bool) (s : string) : bool :=
  match s with
  | EmptyString => true
  | String c rest => p c && str_all p rest
  end.

Definition is_digit (c : ascii) : bool := char_in c "0123456789".

Definition not_dot (c : ascii) : bool := negb (char_in c ".").

Lemma append_cons (x : ascii) (a b : string) :
  String x a +:+ b = String x (a +:+ b).
Proof. reflexivity. Qed.

Lemma append_nil_l (b : string) : "" +:+ b = b.
Proof. reflexivity. Qed.

Lemma append_assoc (a b c : string) : (a +:+ b) +:+ c = a +:+ (b +:+ c).
Proof. induction a as [|x a IH]; [done|]. rewrite !append_cons. by f_equal. Qed.

Lemma append_nil_r (a : string) : a +:+ "" = a.
Proof. induction a as [|x a IH]; [done|]. rewrite append_cons. by f_equal. Qed.

Lemma str_all_app p (a b : string) :
  str_all p (a +:+ b) = str_all p a && str_all p b.
Proof.
  induction a as [|x a IH]; [done|]. rewrite append_cons. simpl.
  by rewrite IH, andb_assoc.
Qed.

Lemma str_all_impl (p q : ascii -> bool) (s : string) :
  (forall c, p c = true -> q c = true) -> str_all p s = true -> str_all q s = true.
Proof.
  intros Hpq. induction s as [|c s IH]; simpl; [done|].
  intros [Hc Hs]%andb_prop. by rewrite (Hpq c Hc), IH.
Qed.

(** Stripping on the right, over a concatenation. *)
Lemma rstrip_by_app p (a b : string) :
  rstrip_by p (a +:+ b) =
  match rstrip_by p b with
  | EmptyString => rstrip_by p a
  | kept => a +:+ kept
  end.
Proof.
  induction a as [|x a IH].
  - rewrite append_nil_l. simpl. by destruct (rstrip_by p b).
  - rewrite append_cons. simpl. rewrite IH.
    destruct (rstrip_by p b) as [|k kept]; [done|].
    rewrite append_cons. by destruct a.
Qed.

(** Nothing is stripped from a string with no character to strip. *)
Lemma rstrip_by_none p (s : string) :
  str_all (fun c => negb (p c)) s = true -> rstrip_by p s = s.
Proof.
  induction s as [|c s IH]; simpl; [done|].
  intros [Hc Hs]%andb_prop. rewrite (IH Hs).
  destruct s; [|done]. by apply negb_true_iff in Hc as ->.
Qed.

(** What is stripped is a run of characters to strip. *)
Lemma rstrip_by_split p (s : string) :
  exists t, s = rstrip_by p s +:+ t /\ str_all p t = true.
Proof.
  induction s as [|c s (t & Hs & Ht)]; simpl.
  - by exists "".
  - destruct (rstrip_by p s) as [|k kept] eqn:Hstrip.
    + rewrite append_nil_l in Hs. destruct (p c) eqn:Hc.
      * exists (String c t). rewrite append_nil_l. simpl. rewrite Hc, Ht. by subst.
      * exists t. rewrite append_cons, append_nil_l. by subst.
    + exists t. rewrite append_cons. split; [|done]. f_equal. exact Hs.
Qed.

(** What is left does not end with a character to strip. *)
Lemma rstrip_by_last p (s kept : string) (c : ascii) :
  rstrip_by p s = kept +:+ String c "" -> p c = false.
Proof.
  revert kept. induction s as [|x s IH]; intros kept; simpl.
  - by destruct kept.
  - destruct (rstrip_by p s) as [|k r] eqn:Hstrip.
    + destruct (p x) eqn:Hx; [by destruct kept|].
      destruct kept as [|y kept]; [by intros [= <-]|].
      rewrite append_cons. intros [= _ Hk]. by destruct kept.
    + destruct kept as [|y kept].
      * rewrite append_nil_l. done.
      * rewrite append_cons. intros [= _ Hk]. by apply (IH kept).
Qed.

(** *** Decimal digits *)

Lemma string_of_uint_digits (d : Decimal.uint) :
  str_all is_digit (NilEmpty.string_of_uint d) = true.
Proof. induction d; simpl; done. Qed.

Lemma string_of_uint_nonempty (d : Decimal.uint) :
  NilZero.string_of_uint d <> "".
Proof. by destruct d. Qed.

Lemma str_of_int_no_dot (n : Z) : str_all not_dot (str_of_int n) = true.
Proof.
  assert (forall d, str_all not_dot (NilZero.string_of_uint d) = true) as Hu.
  { intros d. destruct d; try done;
      apply (str_all_impl is_digit); try (by intros c; unfold is_digit, not_dot;
        repeat (destruct c as [[] [] [] [] [] [] [] []]; try done));
      apply (string_of_uint_digits (_ d)). }
  unfold str_of_int. destruct (Z.to_int n); simpl; [apply Hu|].
  apply Hu.
Qed.

Lemma str_of_int_nonempty (n : Z) : str_of_int n <> "".
Proof.
  unfold str_of_int. destruct (Z.to_int n); simpl; [|done].
  apply string_of_uint_nonempty.
Qed.

Lemma digit_char_digit (d : Z) : 0 <= d < 10 -> is_digit (digit_char d) = true.
Proof.
  intros Hd.
  assert (d = 0 \/ d = 1 \/ d = 2 \/ d = 3 \/ d = 4 \/ d = 5 \/ d = 6 \/ d = 7
          \/ d = 8 \/ d = 9) as Hcases by lia.
  repeat (destruct Hcases as [->|Hcases]; [reflexivity|]). by subst.
Qed.

Lemma frac_digits_length (k : nat) (r : Z) : String.length (frac_digits k r) = k.
Proof. induction k as [|k IH]; simpl; [done|]. by rewrite IH. Qed.

Lemma frac_digits_digits (k : nat) (r : Z) :
  str_all is_digit (frac_digits k r) = true.
Proof.
  induction k as [|k IH]; simpl; [done|]. rewrite IH, andb_true_r.
  apply digit_char_digit, Z.mod_pos_bound. lia.
Qed.

Lemma frac_digits_zero (k : nat) : rstrip_chars "0" (frac_digits k 0) = "".
Proof.
  unfold rstrip_chars. induction k as [|k IH]; [done|].
  cbn [frac_digits rstrip_by]. rewrite IH. by rewrite Zdiv_0_l, Zmod_0_l.
Qed.

End StringFacts.

(** ** Facts on dictionaries *)

Module DictFacts.
Import Py.

Section Dict.
Context {K V : Type} (keq : K -> K -> bool).
Implicit Types (d : list (K * V)) (k : K) (v : V).

(** A lookup that succeeds finds the first item whose key matches, and an
    assignment to that key replaces the value there. *)
Lemma dict_get_Some d k v :
  dict_get keq d k = Some v ->
  exists p k',
    d !! p = Some (k', v) /\ keq k' k = true
    /\ forall v', dict_set keq d k v' = <[p := (k', v')]> d.
Proof.
  induction d as [|[k0 v0] d IH]; simpl; [done|].
  destruct (keq k0 k) eqn:Hk.
  - intros [= ->]. exists O, k0. done.
  - intros (p & k' & Hp & Hm & Hset)%IH. exists (S p), k'.
    repeat split; [done..|]. intros v'. simpl. by rewrite Hset.
Qed.

(** A lookup that fails means no key matches, and an assignment appends. *)
Lemma dict_get_None d k :
  dict_get keq d k = None ->
  (forall e, e ∈ d -> keq e.1 k = false)
  /\ forall v', dict_set keq d k v' = d ++ [(k, v')].
Proof.
  induction d as [|[k0 v0] d IH]; simpl.
  - intros _. split; [by intros e ?%elem_of_nil|done].
  - destruct (keq k0 k) eqn:Hk; [done|].
    intros [Hall Hset]%IH. split.
    + intros e [->|?]%elem_of_cons; auto.
    + intros v'. by rewrite Hset.
Qed.

(** The item a lookup returns, when one key only matches. *)
Lemma dict_get_unique d p k k' v :
  d !! p = Some (k, v) -> keq k k' = true ->
  (forall q e, q <> p -> d !! q = Some e -> keq e.1 k' = false) ->
  dict_get keq d k' = Some v.
Proof.
  revert p. induction d as [|[k0 v0] d IH]; intros p Hp Hk Hothers; [done|].
  destruct p as [|p]; simpl in *.
  - injection Hp as -> ->. by rewrite Hk.
  - pose proof (Hothers O (k0, v0) ltac:(lia) eq_refl) as H0. simpl in H0.
    rewrite H0.
    apply (IH p); [done..|].
    intros q e Hq He. apply (Hothers (S q) e); [lia|done].
Qed.

End Dict.

(** Membership depends on the keys only. *)
Lemma dict_contains_keys {K V W : Type} (keq : K -> K -> bool)
    (d : list (K * V)) (d' : list (K * W)) (k : K) :
  d.*1 = d'.*1 -> dict_contains keq d k = dict_contains keq d' k.
Proof.
  revert d'. induction d as [|[k0 v0] d IH]; intros [|[k1 w1] d'] Hkeys;
    try done.
  injection Hkeys as -> Hkeys. unfold dict_contains in *. simpl.
  destruct (keq k1 k); [done|]. by apply IH.
Qed.

End DictFacts.

(** ** The sign of float results *)

Module FloatSign.

(** The float is [+0], a positive number, [+inf] or a NaN: its sign bit is
    clear, or it is a NaN. *)
Definition sign_clear (x : spec_float) : bool :=
  match x with
  | S754_zero s | S754_infinity s | S754_finite s _ _ => negb s
  | S754_nan => true
  end.

Lemma binary_round_aux_sign (m e : Z) (l : location) :
  sign_clear (binary_round_aux prec emax false m e l) = true.
Proof.
  unfold binary_round_aux.
  destruct (shr_fexp prec emax m e l) as [mrs' e'].
  destruct (shr_fexp prec emax _ e' loc_Exact) as [mrs'' e''].
  destruct (shr_m mrs''); [done| |done].
  by destruct (e'' <=? emax - prec).
Qed.

Lemma binary_round_sign (m : positive) (e : Z) :
  sign_clear (binary_round prec emax false m e) = true.
Proof.
  unfold binary_round. destruct (shl_align _ _ _). apply binary_round_aux_sign.
Qed.

Lemma add_sign (x y : spec_float) :
  sign_clear x = true -> sign_clear y = true ->
  sign_clear (SFadd prec emax x y) = true.
Proof.
  destruct x as [[]|[]| |[] mx ex], y as [[]|[]| |[] my ey]; try done.
  intros _ _. unfold SFadd, cond_Zopp, binary_normalize.
  cbn [Z.add]. apply binary_round_sign.
Qed.

Lemma square_sign (d : spec_float) : sign_clear (SFmul prec emax d d) = true.
Proof.
  destruct d as [[]|[]| |[] m e]; try done; apply binary_round_aux_sign.
Qed.

Lemma div_sign (x y : spec_float) :
  sign_clear x = true -> sign_clear y = true ->
  sign_clear (SFdiv prec emax x y) = true.
Proof.
  destruct x as [[]|[]| |[] mx ex], y as [[]|[]| |[] my ey]; try done.
  intros _ _. unfold SFdiv.
  destruct (SFdiv_core_binary _ _ _ _ _ _) as [[mz ez] lz].
  apply binary_round_aux_sign.
Qed.

Lemma float_of_int_sign (n : Z) : sign_clear (Prim2SF (Py.float_of_int n)) = true.
Proof.
  unfold Py.float_of_int. rewrite of_uint63_spec. unfold binary_normalize.
  pose proof (Uint63.to_Z_bounded (Uint63.of_Z n)) as Hb.
  destruct (Uint63.to_Z (Uint63.of_Z n)); [done|apply binary_round_sign|lia].
Qed.

Lemma sign_clear_compare (x : spec_float) :
  sign_clear x = true -> SFltb x (S754_zero false) = false.
Proof. by destruct x as [[]|[]| |[] m e]. Qed.

Lemma sign_clear_ltb (x : float) :
  sign_clear (Prim2SF x) = true -> (x <? 0)%float = false.
Proof.
  intros Hx. rewrite ltb_spec. change (Prim2SF 0) with (S754_zero false).
  by apply sign_clear_compare.
Qed.

(** The power [0.5] of a float that is not negative is a float. *)
Lemma pow_half_defined (libm_pow : float -> float -> float) (x : float) :
  sign_clear (Prim2SF x) = true -> is_Some (Py.pow_half libm_pow x).
Proof.
  intros Hx. unfold Py.pow_half. rewrite (sign_clear_ltb x Hx).
  by repeat case_match.
Qed.

End FloatSign.

(** ** convertNumbers.py: properties *)

Module ConvertNumbersProofs.
Import ConvertNumbers.

Example convert_255 : _convert_number 255 = ("11111111", "FF").
Proof. vm_compute. reflexivity. Qed.

Example parse_int_examples :
  _parse_int " -42 " = Some (-42) /\ _parse_int "+7" = Some 7 /\
  _parse_int "4x" = None /\ _parse_int "-" = None /\ _parse_int "  " = None.
Proof. repeat split; reflexivity. Qed.

Lemma int_digits_snoc base (l : list ascii) c acc :
  int_digits base (string_of_list_ascii (l ++ [c])) acc =
  match int_digits base (string_of_list_ascii l) acc with
  | Some a => int_digits base (String c EmptyString) a
  | None => None
  end.
Proof.
  revert acc. induction l as [|x l IH]; intros acc; simpl.
  - destruct (digit_value c); [|done]. by destruct (_ <? _).
  - destruct (digit_value x); [|done]. destruct (_ <? _); [|done]. apply IH.
Qed.

Lemma int_digits_rev base (l : list ascii) v acc :
  lsb_eval base l = Some v ->
  int_digits base (string_of_list_ascii (rev l)) acc
  = Some (acc * base ^ Z.of_nat (List.length l) + v).
Proof.
  revert v. induction l as [|c l IH]; intros v Hv; simpl in *.
  - inversion Hv. f_equal. lia.
  - destruct (digit_value c) as [d|] eqn:Hd; [|done].
    destruct (lsb_eval base l) as [w|] eqn:Hw; [|done].
    destruct (d <? base) eqn:Hlt; [|done]. inversion Hv; subst.
    rewrite int_digits_snoc, (IH w eq_refl). simpl. rewrite Hd, Hlt.
    f_equal. rewrite Nat2Z.inj_succ, Z.pow_succ_r by lia. ring.
Qed.

Lemma digits_at_spec r :
  0 <= r < 16 ->
  digit_value (digits_at r) = Some r /\ Py.char_in (digits_at r) digits = true.
Proof.
  intros Hr.
  assert (r = 0 \/ r = 1 \/ r = 2 \/ r = 3 \/ r = 4 \/ r = 5 \/ r = 6 \/ r = 7 \/
          r = 8 \/ r = 9 \/ r = 10 \/ r = 11 \/ r = 12 \/ r = 13 \/ r = 14 \/ r = 15)
    as Hcases by lia.
  repeat (destruct Hcases as [->|Hcases]; [split; reflexivity|]).
  subst; split; reflexivity.
Qed.

(** What each loop appends: the digits of [x], least significant first. *)
Lemma hex_loop_spec x out :
  exists l, hex_loop x out = out ++ l
    /\ lsb_eval 16 l = Some (Z.max 0 x)
    /\ (0 < x -> l <> [])
    /\ Forall (fun c => Py.char_in c digits = true) l.
Proof.
  funelim (hex_loop x out).
  - destruct H as (l' & Hl & Hv & _ & Hall).
    exists (digits_at (x mod 16) :: l'). rewrite <- app_assoc in Hl.
    destruct (digits_at_spec (x mod 16)) as [Hd Hin]; [apply Z.mod_pos_bound; lia|].
    split; [done|]. split; [|split; [done|by constructor]].
    simpl. rewrite Hd, Hv.
    assert (0 <= x / 16) by (apply Z.div_pos; lia).
    pose proof (Z.mod_pos_bound x 16 ltac:(lia)) as Hm.
    pose proof (Z.div_mod x 16 ltac:(lia)) as Hx.
    destruct (Z.ltb_spec (x mod 16) 16) as [_|Hge]; [f_equal|exfalso]; lia.
  - exists []. rewrite app_nil_r. repeat split; [simpl; f_equal; lia|intros; exfalso; lia|constructor].
Qed.

Lemma bits_loop_spec x bits :
  exists l, bits_loop x bits = bits ++ l
    /\ lsb_eval 2 l = Some (Z.max 0 x)
    /\ (0 < x -> l <> [])
    /\ Forall (fun c => Py.char_in c "01" = true) l.
Proof.
  funelim (bits_loop x bits).
  - destruct H as (l' & Hl & Hv & _ & Hall).
    exists ((if x mod 2 =? 1 then "1"%char else "0"%char) :: l').
    rewrite <- app_assoc in Hl. split; [done|].
    assert (0 <= x / 2) by (apply Z.div_pos; lia).
    pose proof (Z.mod_pos_bound x 2 ltac:(lia)) as Hm.
    pose proof (Z.div_mod x 2 ltac:(lia)) as Hx.
    split; [|split; [done|]].
    + simpl. rewrite Hv. destruct (Z.eqb_spec (x mod 2) 1); simpl; f_equal; lia.
    + constructor; [|done]. by destruct (x mod 2 =? 1).
  - exists []. rewrite app_nil_r. repeat split; [simpl; f_equal; lia|intros; exfalso; lia|constructor].
Qed.

Lemma int_of_numeral_rev base (l : list ascii) v :
  l <> [] -> lsb_eval base l = Some v ->
  int_of_numeral (string_of_list_ascii (rev l)) base = Some v.
Proof.
  intros Hne Hv. unfold int_of_numeral.
  destruct (string_of_list_ascii (rev l)) eqn:Hs.
  - destruct l as [|c l]; [done|]. simpl in Hs.
    apply (f_equal list_ascii_of_string) in Hs.
    rewrite list_ascii_of_string_of_list_ascii in Hs.
    by destruct (rev l).
  - rewrite <- Hs, (int_digits_rev base l v 0 Hv). f_equal; lia.
Qed.

Lemma string_of_list_ascii_chars (l : list ascii) :
  list_ascii_of_string (string_of_list_ascii l) = l.
Proof. apply list_ascii_of_string_of_list_ascii. Qed.

(** C2. For every non-negative [n], the binary string read in base 2 and
    the hexadecimal string read in base 16 both give [n] back; the
    hexadecimal string is written in the alphabet [0-9A-F]; and [0] is
    rendered as the single character ["0"] in both bases. *)
Theorem convert_nonneg_round_trip (n : Z) :
  0 <= n ->
  _convert_number n = (_to_binary_nonneg n, _to_hex_nonneg n)
  /\ int_of_numeral (_to_binary_nonneg n) 2 = Some n
  /\ int_of_numeral (_to_hex_nonneg n) 16 = Some n
  /\ Forall (fun c => Py.char_in c "0123456789ABCDEF" = true)
       (list_ascii_of_string (_to_hex_nonneg n))
  /\ _convert_number 0 = ("0", "0").
Proof.
  intros Hn. split.
  { unfold _convert_number. destruct (Z.leb_spec 0 n); [done|lia]. }
  unfold _to_binary_nonneg, _to_hex_nonneg.
  destruct (Z.eqb_spec n 0) as [->|Hnz].
  { repeat split; try reflexivity. by repeat constructor. }
  destruct (bits_loop_spec n []) as (lb & -> & Hvb & Hneb & _).
  destruct (hex_loop_spec n []) as (lh & -> & Hvh & Hneh & Hall).
  rewrite Z.max_r in Hvb, Hvh by lia. simpl.
  split; [apply int_of_numeral_rev; [apply Hneb; lia|done]|].
  split; [apply int_of_numeral_rev; [apply Hneh; lia|done]|].
  split; [|reflexivity].
  rewrite string_of_list_ascii_chars. apply Forall_rev, Hall.
Qed.

Lemma convert_nonneg_round_trip_witness :
  0 <= 255
  /\ _convert_number 255 = (_to_binary_nonneg 255, _to_hex_nonneg 255)
  /\ int_of_numeral (_to_binary_nonneg 255) 2 = Some 255
  /\ int_of_numeral (_to_hex_nonneg 255) 16 = Some 255
  /\ Forall (fun c => Py.char_in c "0123456789ABCDEF" = true)
       (list_ascii_of_string (_to_hex_nonneg 255))
  /\ _convert_number 0 = ("0", "0").
Proof. split; [lia|apply (convert_nonneg_round_trip 255); lia]. Defined.

Lemma forallb_range (P : Z -> bool) (lo : Z) (count : nat) :
  forallb P (map (fun k => lo + Z.of_nat k) (seq 0 count)) = true ->
  forall n, lo <= n < lo + Z.of_nat count -> P n = true.
Proof.
  intros Hall n Hn. rewrite forallb_forall in Hall. apply Hall.
  apply in_map_iff. exists (Z.to_nat (n - lo)). split; [lia|].
  apply in_seq. lia.
Qed.

Lemma negative_rows_ok n : - 1024 <= n < 0 -> negative_row_ok n = true.
Proof.
  apply (forallb_range negative_row_ok (-1024) 1024). vm_compute. reflexivity.
Qed.

(** C1. On every negative [n] down to [-1024] the binary column is
    [2^10 + n] in binary, zero-padded to 10 characters, and the hexadecimal
    column is the hexadecimal of that 10-bit pattern's value, padded to two
    digits with [0] and then to ten with [F]. The pattern of a negative
    number on ten bits has three hexadecimal digits, so the padding with [F]
    stops short of the top digit: [-6] gives [FFFFFFF3FA], [-1] gives
    [FFFFFFF3FF], and neither is the sign-extended [FFFFFFFFFA],
    [FFFFFFFFFF] of the script's documentation. *)
Theorem convert_negative (n : Z) :
  - 1024 <= n < 0 ->
  (fst (_convert_number n) = pad_left "0" 10 (_to_binary_nonneg (2 ^ 10 + n))
   /\ Py.len (fst (_convert_number n)) = 10
   /\ bin_value (fst (_convert_number n)) 0 = 2 ^ 10 + n
   /\ snd (_convert_number n) =
        pad_left "F" 10
          (pad_left "0" 2 (_to_hex_nonneg (bin_value (fst (_convert_number n)) 0))))
  /\ _convert_number (-6) = ("1111111010", "FFFFFFF3FA")
  /\ _convert_number (-1) = ("1111111111", "FFFFFFF3FF").
Proof.
  intros Hn. split; [|split; vm_compute; reflexivity].
  pose proof (negative_rows_ok n Hn) as Hok. unfold negative_row_ok in Hok.
  apply andb_prop in Hok as [Hok Hhex]. apply andb_prop in Hok as [Hok Hval].
  apply andb_prop in Hok as [Hbin Hlen].
  apply String.eqb_eq in Hbin, Hhex. apply Z.eqb_eq in Hlen, Hval.
  done.
Qed.

Lemma convert_negative_witness :
  - 1024 <= -6 < 0
  /\ _convert_number (-6) = ("1111111010", "FFFFFFF3FA")
  /\ _convert_number (-1) = ("1111111111", "FFFFFFF3FF").
Proof. split; [lia|apply (convert_negative (-6)); lia]. Defined.

End ConvertNumbersProofs.

(** ** wordCount.py: properties *)

Module WordCountProofs.
Import WordCount.

(** Some character of [s] is not whitespace. *)
Fixpoint has_word_char (s : string) : bool :=
  match s with
  | EmptyString => false
  | String ch rest => negb (Py.isspace ch) || has_word_char rest
  end.

(** The diagnostic of an empty line, for some line number. *)
Definition empty_line_diagnostic (printed : string) : Prop :=
  exists line_num : Z,
    printed = "Invalid data at line " +:+ Py.str_of_int line_num
                +:+ ": empty line (ignored)".

Lemma lstrip_all_space (s : string) :
  has_word_char s = false -> Py.lstrip_by Py.isspace s = "".
Proof.
  induction s as [|ch s IH]; simpl; [done|].
  destruct (Py.isspace ch); simpl; [exact IH|done].
Qed.

Lemma strip_nonempty_has_word_char (s : string) :
  Py.strip s <> "" -> has_word_char s = true.
Proof.
  intros Hne. destruct (has_word_char s) eqn:Hs; [done|].
  exfalso. apply Hne. unfold Py.strip. by rewrite lstrip_all_space.
Qed.

Lemma tokenize_loop_keeps (text : string) (words : list string) (current : list ascii) :
  words <> [] \/ current <> [] \/ has_word_char text = true ->
  (tokenize_loop text words current).1 <> []
  \/ (tokenize_loop text words current).2 <> [].
Proof.
  revert words current.
  induction text as [|ch text IH]; intros words current Hsome; simpl.
  - destruct Hsome as [?|[?|?]]; [by left|by right|done].
  - simpl in Hsome. destruct (Py.isspace ch); simpl in Hsome.
    + destruct current as [|c current].
      * apply IH. destruct Hsome as [?|[?|?]]; auto.
      * apply IH. left. by destruct words.
    + apply IH. right. left. by destruct current.
Qed.

Lemma tokenize_has_word (text : string) :
  has_word_char text = true -> _tokenize text <> [].
Proof.
  intros Hw. unfold _tokenize.
  pose proof (tokenize_loop_keeps text [] [] (or_intror (or_intror Hw))) as Hk.
  destruct (tokenize_loop text [] []) as [words current]. simpl in Hk.
  destruct current as [|c current].
  - by destruct Hk.
  - by destruct words.
Qed.

(** C10. A line that is not empty once stripped has a character that is not
    whitespace, and the tokenizer, which tests characters with the same
    [isspace], returns at least one word for it; so the loop of [main] never
    prints the [no words] diagnostic: whatever it prints is the diagnostic
    of an empty line. *)
Theorem no_words_branch_unreachable :
  (forall line : string, Py.strip line <> "" -> _tokenize line <> [])
  /\ (forall (raw_lines : list string) (line_num : Z),
        Forall empty_line_diagnostic (read_loop raw_lines line_num).1).
Proof.
  split.
  - intros line Hne. by apply tokenize_has_word, strip_nonempty_has_word_char.
  - induction raw_lines as [|raw_line rest IH]; intros line_num; simpl.
    + constructor.
    + specialize (IH (line_num + 1)).
      destruct (read_loop rest (line_num + 1)) as [printed all_words].
      simpl in IH.
      destruct (Py.strip (Py.strip_chars Py.newline raw_line)) eqn:Hstrip.
      * simpl. constructor; [by exists (line_num + 1)|done].
      * assert (_tokenize (Py.strip_chars Py.newline raw_line) <> []) as Hne.
        { apply tokenize_has_word, strip_nonempty_has_word_char.
          by rewrite Hstrip. }
        by destruct (_tokenize (Py.strip_chars Py.newline raw_line)).
Qed.

Lemma no_words_branch_unreachable_witness :
  Py.strip " a  b " <> "" /\ _tokenize " a  b " <> [].
Proof.
  split; [discriminate|].
  apply (proj1 no_words_branch_unreachable). discriminate.
Defined.

(** *** The word table *)

(** How many times [w] occurs in [words]. *)
Definition occurrences (w : string) (words : list string) : Z :=
  Z.of_nat (List.length (filter (fun x => x = w) words)).

(** The distinct words of [words], each at the place of its first
    occurrence. *)
Fixpoint first_appearances (words : list string) : list string :=
  match words with
  | [] => []
  | w :: rest => w :: filter (fun x => x <> w) (first_appearances rest)
  end.

(** The index of the first occurrence of [w] in [words] (the length of
    [words] when there is none). *)
Fixpoint first_index (w : string) (words : list string) : nat :=
  match words with
  | [] => O
  | x :: rest => if decide (x = w) then O else S (first_index w rest)
  end.

(** The sum of the frequencies a dictionary records. *)
Definition total_count (counts : gmap string Z) : Z :=
  map_fold (fun _ c acc => c + acc) 0 counts.

(** What the dictionary holds for [w] once the words [seen] are counted. *)
Definition count_of (seen : list string) (w : string) : option Z :=
  if decide (w ∈ seen) then Some (occurrences w seen) else None.

Lemma occurrences_snoc (w x : string) (seen : list string) :
  occurrences w (seen ++ [x]) =
  occurrences w seen + (if decide (x = w) then 1 else 0).
Proof.
  unfold occurrences. rewrite filter_app, length_app.
  rewrite filter_cons, filter_nil. destruct (decide (x = w)); simpl; lia.
Qed.

Lemma occurrences_absent (w : string) (seen : list string) :
  w ∉ seen -> occurrences w seen = 0.
Proof.
  intros Hnin. unfold occurrences.
  induction seen as [|x seen IH]; [done|].
  rewrite not_elem_of_cons in Hnin. destruct Hnin as [Hne Hnin].
  rewrite filter_cons, decide_False by done. by apply IH.
Qed.

Lemma occurrences_pos (w : string) (seen : list string) :
  w ∈ seen -> 0 < occurrences w seen.
Proof.
  intros Hin. unfold occurrences.
  assert (w ∈ filter (fun x => x = w) seen) as Hf by (by apply list_elem_of_filter).
  destruct (filter (fun x => x = w) seen); [by apply elem_of_nil in Hf|simpl; lia].
Qed.

Lemma first_appearances_elem_of (w : string) (words : list string) :
  w ∈ first_appearances words <-> w ∈ words.
Proof.
  induction words as [|x words IH]; simpl; [done|].
  rewrite !elem_of_cons, list_elem_of_filter, IH.
  destruct (decide (w = x)); naive_solver.
Qed.

Lemma first_appearances_NoDup (words : list string) :
  NoDup (first_appearances words).
Proof.
  induction words as [|x words IH]; simpl; constructor.
  - rewrite list_elem_of_filter. naive_solver.
  - by apply NoDup_filter.
Qed.

Lemma first_appearances_snoc (w : string) (seen : list string) :
  first_appearances (seen ++ [w]) =
  if decide (w ∈ seen) then first_appearances seen
  else first_appearances seen ++ [w].
Proof.
  induction seen as [|x seen IH].
  - rewrite decide_False by apply not_elem_of_nil. done.
  - cbn [app first_appearances]. rewrite IH.
    destruct (decide (w ∈ seen)) as [Hin|Hnin].
    + rewrite decide_True by (by right). done.
    + rewrite filter_app, filter_cons, filter_nil.
      repeat case_decide; simplify_eq; rewrite ?app_nil_r; try done.
      all: exfalso; set_solver.
Qed.

Lemma first_index_sorted (words : list string) :
  StronglySorted lt ((fun w => first_index w words) <$> first_appearances words).
Proof.
  induction words as [|x words IH]; [constructor|].
  cbn [first_appearances]. rewrite fmap_cons.
  assert ((fun w => first_index w (x :: words)) <$> filter (fun y => y <> x) (first_appearances words)
          = S <$> ((fun w => first_index w words) <$> filter (fun y => y <> x) (first_appearances words)))
    as ->.
  { rewrite <- list_fmap_compose. apply Forall_fmap_ext_1, Forall_forall.
    intros w [Hw _]%list_elem_of_filter. simpl.
    by rewrite decide_False. }
  cbn [first_index]. rewrite decide_True by done.
  constructor.
  - apply (StronglySorted_fmap S lt lt); [intros ???; lia|].
    clear -IH. induction (first_appearances words) as [|y l IHl]; [constructor|].
    rewrite fmap_cons in IH. apply StronglySorted_inv in IH as [Hl Hy].
    rewrite filter_cons. destruct (decide (y <> x)); [|auto].
    rewrite fmap_cons. constructor; [auto|].
    rewrite Forall_fmap, Forall_forall in *.
    intros z [_ Hz]%list_elem_of_filter. by apply Hy.
  - rewrite Forall_fmap. apply Forall_forall. intros ? _. simpl. lia.
Qed.

Lemma total_count_insert_new (counts : gmap string Z) (w : string) (c : Z) :
  counts !! w = None ->
  total_count (<[w := c]> counts) = c + total_count counts.
Proof.
  intros Hw. unfold total_count. apply map_fold_insert_L; [intros; lia|done].
Qed.

Lemma total_count_update (counts : gmap string Z) (w : string) (c c' : Z) :
  counts !! w = Some c ->
  total_count (<[w := c']> counts) = total_count counts - c + c'.
Proof.
  intros Hw. rewrite <- (insert_delete_eq counts).
  rewrite total_count_insert_new by apply lookup_delete_eq.
  unfold total_count at 2.
  rewrite (map_fold_delete_L _ _ w c counts); [|intros; lia|done].
  fold (total_count (delete w counts)). lia.
Qed.

(** The invariant of the counting loop: after the words [seen], the
    dictionary and the list are those of [seen]. *)
Lemma count_loop_spec (words seen : list string) (counts : gmap string Z)
    (order : list string) :
  (forall w, counts !! w = count_of seen w) ->
  order = first_appearances seen ->
  total_count counts = Z.of_nat (List.length seen) ->
  (forall w, (count_loop words counts order).1 !! w = count_of (seen ++ words) w)
  /\ (count_loop words counts order).2 = first_appearances (seen ++ words)
  /\ total_count (count_loop words counts order).1
     = Z.of_nat (List.length (seen ++ words)).
Proof.
  revert seen counts order.
  induction words as [|x words IH]; intros seen counts order Hc Ho Ht; simpl.
  { by rewrite app_nil_r. }
  rewrite (cons_middle x seen words), app_assoc.
  pose proof (Hc x) as Hx. unfold count_of in Hx.
  destruct (decide (x ∈ seen)) as [Hin|Hnin]; rewrite Hx.
  - apply IH.
    + intros w. unfold count_of. rewrite occurrences_snoc.
      destruct (decide (x = w)) as [->|Hne].
      * rewrite lookup_insert_eq, decide_True; [done|].
        apply elem_of_app; by left.
      * rewrite lookup_insert_ne, Hc by done. unfold count_of.
        rewrite Z.add_0_r. destruct (decide (w ∈ seen)) as [Hw|Hw].
        -- rewrite decide_True; [done|]. apply elem_of_app; by left.
        -- rewrite decide_False; [done|].
           rewrite elem_of_app, list_elem_of_singleton. naive_solver.
    + by rewrite first_appearances_snoc, decide_True.
    + rewrite (total_count_update _ _ _ _ Hx), Ht, length_app. simpl. lia.
  - apply IH.
    + intros w. unfold count_of. rewrite occurrences_snoc.
      destruct (decide (x = w)) as [->|Hne].
      * rewrite lookup_insert_eq, decide_True.
        -- by rewrite occurrences_absent.
        -- apply elem_of_app; right; by left.
      * rewrite lookup_insert_ne, Hc by done. unfold count_of.
        rewrite Z.add_0_r. destruct (decide (w ∈ seen)) as [Hw|Hw].
        -- rewrite decide_True; [done|]. apply elem_of_app; by left.
        -- rewrite decide_False; [done|].
           rewrite elem_of_app, list_elem_of_singleton. naive_solver.
    + by rewrite first_appearances_snoc, decide_False, Ho.
    + rewrite (total_count_insert_new _ _ _ Hx), Ht, length_app. simpl. lia.
Qed.

Lemma word_lines_total (counts : gmap string Z) (order : list string) :
  (forall w, w ∈ order -> is_Some (counts !! w)) ->
  is_Some (word_lines counts order).
Proof.
  induction order as [|w order IH]; intros Hall; simpl; [by eexists|].
  destruct (Hall w ltac:(left)) as [c ->].
  destruct IH as [lines ->]; [|by eexists].
  intros w' Hw'. apply Hall. by right.
Qed.

Lemma build_report_total (words : list string) (elapsed : float) :
  is_Some (_build_report (_count_words words).1 (_count_words words).2 elapsed).
Proof.
  destruct (count_loop_spec words [] ∅ []) as (Hcounts & Horder & _);
    [by intros w; rewrite lookup_empty|done..|].
  simpl in Hcounts, Horder. unfold _build_report, _count_words.
  destruct (word_lines_total (count_loop words ∅ []).1 (count_loop words ∅ []).2)
    as [lines ->]; [|by eexists].
  intros w Hw. rewrite Horder in Hw.
  apply (proj1 (first_appearances_elem_of _ _)) in Hw.
  rewrite Hcounts. unfold count_of. rewrite decide_True by done. eauto.
Qed.

(** C9. For every list of words, the list [order] that [_count_words]
    returns holds each distinct word exactly once, in the order of the first
    occurrences in the input; the dictionary holds, for each word of the
    input, the number of its occurrences, and nothing else; and the recorded
    frequencies add up to the number of words. The words of
    ["b a b c a a"] are reported as [b], [a], [c] with counts 2, 3, 1. *)
Theorem count_words_table (words : list string) :
  NoDup (_count_words words).2
  /\ (forall w, w ∈ (_count_words words).2 <-> w ∈ words)
  /\ (_count_words words).2 = first_appearances words
  /\ StronglySorted lt
       ((fun w => first_index w words) <$> (_count_words words).2)
  /\ (forall w, (_count_words words).1 !! w =
                 if decide (w ∈ words) then Some (occurrences w words) else None)
  /\ total_count (_count_words words).1 = Z.of_nat (List.length words)
  /\ (_count_words (_tokenize "b a b c a a")).2 = ["b"; "a"; "c"]
  /\ (fun w => (_count_words (_tokenize "b a b c a a")).1 !! w)
       <$> ["b"; "a"; "c"] = [Some 2; Some 3; Some 1].
Proof.
  destruct (count_loop_spec words [] ∅ []) as (Hcounts & Horder & Htotal).
  { intros w. by rewrite lookup_empty. }
  { done. }
  { done. }
  simpl in Hcounts, Horder, Htotal. unfold _count_words. rewrite Horder.
  split; [apply first_appearances_NoDup|].
  split; [intros w; apply first_appearances_elem_of|].
  split; [done|].
  split; [apply first_index_sorted|].
  split; [exact Hcounts|].
  split; [exact Htotal|].
  split; vm_compute; reflexivity.
Qed.

End WordCountProofs.

(** ** computeStatistics.py: properties *)

Module ComputeStatisticsProofs.
Import ComputeStatistics FloatFacts FloatSign DictFacts StringFacts.

(** *** The mode *)

(** How many elements of [values] are equal ([==]) to [v]. *)
Definition frequency (v : float) (values : list float) : Z :=
  Z.of_nat (List.length (filter (fun x => (x =? v)%float = true) values)).

(** The highest frequency of an element of [values]. *)
Definition max_frequency (values : list float) : Z :=
  foldr Z.max 0 ((fun v => frequency v values) <$> values).

(** The two dictionaries of [_mode] side by side: a key, its count and the
    index recorded for it. *)
Abbreviation entry := (float * Z * Z)%type.

Definition freq_items (E : list entry) : list (float * Z) :=
  (fun e : entry => (e.1.1, e.1.2)) <$> E.

Definition pos_items (E : list entry) : list (float * Z) :=
  (fun e : entry => (e.1.1, e.2)) <$> E.

(** The state of the two dictionaries once the elements [seen] are
    counted. *)
Record table_inv (seen : list float) (E : list entry) : Prop := {
  inv_entry : forall p k c i, E !! p = Some (k, c, i) ->
    0 <= i /\ seen !! Z.to_nat i = Some k /\ c = Z.max 1 (frequency k seen);
  inv_incr : forall p q (e e' : entry),
    (p < q)%nat -> E !! p = Some e -> E !! q = Some e' -> e.2 < e'.2;
  inv_distinct : forall p q (e e' : entry),
    p <> q -> E !! p = Some e -> E !! q = Some e' ->
    (e.1.1 =? e'.1.1)%float = false;
  inv_cover : forall j w, seen !! j = Some w -> (w =? w)%float = true ->
    exists p (e : entry),
      E !! p = Some e /\ (e.1.1 =? w)%float = true /\ e.2 <= Z.of_nat j
}.

Lemma frequency_nonneg v values : 0 <= frequency v values.
Proof. unfold frequency. lia. Qed.

Lemma frequency_snoc k v seen :
  frequency k (seen ++ [v]) =
  frequency k seen + (if (v =? k)%float then 1 else 0).
Proof.
  unfold frequency. rewrite filter_app, length_app, filter_cons, filter_nil.
  destruct (v =? k)%float.
  - rewrite decide_True by done. simpl. lia.
  - rewrite decide_False by done. simpl. lia.
Qed.

Lemma frequency_pos k x values :
  x ∈ values -> (x =? k)%float = true -> 1 <= frequency k values.
Proof.
  intros Hin Hk. unfold frequency.
  assert (x ∈ filter (fun y => (y =? k)%float = true) values) as Hf
    by (by apply list_elem_of_filter).
  destruct (filter _ values); [by apply elem_of_nil in Hf|simpl; lia].
Qed.

Lemma frequency_pos_inv k values :
  1 <= frequency k values -> exists x, x ∈ values /\ (x =? k)%float = true.
Proof.
  unfold frequency. intros Hf.
  destruct (filter (fun y => (y =? k)%float = true) values) as [|x l] eqn:Hl;
    [simpl in Hf; lia|].
  assert (x ∈ filter (fun y => (y =? k)%float = true) values) as Hx
    by (rewrite Hl; left).
  apply list_elem_of_filter in Hx as [? ?]. eauto.
Qed.

Lemma frequency_congr k w values :
  (k =? w)%float = true -> frequency k values = frequency w values.
Proof.
  intros Hkw. unfold frequency. f_equal. f_equal.
  apply list_filter_iff. intros x. split; intros Hx.
  - by apply (eqb_trans x k w).
  - apply (eqb_trans x w k); [done|by rewrite eqb_sym].
Qed.

Lemma freq_items_insert E p k c c' i :
  E !! p = Some (k, c, i) ->
  freq_items (<[p := (k, c', i)]> E) = <[p := (k, c')]> (freq_items E).
Proof. intros _. unfold freq_items. by rewrite list_fmap_insert. Qed.

Lemma pos_items_insert E p k c c' i :
  E !! p = Some (k, c, i) -> pos_items (<[p := (k, c', i)]> E) = pos_items E.
Proof.
  intros Hp. unfold pos_items. rewrite list_fmap_insert.
  apply list_insert_id. rewrite list_lookup_fmap. by rewrite Hp.
Qed.

Lemma items_same_keys E : (freq_items E).*1 = (pos_items E).*1.
Proof.
  unfold freq_items, pos_items. rewrite <- !list_fmap_compose.
  by apply list_fmap_ext.
Qed.

Lemma lookup_insert_entry (E : list entry) (p q : nat) k c c' i (e' : entry) :
  E !! p = Some (k, c, i) -> <[p := (k, c', i)]> E !! q = Some e' ->
  exists e : entry, E !! q = Some e /\ e.1.1 = e'.1.1 /\ e.2 = e'.2.
Proof.
  intros Hp Hq. destruct (decide (q = p)) as [->|Hne].
  - rewrite list_lookup_insert_eq in Hq by (by eapply lookup_lt_Some).
    injection Hq as <-. eauto.
  - rewrite list_lookup_insert_ne in Hq by done. eauto.
Qed.

Lemma lookup_entry_insert (E : list entry) (p q : nat) k c c' i (e : entry) :
  E !! p = Some (k, c, i) -> E !! q = Some e ->
  exists e' : entry,
    <[p := (k, c', i)]> E !! q = Some e' /\ e.1.1 = e'.1.1 /\ e.2 = e'.2.
Proof.
  intros Hp Hq. destruct (decide (q = p)) as [->|Hne].
  - rewrite list_lookup_insert_eq by (by eapply lookup_lt_Some).
    rewrite Hp in Hq. injection Hq as <-. eauto.
  - rewrite list_lookup_insert_ne by done. eauto.
Qed.

Lemma entry_index_bound seen (E : list entry) (p : nat) (e : entry) :
  table_inv seen E -> E !! p = Some e ->
  0 <= e.2 < Z.of_nat (List.length seen).
Proof.
  intros Hinv Hp. destruct e as [[k c] i].
  destruct (inv_entry _ _ Hinv p k c i Hp) as (Hi & Hk & _).
  apply lookup_lt_Some in Hk. simpl. lia.
Qed.

(** A key that matches [v] was counted already. *)
Lemma count_step_found seen (E : list entry) v (p : nat) k c i :
  table_inv seen E -> E !! p = Some (k, c, i) -> (k =? v)%float = true ->
  table_inv (seen ++ [v]) (<[p := (k, c + 1, i)]> E).
Proof.
  intros Hinv Hp Hkv. split.
  - intros q k1 c1 i1 Hq. destruct (decide (q = p)) as [->|Hne].
    + rewrite list_lookup_insert_eq in Hq by (by eapply lookup_lt_Some).
      injection Hq as <- <- <-.
      destruct (inv_entry _ _ Hinv p k c i Hp) as (Hi & Hk & Hc).
      split; [done|]. split; [by apply lookup_app_l_Some|].
      rewrite frequency_snoc, (eqb_sym v k), Hkv.
      assert (1 <= frequency k seen).
      { apply (frequency_pos k k); [by eapply list_elem_of_lookup_2|].
        by apply (eqb_refl_l k v). }
      lia.
    + rewrite list_lookup_insert_ne in Hq by done.
      destruct (inv_entry _ _ Hinv q k1 c1 i1 Hq) as (Hi & Hk & Hc).
      split; [done|]. split; [by apply lookup_app_l_Some|].
      rewrite frequency_snoc.
      destruct (v =? k1)%float eqn:Hv; [|lia].
      pose proof (inv_distinct _ _ Hinv p q _ _ (not_eq_sym Hne) Hp Hq) as Hd.
      simpl in Hd. rewrite (eqb_trans k v k1 Hkv Hv) in Hd. done.
  - intros q1 q2 e1 e2 Hlt H1 H2.
    destruct (lookup_insert_entry _ _ _ _ _ _ _ _ Hp H1) as (e1' & H1' & _ & <-).
    destruct (lookup_insert_entry _ _ _ _ _ _ _ _ Hp H2) as (e2' & H2' & _ & <-).
    by apply (inv_incr _ _ Hinv q1 q2).
  - intros q1 q2 e1 e2 Hne H1 H2.
    destruct (lookup_insert_entry _ _ _ _ _ _ _ _ Hp H1) as (e1' & H1' & <- & _).
    destruct (lookup_insert_entry _ _ _ _ _ _ _ _ Hp H2) as (e2' & H2' & <- & _).
    by apply (inv_distinct _ _ Hinv q1 q2).
  - intros j w Hj Hw. apply lookup_app_Some in Hj as [Hj|[Hlen Hj]].
    + destruct (inv_cover _ _ Hinv j w Hj Hw) as (q & e & Hq & Hk & Hi).
      destruct (lookup_entry_insert _ _ _ _ _ (c + 1) _ _ Hp Hq)
        as (e' & Hq' & Hk' & Hi').
      exists q, e'. rewrite <- Hk', <- Hi'. done.
    + apply list_lookup_singleton_Some in Hj as [Hj ->].
      exists p, (k, c + 1, i). split.
      * apply list_lookup_insert_eq. by eapply lookup_lt_Some.
      * split; [done|]. pose proof (entry_index_bound _ _ _ _ Hinv Hp). simpl in *. lia.
Qed.

(** No key matches [v]: it is new. *)
Lemma count_step_new seen (E : list entry) v :
  table_inv seen E ->
  (forall (q : nat) (e : entry), E !! q = Some e -> (e.1.1 =? v)%float = false) ->
  table_inv (seen ++ [v]) (E ++ [(v, 1, Z.of_nat (List.length seen))]).
Proof.
  intros Hinv Hnew.
  assert (frequency v seen = 0) as Hzero.
  { pose proof (frequency_nonneg v seen).
    destruct (Z_le_dec 1 (frequency v seen)) as [Hpos|]; [|lia].
    apply frequency_pos_inv in Hpos as (x & Hx & Hxv).
    apply list_elem_of_lookup in Hx as [j Hj].
    destruct (inv_cover _ _ Hinv j x Hj (eqb_refl_l x v Hxv)) as (q & e & Hq & Hk & _).
    pose proof (Hnew q e Hq) as Hc. rewrite (eqb_trans _ _ _ Hk Hxv) in Hc. done. }
  split.
  - intros q k c i Hq. apply lookup_app_Some in Hq as [Hq|[Hlen Hq]].
    + destruct (inv_entry _ _ Hinv q k c i Hq) as (Hi & Hk & Hc).
      split; [done|]. split; [by apply lookup_app_l_Some|].
      rewrite frequency_snoc, (eqb_sym v k).
      pose proof (Hnew q _ Hq) as Hkv. simpl in Hkv. rewrite Hkv. lia.
    + apply list_lookup_singleton_Some in Hq as [_ [= <- <- <-]].
      split; [lia|]. split.
      * rewrite Nat2Z.id. by apply list_lookup_middle.
      * rewrite frequency_snoc, Hzero. destruct (v =? v)%float; lia.
  - intros q1 q2 e1 e2 Hlt H1 H2.
    apply lookup_app_Some in H1 as [H1|[Hlen1 H1]];
      apply lookup_app_Some in H2 as [H2|[Hlen2 H2]].
    + by apply (inv_incr _ _ Hinv q1 q2).
    + apply list_lookup_singleton_Some in H2 as [_ <-]. simpl.
      pose proof (entry_index_bound _ _ _ _ Hinv H1). lia.
    + apply lookup_lt_Some in H2. lia.
    + apply list_lookup_singleton_Some in H1 as [? _].
      apply list_lookup_singleton_Some in H2 as [? _]. lia.
  - intros q1 q2 e1 e2 Hne H1 H2.
    apply lookup_app_Some in H1 as [H1|[Hlen1 H1]];
      apply lookup_app_Some in H2 as [H2|[Hlen2 H2]].
    + by apply (inv_distinct _ _ Hinv q1 q2).
    + apply list_lookup_singleton_Some in H2 as [_ <-]. simpl.
      by apply (Hnew q1).
    + apply list_lookup_singleton_Some in H1 as [_ <-]. simpl.
      rewrite eqb_sym. by apply (Hnew q2).
    + apply list_lookup_singleton_Some in H1 as [? _].
      apply list_lookup_singleton_Some in H2 as [? _]. lia.
  - intros j w Hj Hw. apply lookup_app_Some in Hj as [Hj|[Hlen Hj]].
    + destruct (inv_cover _ _ Hinv j w Hj Hw) as (q & e & Hq & Hk & Hi).
      exists q, e. split; [by apply lookup_app_l_Some|done].
    + apply list_lookup_singleton_Some in Hj as [Hj <-].
      exists (List.length E), (v, 1, Z.of_nat (List.length seen)).
      split; [by apply list_lookup_middle|]. split; [done|]. simpl. lia.
Qed.

Lemma table_inv_nil : table_inv [] [].
Proof. split; intros *; by rewrite ?lookup_nil. Qed.

(** The first loop of [_mode] keeps the two dictionaries in that state. *)
Lemma mode_count_loop_spec (values seen : list float) (E : list entry) :
  table_inv seen E ->
  exists E' : list entry,
    mode_count_loop values (Z.of_nat (List.length seen)) (freq_items E) (pos_items E)
    = (freq_items E', pos_items E')
    /\ table_inv (seen ++ values) E'.
Proof.
  revert seen E. induction values as [|v values IH]; intros seen E Hinv.
  { exists E. by rewrite app_nil_r. }
  cbn [mode_count_loop].
  rewrite <- (dict_contains_keys PrimFloat.eqb (freq_items E) (pos_items E) v)
    by apply items_same_keys.
  unfold Py.dict_contains.
  assert (Z.of_nat (List.length seen) + 1 = Z.of_nat (List.length (seen ++ [v])))
    as -> by (rewrite length_app; simpl; lia).
  rewrite (cons_middle v seen values), app_assoc.
  destruct (Py.dict_get PrimFloat.eqb (freq_items E) v) as [c|] eqn:Hget.
  - apply dict_get_Some in Hget as (p & k & Hp & Hk & Hset).
    unfold freq_items in Hp. rewrite list_lookup_fmap in Hp.
    destruct (E !! p) as [[[k0 c0] i]|] eqn:HEp; [|done].
    injection Hp as -> ->. rewrite Hset. cbn [default]. change (id c) with c.
    rewrite <- (freq_items_insert E p k c (c + 1) i HEp).
    rewrite <- (pos_items_insert E p k c (c + 1) i HEp).
    apply IH. by apply count_step_found.
  - pose proof Hget as Hget'.
    apply dict_get_None in Hget as [Hall Hset]. rewrite Hset. cbn [default].
    assert (Py.dict_get PrimFloat.eqb (pos_items E) v = None) as Hpos.
    { pose proof (dict_contains_keys PrimFloat.eqb (freq_items E) (pos_items E) v
                    (items_same_keys E)) as Hc.
      unfold Py.dict_contains in Hc. rewrite Hget' in Hc.
      by destruct (Py.dict_get PrimFloat.eqb (pos_items E) v). }
    apply dict_get_None in Hpos as [_ Hset']. rewrite Hset'.
    assert (freq_items E ++ [(v, 0 + 1)]
            = freq_items (E ++ [(v, 1, Z.of_nat (List.length seen))])) as ->
      by (unfold freq_items; by rewrite fmap_app).
    assert (pos_items E ++ [(v, Z.of_nat (List.length seen))]
            = pos_items (E ++ [(v, 1, Z.of_nat (List.length seen))])) as ->
      by (unfold pos_items; by rewrite fmap_app).
    apply IH. apply count_step_new; [done|].
    intros q e Hq. apply (Hall (e.1.1, e.1.2)).
    unfold freq_items. apply list_elem_of_fmap. exists e. split; [done|].
    by eapply list_elem_of_lookup_2.
Qed.

(** The greatest element of a list of integers, [0] when there is none
    above it. *)
Lemma max_list_ge (l : list Z) (x : Z) : x ∈ l -> x <= foldr Z.max 0 l.
Proof.
  induction l as [|y l IH]; [by intros ?%elem_of_nil|].
  intros [->|Hin]%elem_of_cons; simpl; [lia|]. specialize (IH Hin). lia.
Qed.

Lemma max_list_in (l : list Z) : 0 < foldr Z.max 0 l -> foldr Z.max 0 l ∈ l.
Proof.
  induction l as [|y l IH]; simpl; [lia|]. intros Hpos.
  destruct (Z.max_spec y (foldr Z.max 0 l)) as [[Hlt ->]|[Hge ->]].
  - right. apply IH. lia.
  - left.
Qed.

(** The second loop of [_mode]. *)
Lemma mode_max_loop_spec (E : list entry) (m : Z) :
  0 <= m ->
  mode_max_loop (freq_items E) m
  = Z.max m (foldr Z.max 0 ((fun e : entry => e.1.2) <$> E)).
Proof.
  revert m. induction E as [|[[k c] i] E IH]; intros m Hm; cbn -[Z.max].
  - lia.
  - rewrite IH by lia. lia.
Qed.

Lemma sorted_of_lookup {A} (R : relation A) (l : list A) :
  (forall (p q : nat) x y, (p < q)%nat -> l !! p = Some x -> l !! q = Some y -> R x y) ->
  StronglySorted R l.
Proof.
  induction l as [|x l IH]; intros HR; constructor.
  - apply IH. intros p q y z Hlt Hp Hq. apply (HR (S p) (S q)); [lia|done..].
  - apply Forall_lookup. intros q y Hq. apply (HR O (S q)); [lia|done..].
Qed.

(** The third loop of [_mode]: over items in increasing order of recorded
    index, it keeps the first item whose count is [max_count]. *)
Lemma mode_best_loop_spec (E0 Erest : list entry) (max_count : Z)
    (best_val : option float) (best_first : option Z) :
  (forall e : entry, e ∈ Erest -> e.1.2 = max_count ->
     Py.dict_get PrimFloat.eqb (pos_items E0) e.1.1 = Some e.2) ->
  StronglySorted (fun e e' : entry => e.2 < e'.2) Erest ->
  (forall b, best_first = Some b -> Forall (fun e : entry => b < e.2) Erest) ->
  mode_best_loop (freq_items Erest) (pos_items E0) max_count best_val best_first
  = Some (match best_first with
          | Some _ => (best_val, best_first)
          | None =>
              match list_find (fun e : entry => e.1.2 = max_count) Erest with
              | Some (_, e) => (Some e.1.1, Some e.2)
              | None => (best_val, None)
              end
          end).
Proof.
  revert best_val best_first.
  induction Erest as [|[[k c] i] rest IH]; intros best_val best_first Hget Hsorted Hbound.
  { by destruct best_first. }
  apply StronglySorted_inv in Hsorted as [Hsorted Hhead].
  assert (forall e : entry, e ∈ rest -> e.1.2 = max_count ->
            Py.dict_get PrimFloat.eqb (pos_items E0) e.1.1 = Some e.2) as Hget'
    by (intros e He; apply Hget; by right).
  cbn [freq_items fmap list_fmap mode_best_loop fst snd].
  destruct (Z.eqb_spec c max_count) as [Hc|Hc].
  - pose proof (Hget (k, c, i) ltac:(left) Hc) as Hk. cbn [fst snd] in Hk.
    rewrite Hk.
    destruct best_first as [b|].
    + pose proof (Hbound b eq_refl) as Hb. apply Forall_cons in Hb as [Hbi Hb].
      simpl in Hbi. destruct (Z.ltb_spec i b); [lia|].
      fold (freq_items rest). rewrite IH; [done..|]. by intros ? [= <-].
    + fold (freq_items rest). rewrite IH; [|done..|by intros ? [= <-]].
      cbn [list_find]. by rewrite decide_True.
  - fold (freq_items rest). rewrite IH; [|done..|].
    + destruct best_first as [b|]; [done|].
      cbn [list_find]. rewrite decide_False by done.
      by destruct (list_find _ rest) as [[n e]|].
    + intros b Hb. specialize (Hbound b Hb). by apply Forall_cons in Hbound as [_ ?].
Qed.

Lemma entry_count_spec values (E : list entry) (e : entry) :
  table_inv values E -> e ∈ E ->
  e.1.2 = Z.max 1 (frequency e.1.1 values) /\ e.1.1 ∈ values.
Proof.
  intros Hinv [p Hp]%list_elem_of_lookup. destruct e as [[k c] i].
  destruct (inv_entry _ _ Hinv p k c i Hp) as (_ & Hk & Hc).
  split; [done|]. by eapply list_elem_of_lookup_2.
Qed.

Lemma frequency_le_max w values :
  w ∈ values -> frequency w values <= max_frequency values.
Proof.
  intros Hw. apply max_list_ge, list_elem_of_fmap. eauto.
Qed.

Lemma max_frequency_attained values :
  0 < max_frequency values ->
  exists w, w ∈ values /\ frequency w values = max_frequency values.
Proof.
  intros Hpos. apply max_list_in in Hpos.
  apply list_elem_of_fmap in Hpos as (w & Hw & Hin). eauto.
Qed.

Lemma table_max_low values (E : list entry) :
  table_inv values E -> max_frequency values <= 1 ->
  foldr Z.max 0 ((fun e : entry => e.1.2) <$> E) <= 1.
Proof.
  intros Hinv Hlow.
  destruct (Z_lt_dec 0 (foldr Z.max 0 ((fun e : entry => e.1.2) <$> E)))
    as [Hpos|]; [|lia].
  apply max_list_in in Hpos. apply list_elem_of_fmap in Hpos as (e & He & Hin).
  destruct (entry_count_spec _ _ _ Hinv Hin) as [Hc Hk].
  pose proof (frequency_le_max _ _ Hk). lia.
Qed.

Lemma table_max_high values (E : list entry) :
  table_inv values E -> 1 < max_frequency values ->
  foldr Z.max 0 ((fun e : entry => e.1.2) <$> E) = max_frequency values.
Proof.
  intros Hinv Hhigh. apply Z.le_antisymm.
  - destruct (Z_lt_dec 0 (foldr Z.max 0 ((fun e : entry => e.1.2) <$> E)))
      as [Hpos|]; [|lia].
    apply max_list_in in Hpos. apply list_elem_of_fmap in Hpos as (e & He & Hin).
    destruct (entry_count_spec _ _ _ Hinv Hin) as [Hc Hk].
    pose proof (frequency_le_max _ _ Hk). lia.
  - destruct (max_frequency_attained values ltac:(lia)) as (w & Hw & Hf).
    destruct (frequency_pos_inv w values ltac:(lia)) as (x & _ & Hxw).
    apply list_elem_of_lookup in Hw as [j Hj].
    destruct (inv_cover _ _ Hinv j w Hj (eqb_refl_r x w Hxw)) as (p & e & Hp & Hk & _).
    apply list_elem_of_lookup_2 in Hp.
    destruct (entry_count_spec _ _ _ Hinv Hp) as [Hc _].
    rewrite (frequency_congr _ _ _ Hk) in Hc.
    assert (e.1.2 <= foldr Z.max 0 ((fun e : entry => e.1.2) <$> E))
      by (apply max_list_ge, list_elem_of_fmap; eauto).
    lia.
Qed.

(** The lookups of the third loop succeed on the items it looks up. *)
Lemma table_first_pos values (E : list entry) (e : entry) :
  table_inv values E -> e ∈ E -> 1 < e.1.2 ->
  Py.dict_get PrimFloat.eqb (pos_items E) e.1.1 = Some e.2.
Proof.
  intros Hinv Hin Hc. destruct (entry_count_spec _ _ _ Hinv Hin) as [Hspec _].
  destruct (frequency_pos_inv e.1.1 values ltac:(lia)) as (x & _ & Hx).
  apply list_elem_of_lookup in Hin as [p Hp].
  apply (dict_get_unique PrimFloat.eqb (pos_items E) p e.1.1).
  - unfold pos_items. rewrite list_lookup_fmap. by rewrite Hp.
  - by apply (eqb_refl_r x).
  - intros q [k' i'] Hne Hq. unfold pos_items in Hq.
    rewrite list_lookup_fmap in Hq.
    destruct (E !! q) as [e'|] eqn:Hq'; [|done]. injection Hq as <- <-.
    by apply (inv_distinct _ _ Hinv q p).
Qed.

(** [_mode], with its first two loops replaced by what they compute. *)
Lemma mode_unfold values :
  exists E : list entry,
    table_inv values E
    /\ _mode values =
       (let max_count := foldr Z.max 0 ((fun e : entry => e.1.2) <$> E) in
        if max_count <=? 1 then Some (false, None)
        else
          match list_find (fun e : entry => e.1.2 = max_count) E with
          | Some (_, e) => Some (true, Some e.1.1)
          | None => Some (true, None)
          end).
Proof.
  destruct (mode_count_loop_spec values [] [] table_inv_nil) as (E & Hloop & Hinv).
  exists E. split; [done|]. unfold _mode.
  change (mode_count_loop values 0 [] [])
    with (mode_count_loop values (Z.of_nat (List.length (@nil float)))
            (freq_items []) (pos_items [])).
  rewrite Hloop. rewrite mode_max_loop_spec by lia.
  assert (0 <= foldr Z.max 0 ((fun e : entry => e.1.2) <$> E)) as Hnn.
  { clear. induction E as [|e E IH]; cbn -[Z.max]; lia. }
  rewrite Z.max_r by done. cbv zeta.
  destruct (Z.leb_spec (foldr Z.max 0 ((fun e : entry => e.1.2) <$> E)) 1)
    as [Hle|Hgt]; [done|].
  rewrite mode_best_loop_spec.
  - simpl. by destruct (list_find _ E) as [[n e]|].
  - intros e He Hc. apply (table_first_pos values); [done..|lia].
  - apply sorted_of_lookup. intros p q e e' Hlt Hp Hq.
    by apply (inv_incr _ _ Hinv p q).
  - done.
Qed.

Lemma mode_absent values :
  max_frequency values <= 1 -> _mode values = Some (false, None).
Proof.
  intros Hlow. destruct (mode_unfold values) as (E & Hinv & ->). cbv zeta.
  pose proof (table_max_low _ _ Hinv Hlow).
  by destruct (Z.leb_spec (foldr Z.max 0 ((fun e : entry => e.1.2) <$> E)) 1);
    [|lia].
Qed.

Lemma mode_present values :
  1 < max_frequency values ->
  exists (i : nat) (v : float),
    _mode values = Some (true, Some v)
    /\ values !! i = Some v
    /\ frequency v values = max_frequency values
    /\ forall (j : nat) (w : float),
         values !! j = Some w -> frequency w values = max_frequency values ->
         (i <= j)%nat.
Proof.
  intros Hhigh. destruct (mode_unfold values) as (E & Hinv & ->). cbv zeta.
  rewrite (table_max_high _ _ Hinv Hhigh).
  destruct (Z.leb_spec (max_frequency values) 1) as [|_]; [lia|].
  assert (max_frequency values ∈ (fun e : entry => e.1.2) <$> E) as Hin.
  { rewrite <- (table_max_high _ _ Hinv Hhigh). apply max_list_in.
    rewrite (table_max_high _ _ Hinv Hhigh). lia. }
  apply list_elem_of_fmap in Hin as (e0 & He0 & Hin0).
  destruct (list_find_elem_of (fun e : entry => e.1.2 = max_frequency values)
              E e0 Hin0 (eq_sym He0)) as [[p [[k c] i]] Hfind].
  rewrite Hfind. apply list_find_Some in Hfind as (Hp & Hc & Hfirst).
  simpl in Hc. subst c.
  destruct (inv_entry _ _ Hinv p _ _ _ Hp) as (Hi & Hk & Hcount).
  exists (Z.to_nat i), k. split; [done|]. split; [done|]. split; [lia|].
  intros j w Hj Hw.
  destruct (frequency_pos_inv w values ltac:(lia)) as (x & _ & Hxw).
  destruct (inv_cover _ _ Hinv j w Hj (eqb_refl_r x w Hxw))
    as (q & e' & Hq & Hkw & Hij).
  destruct (entry_count_spec _ _ _ Hinv (list_elem_of_lookup_2 _ _ _ Hq))
    as [Hc' _].
  rewrite (frequency_congr _ _ _ Hkw), Hw in Hc'.
  assert (e'.1.2 = max_frequency values) as Hmax by lia.
  destruct (Nat.lt_trichotomy q p) as [Hlt|[->|Hgt]].
  - by destruct (Hfirst q e' Hq Hlt).
  - rewrite Hp in Hq. injection Hq as <-. simpl in Hij. lia.
  - pose proof (inv_incr _ _ Hinv p q _ _ Hgt Hp Hq) as Hlt. simpl in Hlt. lia.
Qed.

(** *** Sorting and the median *)





Lemma getitem_nat {A} (l : list A) (i : nat) :
  (i < List.length l)%nat -> Py.getitem l (Z.of_nat i) = l !! i.
Proof.
  intros Hi. unfold Py.getitem.
  destruct (Z.leb_spec 0 (Z.of_nat i)); [|lia].
  destruct (Z.ltb_spec (Z.of_nat i) (Z.of_nat (List.length l))); [|lia].
  simpl. by rewrite Nat2Z.id.
Qed.

Lemma median_odd (l : list float) :
  (List.length l mod 2 = 1)%nat ->
  exists x, l !! (List.length l / 2)%nat = Some x /\ _median l = Some x.
Proof.
  intros Hodd. unfold _median.
  assert (List.length l / 2 < List.length l)%nat as Hlt.
  { apply Nat.div_lt; [|lia]. destruct (List.length l); [done|lia]. }
  destruct (lookup_lt_is_Some_2 l _ Hlt) as [x Hx]. exists x. split; [done|].
  destruct (Z.eqb_spec (Z.of_nat (List.length l)) 0) as [Hz|_].
  { destruct (List.length l); [done|lia]. }
  change 2 with (Z.of_nat 2). rewrite <- Nat2Z.inj_mod, <- Nat2Z.inj_div, Hodd.
  cbn [Z.of_nat Z.eqb Pos.of_succ_nat Pos.eqb]. by rewrite getitem_nat.
Qed.

Lemma median_even (l : list float) :
  l <> [] -> (List.length l mod 2 = 0)%nat ->
  exists a b,
    l !! (List.length l / 2 - 1)%nat = Some a
    /\ l !! (List.length l / 2)%nat = Some b
    /\ _median l = Some ((a + b) / 2)%float.
Proof.
  intros Hne Heven. unfold _median.
  assert (0 < List.length l)%nat as Hpos by (destruct l; [done|simpl; lia]).
  assert (1 <= List.length l / 2)%nat as Hhalf.
  { apply Nat.div_le_lower_bound; [lia|].
    destruct (List.length l) as [|[|n]]; [lia|done|lia]. }
  assert (List.length l / 2 < List.length l)%nat as Hlt by (apply Nat.div_lt; lia).
  destruct (lookup_lt_is_Some_2 l (List.length l / 2 - 1)%nat ltac:(lia)) as [a Ha].
  destruct (lookup_lt_is_Some_2 l _ Hlt) as [b Hb].
  exists a, b. split; [done|]. split; [done|].
  destruct (Z.eqb_spec (Z.of_nat (List.length l)) 0) as [Hz|_]; [lia|].
  change 2 with (Z.of_nat 2). rewrite <- Nat2Z.inj_mod, <- Nat2Z.inj_div, Heven.
  cbn [Z.of_nat Z.eqb].
  assert (Z.of_nat (List.length l / 2) - 1 = Z.of_nat (List.length l / 2 - 1))
    as -> by lia.
  rewrite !getitem_nat by lia. rewrite Ha, Hb. done.
Qed.

Lemma median_total (l : list float) : is_Some (_median l).
Proof.
  destruct l as [|x l]; [by eexists|].
  destruct (Nat.mod_bound_pos (List.length (x :: l)) 2 ltac:(lia) ltac:(lia)) as [_ Hm].
  destruct (decide (List.length (x :: l) mod 2 = 1)%nat) as [Hodd|Heven].
  - destruct (median_odd _ Hodd) as (y & _ & ->). by eexists.
  - destruct (median_even (x :: l) ltac:(done) ltac:(lia)) as (a & b & _ & _ & ->).
    by eexists.
Qed.

(** *** The whole computation *)

(** What the report calls the mode. *)
Definition mode_text (values : list float) : string :=
  match _mode values with
  | Some (true, Some v) => _format_number v
  | _ => "#N/A"
  end.

Lemma variance_loop_sign (values : list float) (mean_val acc : float) :
  sign_clear (Prim2SF acc) = true ->
  sign_clear (Prim2SF (variance_loop values mean_val acc)) = true.
Proof.
  revert acc. induction values as [|v values IH]; intros acc Hacc; [done|].
  cbn [variance_loop]. apply IH. rewrite add_spec, mul_spec.
  apply add_sign; [done|apply square_sign].
Qed.

Lemma variance_sign_clear (values : list float) (mean_val : float) :
  sign_clear (Prim2SF (_population_variance values mean_val)) = true.
Proof.
  unfold _population_variance.
  destruct (Z.of_nat (List.length values) =? 0); [done|].
  rewrite div_spec. apply div_sign; [|apply float_of_int_sign].
  by apply variance_loop_sign.
Qed.

Lemma compute_statistics_run (nan_order : list float -> list float)
    (libm_pow : float -> float -> float) (values : list float) (elapsed : float) :
  exists median_val sd_val,
    _median (Py.sorted_by nan_order values) = Some median_val
    /\ _population_std libm_pow (_population_variance values (_mean values))
       = Some sd_val
    /\ _compute_statistics nan_order libm_pow values elapsed =
       Some (mkStatisticsResult (Z.of_nat (List.length values)) (_mean values)
               median_val (mode_text values) sd_val
               (_population_variance values (_mean values)) elapsed).
Proof.
  destruct (median_total (Py.sorted_by nan_order values)) as [median_val Hmed].
  destruct (pow_half_defined libm_pow
              (_population_variance values (_mean values))
              (variance_sign_clear _ _)) as [sd_val Hsd].
  exists median_val, sd_val. split; [done|]. split; [done|].
  unfold _compute_statistics, mode_text, _population_std. rewrite Hmed. simpl.
  destruct (Z_le_dec (max_frequency values) 1) as [Hlow|Hhigh].
  - rewrite (mode_absent _ Hlow). simpl. by rewrite Hsd.
  - destruct (mode_present values ltac:(lia)) as (i & v & -> & _). simpl.
    by rewrite Hsd.
Qed.

(** C3. For every non-empty list of values: when no value occurs more than
    once, [_mode] reports that there is no mode and the report shows
    [#N/A]; otherwise [_mode] returns the element of the list with the
    smallest index among the elements whose frequency is the highest one,
    and the report shows it. On [5, 3, 5, 3] the mode is [5]. *)
Theorem mode_first_most_frequent (nan_order : list float -> list float)
    (libm_pow : float -> float -> float) (values : list float) (elapsed : float) :
  values <> [] ->
  (max_frequency values <= 1 ->
     _mode values = Some (false, None)
     /\ mode <$> _compute_statistics nan_order libm_pow values elapsed
        = Some "#N/A")
  /\ (1 < max_frequency values ->
      exists (i : nat) (v : float),
        _mode values = Some (true, Some v)
        /\ mode <$> _compute_statistics nan_order libm_pow values elapsed
           = Some (_format_number v)
        /\ values !! i = Some v
        /\ frequency v values = max_frequency values
        /\ forall (j : nat) (w : float),
             values !! j = Some w ->
             frequency w values = max_frequency values -> (i <= j)%nat)
  /\ _mode [5; 3; 5; 3]%float = Some (true, Some 5%float).
Proof.
  intros _.
  destruct (compute_statistics_run nan_order libm_pow values elapsed)
    as (median_val & sd_val & _ & _ & ->).
  unfold mode_text. simpl. split; [|split].
  - intros Hlow. by rewrite (mode_absent _ Hlow).
  - intros Hhigh. destruct (mode_present _ Hhigh) as (i & v & Hmode & Hrest).
    exists i, v. by rewrite Hmode.
  - vm_compute. reflexivity.
Qed.

Lemma mode_first_most_frequent_witness :
  _mode [5; 3; 5; 3]%float = Some (true, Some 5%float).
Proof.
  apply (mode_first_most_frequent Py.nan_order_kept Py.sqrt_pow [5; 3; 5; 3]%float
           0%float).
  discriminate.
Defined.






(** *** Mean, variance and standard deviation *)












(** *** The formatting of numbers *)

(** The value of the float is an integer. *)
Definition float_is_integer (x : float) : bool :=
  match Prim2SF x with
  | S754_zero _ => true
  | S754_finite _ m e => (0 <=? e) || (Z.pos m mod 2 ^ (- e) =? 0)
  | _ => false
  end.

(** The sign a number is printed with. *)
Definition sign_text (s : bool) : string := if s then "-" else "".

(** The fractional part once its trailing zeros are stripped, with its
    decimal point; empty when all the digits are zeros. *)
Definition fraction_text (digits : string) : string :=
  match Py.rstrip_chars "0" digits with
  | EmptyString => ""
  | kept => "." +:+ kept
  end.

Lemma strip_fixed (sign whole digits : string) :
  str_all not_dot sign = true -> str_all not_dot whole = true ->
  whole <> "" -> str_all is_digit digits = true ->
  Py.rstrip_chars "." (Py.rstrip_chars "0" (sign +:+ whole +:+ "." +:+ digits))
  = sign +:+ whole +:+ fraction_text digits
  /\ sign +:+ whole +:+ fraction_text digits <> "".
Proof.
  intros Hsign Hwhole Hne Hdigits.
  assert (sign +:+ whole <> "") as Hne'.
  { destruct sign; [|done]. by rewrite append_nil_l. }
  assert (forall t, sign +:+ whole +:+ t = (sign +:+ whole) +:+ t) as Hassoc
    by (intros t; by rewrite append_assoc).
  rewrite !Hassoc. unfold fraction_text, Py.rstrip_chars.
  rewrite <- (append_assoc (sign +:+ whole) "." digits).
  rewrite (rstrip_by_app _ ((sign +:+ whole) +:+ ".") digits).
  destruct (rstrip_by_split (fun c => Py.char_in c "0") digits) as (t & Ht & _).
  destruct (Py.rstrip_by (fun c => Py.char_in c "0") digits) as [|k kept] eqn:Hkept.
  - rewrite (rstrip_by_app _ (sign +:+ whole) "."). simpl Py.rstrip_by at 2.
    cbv iota. rewrite (rstrip_by_app _ (sign +:+ whole) "."). simpl Py.rstrip_by at 1.
    cbv iota. rewrite append_nil_r. split; [|done].
    apply rstrip_by_none. change (str_all not_dot (sign +:+ whole) = true).
    rewrite str_all_app. by rewrite Hsign, Hwhole.
  - rewrite (rstrip_by_app _ ((sign +:+ whole) +:+ ".") (String k kept)).
    assert (str_all is_digit (String k kept) = true) as Hk.
    { rewrite Ht, str_all_app in Hdigits. by apply andb_prop in Hdigits as [? _]. }
    rewrite (rstrip_by_none _ (String k kept)).
    + rewrite append_assoc. split; [done|].
      destruct (sign +:+ whole); done.
    + apply (str_all_impl is_digit); [|done].
      intros c. unfold is_digit.
      repeat (destruct c as [[] [] [] [] [] [] [] []]; try done).
Qed.

Lemma format_number_finite (x : float) (s : bool) (scaled : Z) :
  Py.scaled_decimal 10 x = Some (s, scaled) ->
  _format_number x
  = sign_text s +:+ Py.str_of_int (scaled / 10 ^ 10)
      +:+ fraction_text (Py.frac_digits 10 (scaled mod 10 ^ 10)).
Proof.
  intros Hx. unfold _format_number, Py.format_f, Py.fixed_digits. rewrite Hx.
  fold (sign_text s). change (Z.of_nat 10) with 10.
  destruct (strip_fixed (sign_text s) (Py.str_of_int (scaled / 10 ^ 10))
              (Py.frac_digits 10 (scaled mod 10 ^ 10))) as [-> Hne].
  - by destruct s.
  - apply str_of_int_no_dot.
  - apply str_of_int_nonempty.
  - apply frac_digits_digits.
  - by destruct (_ +:+ _).
Qed.

Lemma integer_scaled (x : float) :
  float_is_integer x = true ->
  exists s scaled,
    Py.scaled_decimal 10 x = Some (s, scaled) /\ scaled mod 10 ^ 10 = 0.
Proof.
  unfold float_is_integer, Py.scaled_decimal.
  destruct (Prim2SF x) as [s|s| |s m e]; try done.
  - intros _. by exists s, 0.
  - intros Hint. eexists s, _. split; [done|].
    change (Z.of_nat 10) with 10.
    destruct (Z.leb_spec 0 e) as [He|He].
    + apply Z.mod_mul. lia.
    + simpl in Hint. apply Z.eqb_eq in Hint.
      assert (0 < 2 ^ (- e)) as Hden by (apply Z.pow_pos_nonneg; lia).
      apply Z.mod_divide in Hint as [k Hk]; [|lia].
      unfold Py.round_half_even. rewrite Hk.
      replace (k * 2 ^ (- e) * 10 ^ 10) with (k * 10 ^ 10 * 2 ^ (- e)) by ring.
      rewrite Z.mod_mul, Z.div_mul by lia.
      destruct (Z.ltb_spec (2 * 0) (2 ^ (- e))); [|lia].
      apply Z.mod_mul. lia.
Qed.

(** C6. For every float [x], [_format_number] is the text of [x] with ten
    fractional digits, stripped of its trailing zeros, then of a trailing
    decimal point, and replaced by ["0"] if nothing is left. For a zero or
    finite [x] that text has ten fractional digits, and what is printed is
    the sign, the whole part and the fractional digits up to the last one
    that is not zero, with no decimal point when there is none; so a float
    whose value is an integer is printed with no decimal point. [3.0] is
    printed as ["3"] and [3.14] as ["3.14"]. *)
Theorem format_number_spec (x : float) :
  _format_number x
    = (let stripped :=
         Py.rstrip_chars "." (Py.rstrip_chars "0" (Py.format_f 10 x)) in
       match stripped with
       | EmptyString => "0"
       | _ => stripped
       end)
  /\ (forall s scaled,
        Py.scaled_decimal 10 x = Some (s, scaled) ->
        Py.format_f 10 x
          = sign_text s +:+ Py.str_of_int (scaled / 10 ^ 10) +:+ "."
              +:+ Py.frac_digits 10 (scaled mod 10 ^ 10)
        /\ String.length (Py.frac_digits 10 (scaled mod 10 ^ 10)) = 10%nat
        /\ _format_number x
          = sign_text s +:+ Py.str_of_int (scaled / 10 ^ 10)
              +:+ fraction_text (Py.frac_digits 10 (scaled mod 10 ^ 10)))
  /\ (float_is_integer x = true ->
      str_all not_dot (_format_number x) = true
      /\ exists s whole, _format_number x = sign_text s +:+ Py.str_of_int whole)
  /\ _format_number 3%float = "3"
  /\ _format_number 0x1.91eb851eb851fp+1%float = "3.14".
Proof.
  split; [reflexivity|]. split; [|split; [|split; vm_compute; reflexivity]].
  - intros s scaled Hx. split; [|split].
    + unfold Py.format_f, Py.fixed_digits. by rewrite Hx.
    + apply frac_digits_length.
    + by apply format_number_finite.
  - intros Hint. destruct (integer_scaled x Hint) as (s & scaled & Hx & Hmod).
    rewrite (format_number_finite x s scaled Hx), Hmod.
    unfold fraction_text. rewrite (frac_digits_zero 10). rewrite append_nil_r.
    split; [|by eauto]. rewrite str_all_app, str_of_int_no_dot.
    by destruct s.
Qed.

Lemma format_number_spec_witness :
  float_is_integer 3%float = true
  /\ str_all not_dot (_format_number 3%float) = true.
Proof.
  split; [reflexivity|].
  apply (proj1 (proj2 (proj2 (format_number_spec 3%float)))). reflexivity.
Defined.

End ComputeStatisticsProofs.

(** ** The three read loops and the three [main] functions *)

Module Pipelines.

(** The entries a per-line function [f] gives for the lines of a file, in
    order; [f] receives the number of the line, counted from [start + 1]. *)
Definition numbered {A : Type} (start : Z) (f : Z -> string -> list A)
    (raw_lines : list string) : list A :=
  mjoin (imap (fun i raw => f (start + Z.of_nat i + 1) raw) raw_lines).

(** A blank line: nothing is left of it once stripped. *)
Definition blank (raw : string) : Prop := Py.strip raw = "".

Global Instance blank_dec (raw : string) : Decision (blank raw).
Proof. unfold blank. apply _. Defined.

(** *** What each tool prints for one line, and what it keeps of it *)

Section Statistics.
Variable float_of_str : string -> option float.

Definition stats_rejected (raw : string) : Prop :=
  ComputeStatistics._try_parse_number float_of_str raw = None.

Definition stats_diagnostic (line_num : Z) (raw : string) : list string :=
  match ComputeStatistics._try_parse_number float_of_str raw with
  | Some _ => []
  | None =>
      if decide (blank raw) then []
      else ["Invalid data at line " +:+ Py.str_of_int line_num +:+ ": '"
              +:+ Py.strip raw +:+ "' (ignored, continuing)"]
  end.

Definition stats_values (raw_lines : list string) : list float :=
  omap (ComputeStatistics._try_parse_number float_of_str) raw_lines.

End Statistics.

Definition conversion_diagnostic (line_num : Z) (raw : string) : list string :=
  match ConvertNumbers._parse_int raw with
  | Some _ => []
  | None =>
      if decide (blank raw) then []
      else ["Invalid data at line " +:+ Py.str_of_int line_num +:+ ": '"
              +:+ Py.strip raw +:+ "' (ignored)"]
  end.

Definition conversion_row (raw : string) : option (Z * string * string) :=
  match ConvertNumbers._parse_int raw with
  | Some val =>
      Some (val, (ConvertNumbers._convert_number val).1,
                 (ConvertNumbers._convert_number val).2)
  | None => None
  end.

(** The line as the word-count tool reads it: without its newline. *)
Definition chomp (raw_line : string) : string :=
  Py.strip_chars Py.newline raw_line.

Definition words_diagnostic (line_num : Z) (raw_line : string) : list string :=
  if decide (blank (chomp raw_line))
  then ["Invalid data at line " +:+ Py.str_of_int line_num
          +:+ ": empty line (ignored)"]
  else [].

Definition words_of_line (raw_line : string) : list string :=
  if decide (blank (chomp raw_line)) then []
  else WordCount._tokenize (chomp raw_line).

Lemma numbered_nil {A} start (f : Z -> string -> list A) :
  numbered start f [] = [].
Proof. done. Qed.

Lemma numbered_cons {A} start (f : Z -> string -> list A) raw rest :
  numbered start f (raw :: rest) = f (start + 1) raw ++ numbered (start + 1) f rest.
Proof.
  unfold numbered. rewrite imap_cons. simpl. f_equal; [f_equal; lia|].
  f_equal. apply imap_ext. intros i x _. simpl. f_equal. lia.
Qed.

Lemma stats_read_loop float_of_str (raw_lines : list string) (start : Z) :
  ComputeStatistics.read_loop float_of_str raw_lines start
  = (numbered start (stats_diagnostic float_of_str) raw_lines,
     stats_values float_of_str raw_lines).
Proof.
  revert start. induction raw_lines as [|raw rest IH]; intros start; [done|].
  rewrite numbered_cons. cbn [ComputeStatistics.read_loop]. rewrite IH.
  unfold stats_values, stats_diagnostic. cbn [omap list_omap].
  destruct (ComputeStatistics._try_parse_number float_of_str raw); [done|].
  unfold blank. destruct (decide (Py.strip raw = "")) as [->|Hne]; [done|].
  by destruct (Py.strip raw).
Qed.

Lemma conversion_read_loop (raw_lines : list string) (start : Z) :
  ConvertNumbers.read_loop raw_lines start
  = (numbered start conversion_diagnostic raw_lines,
     omap conversion_row raw_lines).
Proof.
  revert start. induction raw_lines as [|raw rest IH]; intros start; [done|].
  rewrite numbered_cons. cbn [ConvertNumbers.read_loop]. rewrite IH.
  unfold conversion_row, conversion_diagnostic. cbn [omap list_omap].
  destruct (ConvertNumbers._parse_int raw) as [val|].
  - by destruct (ConvertNumbers._convert_number val).
  - unfold blank. destruct (decide (Py.strip raw = "")) as [->|Hne]; [done|].
    by destruct (Py.strip raw).
Qed.

Lemma words_read_loop (raw_lines : list string) (start : Z) :
  WordCount.read_loop raw_lines start
  = (numbered start words_diagnostic raw_lines,
     mjoin (words_of_line <$> raw_lines)).
Proof.
  revert start. induction raw_lines as [|raw rest IH]; intros start; [done|].
  rewrite numbered_cons. cbn [WordCount.read_loop]. rewrite IH.
  unfold words_of_line, words_diagnostic, blank, chomp. rewrite fmap_cons.
  cbn [mjoin list_join].
  destruct (decide (Py.strip (Py.strip_chars Py.newline raw) = "")) as [->|Hne];
    [done|].
  pose proof (WordCountProofs.tokenize_has_word _
                (WordCountProofs.strip_nonempty_has_word_char _ Hne)) as Hw.
  destruct (Py.strip (Py.strip_chars Py.newline raw)); [done|].
  by destruct (WordCount._tokenize (Py.strip_chars Py.newline raw)).
Qed.

(** *** The runs of [main] on a file that can be read *)

(** The end of a run that built a report: the report is printed and
    written to the results file, or printed and followed by a warning when
    the file cannot be written; the status is 0 either way. *)
Definition reported (printed : list string) (report results_name : string)
    (write_error : option string) : Py.run :=
  match write_error with
  | None => Py.mkRun (printed ++ [report]) (Some report) 0
  | Some exc =>
      Py.mkRun (printed ++ [report; "Warning: could not write '" +:+ results_name
                                      +:+ "'. Details: " +:+ exc]) None 0
  end.

(** The last line of the reports of the conversion and word-count tools. *)
Definition time_line (elapsed : float) : string :=
  Py.rstrip_chars "."
    (Py.rstrip_chars "0" ("TIME (seconds): " +:+ Py.format_f 10 elapsed)).

(** The rows whose value [str] converts. *)
Definition printable (rows : list (Z * string * string)) : Prop :=
  Forall (fun row => is_Some (Py.str_int row.1.1)) rows.

Lemma row_lines_printable (rows : list (Z * string * string)) (idx : Z) :
  is_Some (ConvertNumbers.row_lines rows idx) <-> printable rows.
Proof.
  unfold printable. revert idx.
  induction rows as [|[[val bin_s] hex_s] rows IH]; intros idx.
  - split; [constructor|by eexists].
  - cbn [ConvertNumbers.row_lines]. rewrite Forall_cons, <- (IH (idx + 1)).
    cbn [fst snd].
    destruct (Py.str_int val), (ConvertNumbers.row_lines rows (idx + 1));
      split; try (intros [? ?]; done); try (intros [[? ?] [? ?]]; done);
      by eauto.
Qed.

Lemma build_report_printable (rows : list (Z * string * string)) (elapsed : float) :
  is_Some (ConvertNumbers._build_report rows elapsed) <-> printable rows.
Proof.
  rewrite <- (row_lines_printable rows 1). unfold ConvertNumbers._build_report.
  destruct (ConvertNumbers.row_lines rows 1); split; intros [? ?]; by eauto.
Qed.

Lemma conversion_main_run prog path fs elapsed write_error raw_lines :
  fs path = Py.FileLines raw_lines ->
  ConvertNumbers.main [prog; path] fs elapsed write_error
  = match ConvertNumbers._build_report (omap conversion_row raw_lines) elapsed with
    | Some report =>
        reported (numbered 0 conversion_diagnostic raw_lines) report
          ConvertNumbers.RESULTS_FILE write_error
    | None => Py.mkRun (numbered 0 conversion_diagnostic raw_lines) None 1
    end.
Proof.
  intros Hfs. unfold ConvertNumbers.main, ConvertNumbers._read_rows.
  rewrite Hfs, conversion_read_loop.
  destruct (ConvertNumbers._build_report _ _); [|done]. by destruct write_error.
Qed.

Lemma words_main_run prog path fs elapsed write_error raw_lines :
  fs path = Py.FileLines raw_lines ->
  exists report,
    WordCount._build_report
      (WordCount._count_words (mjoin (words_of_line <$> raw_lines))).1
      (WordCount._count_words (mjoin (words_of_line <$> raw_lines))).2 elapsed
    = Some report
    /\ WordCount.main [prog; path] fs elapsed write_error
       = reported (numbered 0 words_diagnostic raw_lines) report
           WordCount.RESULTS_FILE write_error.
Proof.
  intros Hfs.
  destruct (WordCountProofs.build_report_total
              (mjoin (words_of_line <$> raw_lines)) elapsed) as [report Hreport].
  exists report. split; [done|].
  unfold WordCount.main. rewrite Hfs, words_read_loop.
  destruct (WordCount._count_words (mjoin (words_of_line <$> raw_lines)))
    as [counts order]. simpl in Hreport. rewrite Hreport.
  by destruct write_error.
Qed.

Lemma stats_main_run float_of_str nan_order libm_pow prog path fs elapsed
    write_error raw_lines :
  fs path = Py.FileLines raw_lines ->
  stats_values float_of_str raw_lines <> [] ->
  exists result,
    ComputeStatistics._compute_statistics nan_order libm_pow
      (stats_values float_of_str raw_lines) elapsed = Some result
    /\ ComputeStatistics.main float_of_str nan_order libm_pow [prog; path] fs
         elapsed write_error
       = reported (numbered 0 (stats_diagnostic float_of_str) raw_lines)
           (ComputeStatistics._build_report result)
           ComputeStatistics.RESULTS_FILE write_error.
Proof.
  intros Hfs Hne.
  destruct (ComputeStatisticsProofs.compute_statistics_run nan_order libm_pow
              (stats_values float_of_str raw_lines) elapsed)
    as (median_val & sd_val & _ & _ & Hrun).
  eexists. split; [exact Hrun|].
  unfold ComputeStatistics.main, ComputeStatistics._read_values.
  rewrite Hfs, stats_read_loop.
  destruct (stats_values float_of_str raw_lines) as [|v values] eqn:Hvalues;
    [done|].
  rewrite Hrun. by destruct write_error.
Qed.

Lemma stats_main_empty float_of_str nan_order libm_pow prog path fs elapsed
    write_error raw_lines :
  fs path = Py.FileLines raw_lines ->
  stats_values float_of_str raw_lines = [] ->
  ComputeStatistics.main float_of_str nan_order libm_pow [prog; path] fs elapsed
    write_error
  = Py.mkRun (numbered 0 (stats_diagnostic float_of_str) raw_lines
                ++ ["Error: no valid numeric data found in the file."]) None 1.
Proof.
  intros Hfs Hempty.
  unfold ComputeStatistics.main, ComputeStatistics._read_values.
  by rewrite Hfs, stats_read_loop, Hempty.
Qed.

Lemma reported_exit_code printed report results_name write_error :
  Py.exit_code (reported printed report results_name write_error) = 0.
Proof. by destruct write_error. Qed.

(** C7. On a file that is read and gives no accepted value, the statistics
    tool prints its diagnostics and then an error, writes no report and
    returns 1; the conversion tool and the word-count tool, on a file that
    gives no row and no word, print and write a report made of the header
    and the time line, and return 0. *)
Theorem empty_input_outcome float_of_str nan_order libm_pow prog path fs
    elapsed write_error raw_lines :
  fs path = Py.FileLines raw_lines ->
  (stats_values float_of_str raw_lines = [] ->
   ComputeStatistics.main float_of_str nan_order libm_pow [prog; path] fs
     elapsed write_error
   = Py.mkRun (numbered 0 (stats_diagnostic float_of_str) raw_lines
                 ++ ["Error: no valid numeric data found in the file."]) None 1)
  /\ (omap conversion_row raw_lines = [] ->
      ConvertNumbers.main [prog; path] fs elapsed write_error
      = reported (numbered 0 conversion_diagnostic raw_lines)
          (Py.join_lines
             ["ITEM" +:+ Py.tab +:+ "VALUE" +:+ Py.tab +:+ "BIN" +:+ Py.tab +:+ "HEX";
              time_line elapsed] +:+ Py.newline)
          ConvertNumbers.RESULTS_FILE write_error)
  /\ (mjoin (words_of_line <$> raw_lines) = [] ->
      WordCount.main [prog; path] fs elapsed write_error
      = reported (numbered 0 words_diagnostic raw_lines)
          (Py.join_lines ["WORD" +:+ Py.tab +:+ "COUNT"; time_line elapsed]
             +:+ Py.newline)
          WordCount.RESULTS_FILE write_error)
  /\ (forall printed report results_name,
        Py.exit_code (reported printed report results_name write_error) = 0).
Proof.
  intros Hfs. split; [|split; [|split]].
  - by apply stats_main_empty.
  - intros Hempty. rewrite (conversion_main_run _ _ _ _ _ _ Hfs), Hempty. done.
  - intros Hempty.
    destruct (words_main_run prog path fs elapsed write_error raw_lines Hfs)
      as (report & Hreport & ->).
    rewrite Hempty in Hreport. by injection Hreport as <-.
  - intros. apply reported_exit_code.
Qed.

Lemma empty_input_outcome_witness :
  Py.exit_code
    (ComputeStatistics.main ComputeStatistics.float_of_integer_text
       Py.nan_order_kept Py.sqrt_pow ["computeStatistics.py"; "data.txt"]
       (fun _ => Py.FileLines ["abc"; ""]) 0%float None) = 1.
Proof.
  destruct (empty_input_outcome ComputeStatistics.float_of_integer_text
              Py.nan_order_kept Py.sqrt_pow "computeStatistics.py" "data.txt"
              (fun _ => Py.FileLines ["abc"; ""]) 0%float None ["abc"; ""] eq_refl)
    as [Hstats _].
  rewrite Hstats; reflexivity.
Defined.

(** C8. On every file that is read, each tool prints one diagnostic for
    each line it rejects, except that the statistics and conversion tools
    print none for a blank line, which the word-count tool reports as an
    empty line; what is kept for the report is what the accepted lines
    give, in order; and the run goes on to the report whatever was
    rejected: the statistics tool whenever a value was accepted, the
    word-count tool always, the conversion tool unless a value that was
    accepted has too many digits to be printed. *)
Theorem rejected_lines_reported float_of_str nan_order libm_pow prog path fs
    elapsed write_error raw_lines :
  fs path = Py.FileLines raw_lines ->
  ComputeStatistics.read_loop float_of_str raw_lines 0
    = (numbered 0 (stats_diagnostic float_of_str) raw_lines,
       stats_values float_of_str raw_lines)
  /\ ConvertNumbers.read_loop raw_lines 0
    = (numbered 0 conversion_diagnostic raw_lines, omap conversion_row raw_lines)
  /\ WordCount.read_loop raw_lines 0
    = (numbered 0 words_diagnostic raw_lines, mjoin (words_of_line <$> raw_lines))
  /\ (stats_values float_of_str raw_lines <> [] ->
      exists result,
        ComputeStatistics._compute_statistics nan_order libm_pow
          (stats_values float_of_str raw_lines) elapsed = Some result
        /\ ComputeStatistics.main float_of_str nan_order libm_pow [prog; path]
             fs elapsed write_error
           = reported (numbered 0 (stats_diagnostic float_of_str) raw_lines)
               (ComputeStatistics._build_report result)
               ComputeStatistics.RESULTS_FILE write_error)
  /\ ConvertNumbers.main [prog; path] fs elapsed write_error
    = match
        ConvertNumbers._build_report (omap conversion_row raw_lines) elapsed
      with
      | Some report =>
          reported (numbered 0 conversion_diagnostic raw_lines) report
            ConvertNumbers.RESULTS_FILE write_error
      | None => Py.mkRun (numbered 0 conversion_diagnostic raw_lines) None 1
      end
  /\ (is_Some (ConvertNumbers._build_report (omap conversion_row raw_lines)
                 elapsed)
      <-> printable (omap conversion_row raw_lines))
  /\ (exists report,
        WordCount._build_report
          (WordCount._count_words (mjoin (words_of_line <$> raw_lines))).1
          (WordCount._count_words (mjoin (words_of_line <$> raw_lines))).2
          elapsed = Some report
        /\ WordCount.main [prog; path] fs elapsed write_error
           = reported (numbered 0 words_diagnostic raw_lines) report
               WordCount.RESULTS_FILE write_error)
  /\ (forall line_num raw,
        blank raw ->
        ComputeStatistics._try_parse_number float_of_str raw = None
        /\ stats_diagnostic float_of_str line_num raw = []
        /\ ConvertNumbers._parse_int raw = None
        /\ conversion_diagnostic line_num raw = [])
  /\ (forall line_num raw,
        ~ blank raw ->
        (ComputeStatistics._try_parse_number float_of_str raw = None ->
         stats_diagnostic float_of_str line_num raw
         = ["Invalid data at line " +:+ Py.str_of_int line_num +:+ ": '"
              +:+ Py.strip raw +:+ "' (ignored, continuing)"])
        /\ (ConvertNumbers._parse_int raw = None ->
            conversion_diagnostic line_num raw
            = ["Invalid data at line " +:+ Py.str_of_int line_num +:+ ": '"
                 +:+ Py.strip raw +:+ "' (ignored)"]))
  /\ (forall line_num raw,
        (forall val, ComputeStatistics._try_parse_number float_of_str raw = Some val ->
                     stats_diagnostic float_of_str line_num raw = [])
        /\ (forall val, ConvertNumbers._parse_int raw = Some val ->
                        conversion_diagnostic line_num raw = []))
  /\ (forall line_num raw_line,
        blank (chomp raw_line) ->
        words_of_line raw_line = []
        /\ words_diagnostic line_num raw_line
           = ["Invalid data at line " +:+ Py.str_of_int line_num
                +:+ ": empty line (ignored)"])
  /\ (forall line_num raw_line,
        ~ blank (chomp raw_line) ->
        words_diagnostic line_num raw_line = []
        /\ words_of_line raw_line = WordCount._tokenize (chomp raw_line)
        /\ words_of_line raw_line <> []).
Proof.
  intros Hfs.
  split; [apply stats_read_loop|]. split; [apply conversion_read_loop|].
  split; [apply words_read_loop|]. split; [by apply stats_main_run|].
  split; [by apply conversion_main_run|].
  split; [apply build_report_printable|]. split; [by apply words_main_run|].
  split; [|split; [|split; [|split]]].
  - intros line_num raw Hblank. unfold stats_diagnostic, conversion_diagnostic.
    assert (ComputeStatistics._try_parse_number float_of_str raw = None) as ->
      by (unfold ComputeStatistics._try_parse_number; by rewrite Hblank).
    assert (ConvertNumbers._parse_int raw = None) as ->
      by (unfold ConvertNumbers._parse_int; by rewrite Hblank).
    rewrite !decide_True by done. done.
  - intros line_num raw Hblank. unfold stats_diagnostic, conversion_diagnostic.
    split; intros ->; by rewrite decide_False.
  - intros line_num raw. unfold stats_diagnostic, conversion_diagnostic.
    split; by intros val ->.
  - intros line_num raw_line Hblank. unfold words_of_line, words_diagnostic.
    by rewrite !decide_True.
  - intros line_num raw_line Hblank. unfold words_of_line, words_diagnostic.
    rewrite !decide_False by done. split; [done|]. split; [done|].
    by apply WordCountProofs.tokenize_has_word,
      WordCountProofs.strip_nonempty_has_word_char.
Qed.

Lemma rejected_lines_reported_witness :
  ConvertNumbers.read_loop ["12"; "abc"; ""; "-6"] 0
  = (numbered 0 conversion_diagnostic ["12"; "abc"; ""; "-6"],
     omap conversion_row ["12"; "abc"; ""; "-6"])
  /\ numbered 0 conversion_diagnostic ["12"; "abc"; ""; "-6"]
     = ["Invalid data at line 2: 'abc' (ignored)"].
Proof.
  split; [|vm_compute; reflexivity].
  apply (rejected_lines_reported ComputeStatistics.float_of_integer_text
           Py.nan_order_kept Py.sqrt_pow "convertNumbers.py" "data.txt"
           (fun _ => Py.FileLines ["12"; "abc"; ""; "-6"]) 0%float None
           ["12"; "abc"; ""; "-6"] eq_refl).
Defined.

End Pipelines.

(** ** convertNumbers.py: further properties *)

Module ConvertNumbersMore.
Import ConvertNumbers ConvertNumbersProofs StringFacts.

(** *** The integer parser *)

Lemma ascii_cases (P : ascii -> Prop) :
  (forall b0 b1 b2 b3 b4 b5 b6 b7, P (Ascii b0 b1 b2 b3 b4 b5 b6 b7)) ->
  forall c, P c.
Proof. intros H []. apply H. Qed.

Local Ltac by_ascii_cases :=
  let c := fresh "c" in
  intros c; destruct c as [[] [] [] [] [] [] [] []]; vm_compute; intuition congruence.

Lemma digit_not_space (c : ascii) : is_digit c = true -> Py.isspace c = false.
Proof. revert c. by_ascii_cases. Qed.

Lemma digit_not_sign (c : ascii) : is_digit c = true -> Py.char_in c "+-" = false.
Proof. revert c. by_ascii_cases. Qed.

Lemma digit_check (c : ascii) :
  ((c <? "0")%char || ("9" <? c)%char) = negb (is_digit c).
Proof. revert c. by_ascii_cases. Qed.

Lemma digit_value_decimal (c : ascii) (d : Z) :
  digit_value c = Some d /\ d < 10 <->
  is_digit c = true /\ d = Z.of_N (N_of_ascii c) - Z.of_N (N_of_ascii "0").
Proof.
  destruct c as [[] [] [] [] [] [] [] []]; vm_compute;
    (split; [intros [[= <-] Hd]; try discriminate Hd; split; reflexivity
            |intros [Hc ->]; try discriminate Hc; split; reflexivity]).
Qed.

Lemma sign_cases (c : ascii) :
  Py.char_in c "+-" = true -> c = "+"%char \/ c = "-"%char.
Proof. revert c. by_ascii_cases. Qed.

Lemma all_digits_spec (text : string) : all_digits text = str_all is_digit text.
Proof.
  induction text as [|c text IH]; simpl; [done|].
  rewrite digit_check, IH. by destruct (is_digit c).
Qed.

(** The base-10 accumulation of [_parse_int] is the positional value. *)
Lemma int_digits_accumulate (text : string) (acc : Z) (v : Z) :
  int_digits 10 text acc = Some v <->
  str_all is_digit text = true /\ v = accumulate_base10 text acc.
Proof.
  revert acc. induction text as [|c text IH]; intros acc; simpl.
  { split; [by intros [= <-]|by intros [_ ->]]. }
  destruct (digit_value c) as [d|] eqn:Hd.
  - destruct (Z.ltb_spec d 10) as [Hlt|Hge].
    + destruct (proj1 (digit_value_decimal c d) (conj Hd Hlt)) as [Hc Hval].
      rewrite Hc, IH. simpl. by rewrite Hval.
    + split; [done|]. intros [Hc _]. apply andb_prop in Hc as [Hc _].
      destruct (proj2 (digit_value_decimal c _) (conj Hc eq_refl)) as [Hd' Hlt].
      rewrite Hd in Hd'.
      assert (d = Z.of_N (N_of_ascii c) - Z.of_N (N_of_ascii "0")) by congruence.
      exfalso; lia.
  - split; [done|]. intros [Hc _]. apply andb_prop in Hc as [Hc _].
    destruct (proj2 (digit_value_decimal c _) (conj Hc eq_refl)) as [Hd' _].
    by rewrite Hd in Hd'.
Qed.

Lemma lstrip_by_fixed p (s : string) :
  str_all (fun c => negb (p c)) s = true -> Py.lstrip_by p s = s.
Proof.
  destruct s as [|c s]; simpl; [done|].
  intros [Hc _]%andb_prop. by apply negb_true_iff in Hc as ->.
Qed.

Lemma strip_fixed_no_space (s : string) :
  str_all (fun c => negb (Py.isspace c)) s = true -> Py.strip s = s.
Proof.
  intros Hs. unfold Py.strip. rewrite (lstrip_by_fixed _ _ Hs).
  by apply rstrip_by_none.
Qed.

Lemma digits_no_space (s : string) :
  str_all is_digit s = true -> str_all (fun c => negb (Py.isspace c)) s = true.
Proof.
  apply str_all_impl. intros c Hc. by rewrite (digit_not_space c Hc).
Qed.

(** What [_parse_int] does on a text that is already stripped. *)
Lemma parse_int_stripped (line : string) :
  _parse_int line =
  match Py.strip line with
  | EmptyString => None
  | String c0 rest =>
      if Py.char_in c0 "+-" then
        match int_of_numeral rest 10 with
        | Some m => Some (if Ascii.eqb c0 "-" then - m else m)
        | None => None
        end
      else int_of_numeral (String c0 rest) 10
  end.
Proof.
  unfold _parse_int. destruct (Py.strip line) as [|c0 rest]; [done|].
  assert (forall text sign, text <> "" ->
            (if all_digits text then Some (sign * accumulate_base10 text 0) else None)
            = match int_of_numeral text 10 with
              | Some m => Some (sign * m)
              | None => None
              end) as Hbody.
  { intros text sign Hne. unfold int_of_numeral. rewrite all_digits_spec.
    destruct text as [|c text]; [done|].
    destruct (int_digits 10 (String c text) 0) as [m|] eqn:Hm.
    - apply int_digits_accumulate in Hm as [-> ->]. done.
    - destruct (str_all is_digit (String c text)) eqn:Hd; [|done].
      by rewrite (proj2 (int_digits_accumulate (String c text) 0 _)
                    (conj Hd eq_refl)) in Hm. }
  destruct (Py.char_in c0 "+-") eqn:Hsign.
  - destruct rest as [|c1 rest]; [done|].
    rewrite (Hbody (String c1 rest)) by done.
    destruct (int_of_numeral (String c1 rest) 10) as [m|]; [|done].
    f_equal. destruct (Ascii.eqb c0 "-"); lia.
  - rewrite (Hbody (String c0 rest)) by done.
    destruct (int_of_numeral (String c0 rest) 10) as [m|]; [|done].
    f_equal. lia.
Qed.

(** X1. A line is accepted by [_parse_int] exactly when, once stripped, it
    is a non-empty run of decimal digits with at most one sign [+] or [-]
    before it, and its value is then the value of the digits in base 10,
    negated under a [-]. *)
Theorem parse_int_accepts (line : string) (v : Z) :
  _parse_int line = Some v <->
  exists (sign body : string) (magnitude : Z),
    (sign = "" \/ sign = "+" \/ sign = "-")
    /\ Py.strip line = sign +:+ body
    /\ int_of_numeral body 10 = Some magnitude
    /\ v = (if String.eqb sign "-" then - magnitude else magnitude).
Proof.
  rewrite parse_int_stripped. split.
  - destruct (Py.strip line) as [|c0 rest]; [done|].
    destruct (Py.char_in c0 "+-") eqn:Hsign.
    + destruct (int_of_numeral rest 10) as [m|] eqn:Hm; [|done].
      intros [= <-]. apply sign_cases in Hsign as [->| ->].
      * exists "+", rest, m. repeat split; auto.
      * exists "-", rest, m. repeat split; auto.
    + intros Hm. exists "", (String c0 rest), v. repeat split; auto.
  - intros (sign & body & m & Hsign & -> & Hm & ->).
    assert (exists c rest, body = String c rest /\ is_digit c = true)
      as (c & rest & -> & Hc).
    { unfold int_of_numeral in Hm. destruct body as [|c rest]; [done|].
      apply int_digits_accumulate in Hm as [Hd _].
      apply andb_prop in Hd as [? _]. eauto. }
    destruct Hsign as [->|[->| ->]].
    + rewrite append_nil_l, (digit_not_sign c Hc), Hm. done.
    + rewrite append_cons, append_nil_l.
      change (Py.char_in "+" "+-") with true. cbv iota. by rewrite Hm.
    + rewrite append_cons, append_nil_l.
      change (Py.char_in "-" "+-") with true. cbv iota. by rewrite Hm.
Qed.

Lemma accumulate_uint_acc (d : Decimal.uint) (acc : positive) :
  accumulate_base10 (NilEmpty.string_of_uint d) (Z.pos acc)
  = Z.pos (Pos.of_uint_acc d acc).
Proof.
  revert acc. induction d; intros acc; simpl; [done|..]; rewrite <- IHd; f_equal; lia.
Qed.

Lemma accumulate_uint (d : Decimal.uint) :
  accumulate_base10 (NilEmpty.string_of_uint d) 0 = Z.of_N (Pos.of_uint d).
Proof.
  induction d; simpl; [done|exact IHd|..];
    match goal with
    | |- accumulate_base10 _ ?k = _ => change k with (Z.pos (Z.to_pos k))
    end; apply accumulate_uint_acc.
Qed.

Lemma parse_positive_text (p : positive) :
  int_of_numeral (NilEmpty.string_of_uint (Pos.to_uint p)) 10 = Some (Z.pos p).
Proof.
  pose proof (Unsigned.to_uint_nonnil p) as Hnil.
  pose proof (string_of_uint_digits (Pos.to_uint p)) as Hd.
  unfold int_of_numeral.
  destruct (NilEmpty.string_of_uint (Pos.to_uint p)) as [|c s] eqn:Hs.
  { by destruct (Pos.to_uint p). }
  apply int_digits_accumulate. split; [done|].
  by rewrite <- Hs, accumulate_uint, Unsigned.of_to.
Qed.

Lemma parse_decimal_text (n : Z) : _parse_int (Py.str_of_int n) = Some n.
Proof.
  rewrite parse_int_stripped. unfold Py.str_of_int.
  assert (forall p, NilZero.string_of_uint (Pos.to_uint p)
                    = NilEmpty.string_of_uint (Pos.to_uint p)) as Hnz.
  { intros p. pose proof (Unsigned.to_uint_nonnil p). by destruct (Pos.to_uint p). }
  assert (forall p, str_all (fun c => negb (Py.isspace c))
                      (NilEmpty.string_of_uint (Pos.to_uint p)) = true) as Hsp
    by (intros p; apply digits_no_space, string_of_uint_digits).
  destruct n as [|p|p]; cbn [Z.to_int NilZero.string_of_int]; [done|..];
    rewrite Hnz; pose proof (parse_positive_text p) as Hp;
    pose proof (string_of_uint_digits (Pos.to_uint p)) as Hd.
  - rewrite strip_fixed_no_space by done.
    destruct (NilEmpty.string_of_uint (Pos.to_uint p)) as [|c0 rest]; [done|].
    apply andb_prop in Hd as [Hc0 _]. by rewrite (digit_not_sign c0 Hc0).
  - rewrite strip_fixed_no_space
      by (change (negb (Py.isspace "-")
                  && str_all (fun c => negb (Py.isspace c))
                       (NilEmpty.string_of_uint (Pos.to_uint p)) = true);
          by rewrite Hsp).
    change (Py.char_in "-" "+-") with true. cbv iota. by rewrite Hp.
Qed.

(** The number of digits of a decimal text bounds its value. *)
Lemma accumulate_uint_bounds (d : Decimal.uint) (acc : Z) :
  0 <= acc ->
  acc * 10 ^ Py.len (NilEmpty.string_of_uint d)
  <= accumulate_base10 (NilEmpty.string_of_uint d) acc
  < (acc + 1) * 10 ^ Py.len (NilEmpty.string_of_uint d).
Proof.
  assert (forall c s, Py.len (String c s) = Z.succ (Py.len s)) as Hlen
    by (intros c s; unfold Py.len; cbn [String.length]; lia).
  revert acc. induction d as [|d IH|d IH|d IH|d IH|d IH|d IH|d IH|d IH|d IH|d IH];
    intros acc Hacc; cbn [NilEmpty.string_of_uint accumulate_base10];
    [change (Py.len "") with 0; lia|..];
    rewrite Hlen, Z.pow_succ_r by (unfold Py.len; lia);
    match goal with
    | |- context [accumulate_base10 _ ?k] =>
        specialize (IH k ltac:(vm_compute Z.of_N; lia)); revert IH;
        generalize (accumulate_base10 (NilEmpty.string_of_uint d) k)
    end;
    vm_compute Z.of_N;
    pose proof (Z.pow_pos_nonneg 10 (Py.len (NilEmpty.string_of_uint d))
                  ltac:(lia) ltac:(unfold Py.len; lia));
    generalize dependent (10 ^ Py.len (NilEmpty.string_of_uint d));
    intros; nia.
Qed.

Lemma to_uint_head (p : positive) (d : Decimal.uint) :
  Pos.to_uint p <> Decimal.D0 d.
Proof.
  pose proof (DecimalPos.Unsigned.to_of (Pos.to_uint p)) as Hnorm.
  rewrite DecimalPos.Unsigned.of_to in Hnorm.
  change (N.to_uint (N.pos p)) with (Pos.to_uint p) in Hnorm.
  pose proof (DecimalPos.Unsigned.to_uint_nonzero p) as Hzero.
  unfold Decimal.unorm in Hnorm. intros Hp.
  destruct (Decimal.nzhead (Pos.to_uint p)) eqn:Hhead;
    try (rewrite Hp in Hnorm; discriminate Hnorm).
  - by symmetry in Hnorm.
  - by apply DecimalFacts.nzhead_nonzero in Hhead.
Qed.

(** A positive integer has at most [limit] decimal digits exactly when it
    is below [10 ^ limit]. *)
Lemma decimal_digits_bound (p : positive) (limit : Z) :
  0 <= limit ->
  Py.len (NilEmpty.string_of_uint (Pos.to_uint p)) <= limit
  <-> Z.pos p < 10 ^ limit.
Proof.
  intros Hlimit.
  pose proof (accumulate_uint (Pos.to_uint p)) as Hval.
  rewrite DecimalPos.Unsigned.of_to in Hval. cbn [Z.of_N] in Hval.
  pose proof (accumulate_uint_bounds (Pos.to_uint p) 0 ltac:(lia)) as [_ Hup].
  rewrite Hval in Hup.
  assert (10 ^ (Py.len (NilEmpty.string_of_uint (Pos.to_uint p)) - 1)
          <= Z.pos p) as Hlow.
  { pose proof (to_uint_head p) as Hhead.
    pose proof (DecimalPos.Unsigned.to_uint_nonnil p) as Hnil.
    rewrite <- Hval.
    destruct (Pos.to_uint p) as [|d|d|d|d|d|d|d|d|d|d];
      [done|by destruct (Hhead d)|..];
      cbn [NilEmpty.string_of_uint accumulate_base10];
      match goal with
      | |- context [accumulate_base10 _ ?k] =>
          pose proof (accumulate_uint_bounds d k ltac:(vm_compute Z.of_N; lia))
            as [Hd _]; revert Hd;
          generalize (accumulate_base10 (NilEmpty.string_of_uint d) k)
      end;
      replace (Py.len (String _ (NilEmpty.string_of_uint d)) - 1)
        with (Py.len (NilEmpty.string_of_uint d))
        by (unfold Py.len; cbn [String.length]; lia);
      vm_compute Z.of_N;
      pose proof (Z.pow_pos_nonneg 10 (Py.len (NilEmpty.string_of_uint d))
                    ltac:(lia) ltac:(unfold Py.len; lia));
      generalize dependent (10 ^ Py.len (NilEmpty.string_of_uint d));
      intros; nia. }
  set (digits := Py.len (NilEmpty.string_of_uint (Pos.to_uint p))) in *.
  split.
  - intros Hle. assert (10 ^ digits <= 10 ^ limit) as Hpow
      by (apply Z.pow_le_mono_r; [lia|done]).
    lia.
  - intros Hlt. destruct (Z.le_gt_cases digits limit) as [|Hgt]; [done|].
    exfalso. assert (10 ^ limit <= 10 ^ (digits - 1)) as Hpow
      by (apply Z.pow_le_mono_r; lia).
    lia.
Qed.

Lemma str_int_limit (n limit : Z) :
  1 <= limit ->
  (limit <? (if n <? 0 then Py.len (Py.str_of_int n) - 1
             else Py.len (Py.str_of_int n))) = false
  <-> Z.abs n < 10 ^ limit.
Proof.
  intros Hlimit. rewrite Z.ltb_ge. unfold Py.str_of_int.
  assert (forall p, NilZero.string_of_uint (Pos.to_uint p)
                    = NilEmpty.string_of_uint (Pos.to_uint p)) as Hnz.
  { intros p. pose proof (Unsigned.to_uint_nonnil p). by destruct (Pos.to_uint p). }
  destruct n as [|p|p]; cbn [Z.to_int NilZero.string_of_int Z.ltb Z.compare Z.abs].
  - change (Py.len (NilZero.string_of_uint (Decimal.D0 Decimal.Nil))) with 1.
    pose proof (Z.pow_pos_nonneg 10 limit ltac:(lia) ltac:(lia)). split; [lia|done].
  - rewrite Hnz. apply decimal_digits_bound; lia.
  - rewrite Hnz.
    replace (Py.len (String "-" (NilEmpty.string_of_uint (Pos.to_uint p))) - 1)
      with (Py.len (NilEmpty.string_of_uint (Pos.to_uint p)))
      by (unfold Py.len; cbn [String.length]; lia).
    apply decimal_digits_bound; lia.
Qed.

(** X2. The decimal text of every integer is accepted by [_parse_int] and
    parsed back to that integer, whatever the number of its digits; and
    [str(n)], whenever [str] converts [n], is that text: the VALUE column
    of a report can be fed to the tool again. [str] converts [n] exactly
    when [n] has at most [sys.int_max_str_digits] decimal digits, that is
    when [|n| < 10 ^ 4300]; [_parse_int] accepts the text of a longer one
    all the same. *)
Theorem parse_int_of_str (n : Z) :
  _parse_int (Py.str_of_int n) = Some n
  /\ (forall s : string,
        Py.str_int n = Some s -> s = Py.str_of_int n /\ _parse_int s = Some n)
  /\ (is_Some (Py.str_int n) <-> Z.abs n < 10 ^ Py.int_max_str_digits).
Proof.
  split; [apply parse_decimal_text|]. split.
  - intros s. unfold Py.str_int. cbv zeta. case_match; [done|].
    intros [= <-]. split; [done|apply parse_decimal_text].
  - assert (1 <= Py.int_max_str_digits) as Hlimit by (unfold Py.int_max_str_digits; lia).
    rewrite <- (str_int_limit n Py.int_max_str_digits Hlimit).
    unfold Py.str_int. cbv zeta.
    destruct (Py.int_max_str_digits <? _); split; done.
Qed.

(** *** The division loops *)

Lemma bits_loop_done (x : Z) (bits : list ascii) :
  x <= 0 -> bits_loop x bits = bits.
Proof. funelim (bits_loop x bits); intros Hx; [exfalso; lia|done]. Qed.

Lemma hex_loop_done (x : Z) (out : list ascii) :
  x <= 0 -> hex_loop x out = out.
Proof. funelim (hex_loop x out); intros Hx; [exfalso; lia|done]. Qed.

Lemma log2_div_pow2 (x k : Z) :
  0 <= k -> 2 ^ k <= x -> Z.log2 (x / 2 ^ k) = Z.log2 x - k.
Proof.
  intros Hk Hx. rewrite <- Z.shiftr_div_pow2, Z.log2_shiftr by lia.
  assert (k <= Z.log2 x) by (apply Z.log2_le_pow2; lia). lia.
Qed.

(** The digits [bits_loop] appends: as many as [x] has bits, the last one
    (the most significant) a ["1"]. *)
Lemma bits_loop_digits (x : Z) (bits : list ascii) :
  0 < x ->
  exists l, bits_loop x bits = bits ++ l
    /\ Z.of_nat (List.length l) = Z.log2 x + 1
    /\ last l = Some "1"%char.
Proof.
  funelim (bits_loop x bits); intros Hx; [|exfalso; lia].
  destruct (Z_lt_dec 0 (x / 2)) as [Hhalf|Hhalf].
  - destruct (H Hhalf) as (l' & -> & Hlen & Hlast).
    exists ((if x mod 2 =? 1 then "1"%char else "0"%char) :: l').
    rewrite <- app_assoc. split; [done|].
    assert (2 <= x).
    { destruct (Z_lt_dec x 2); [|lia]. rewrite Z.div_small in Hhalf; lia. }
    pose proof (log2_div_pow2 x 1 ltac:(lia) ltac:(lia)) as Hlog.
    change (2 ^ 1) with 2 in Hlog. split; [simpl; lia|].
    destruct l' as [|c l']; [done|exact Hlast].
  - assert (x = 1) as ->.
    { pose proof (Z.div_pos x 2). pose proof (Z.div_mod x 2).
      pose proof (Z.mod_pos_bound x 2). 
      destruct (Z_lt_dec x 2); [lia|].
      assert (1 <= x / 2) by (apply Z.div_le_lower_bound; lia). lia. }
    exists ["1"%char]. rewrite bits_loop_done by done. done.
Qed.

Lemma hex_loop_digits (x : Z) (out : list ascii) :
  0 < x ->
  exists l d, hex_loop x out = out ++ l
    /\ Z.of_nat (List.length l) = Z.log2 x / 4 + 1
    /\ last l = Some (digits_at d) /\ 1 <= d < 16.
Proof.
  funelim (hex_loop x out); intros Hx; [|exfalso; lia].
  destruct (Z_lt_dec 0 (x / 16)) as [Hq|Hq].
  - destruct (H Hq) as (l' & d & -> & Hlen & Hlast & Hd).
    exists (digits_at (x mod 16) :: l'), d.
    rewrite <- app_assoc. split; [done|].
    assert (16 <= x).
    { destruct (Z_lt_dec x 16); [|lia]. rewrite Z.div_small in Hq; lia. }
    pose proof (log2_div_pow2 x 4 ltac:(lia) ltac:(lia)) as Hlog.
    change (2 ^ 4) with 16 in Hlog. split; [|split; [|done]].
    + cbn [List.length]. rewrite Nat2Z.inj_succ, Hlen, Hlog.
      replace (Z.log2 x) with ((Z.log2 x - 4) + 1 * 4) at 2 by lia.
      rewrite Z.div_add by lia. lia.
    + destruct l' as [|c l']; [done|exact Hlast].
  - assert (x < 16).
    { destruct (Z_lt_dec x 16); [done|].
      assert (1 <= x / 16) by (apply Z.div_le_lower_bound; lia). lia. }
    exists [digits_at (x mod 16)], x.
    rewrite hex_loop_done by lia. rewrite Z.mod_small by lia.
    split; [done|]. split; [|split; [done|lia]].
    assert (Z.log2 x < 4) by (apply Z.log2_lt_pow2; lia).
    pose proof (Z.log2_nonneg x). rewrite Z.div_small by lia. done.
Qed.

Lemma string_of_list_length (l : list ascii) :
  String.length (string_of_list_ascii l) = List.length l.
Proof. induction l; simpl; congruence. Qed.

Lemma head_rev {A} (l : list A) : head (rev l) = last l.
Proof.
  induction l as [|x l _] using rev_ind; [done|].
  by rewrite rev_app_distr, last_snoc.
Qed.

Lemma string_of_list_head (l : list ascii) :
  String.get 0 (string_of_list_ascii l) = head l.
Proof. by destruct l. Qed.

Lemma digits_at_leading (d : Z) : 1 <= d < 16 -> digits_at d <> "0"%char.
Proof.
  intros Hd.
  assert (d = 1 \/ d = 2 \/ d = 3 \/ d = 4 \/ d = 5 \/ d = 6 \/ d = 7 \/ d = 8 \/
          d = 9 \/ d = 10 \/ d = 11 \/ d = 12 \/ d = 13 \/ d = 14 \/ d = 15)
    as Hcases by lia.
  repeat (destruct Hcases as [->|Hcases]; [discriminate|]). by subst.
Qed.

(** X3. The numerals written for a positive [n] are canonical: the binary
    string has as many characters as [n] has bits and begins with ["1"]; the
    hexadecimal string has one character for every four bits, rounded up,
    and does not begin with ["0"]. *)
Theorem positive_numerals_canonical (n : Z) :
  0 < n ->
  Py.len (_to_binary_nonneg n) = Z.log2 n + 1
  /\ String.get 0 (_to_binary_nonneg n) = Some "1"%char
  /\ Py.len (_to_hex_nonneg n) = Z.log2 n / 4 + 1
  /\ String.get 0 (_to_hex_nonneg n) <> Some "0"%char.
Proof.
  intros Hn. unfold _to_binary_nonneg, _to_hex_nonneg, Py.len.
  rewrite (proj2 (Z.eqb_neq n 0)) by lia.
  destruct (bits_loop_digits n [] Hn) as (lb & -> & Hlb & Hlastb).
  destruct (hex_loop_digits n [] Hn) as (lh & d & -> & Hlh & Hlasth & Hd).
  rewrite !app_nil_l, !string_of_list_length, !length_rev,
    !string_of_list_head, !head_rev.
  repeat split; [done..|].
  rewrite Hlasth. intros [= Heq]. by apply (digits_at_leading d).
Qed.

Lemma positive_numerals_canonical_witness :
  0 < 255
  /\ Py.len (_to_binary_nonneg 255) = Z.log2 255 + 1
  /\ String.get 0 (_to_binary_nonneg 255) = Some "1"%char
  /\ Py.len (_to_hex_nonneg 255) = Z.log2 255 / 4 + 1
  /\ String.get 0 (_to_hex_nonneg 255) <> Some "0"%char.
Proof. split; [lia|apply (positive_numerals_canonical 255); lia]. Defined.

(** *** Negative inputs *)

Lemma twos_complement_below_range (n : Z) :
  n <= - 1024 -> _to_twos_complement_binary_10bit n = "0000000000".
Proof.
  intros Hn. unfold _to_twos_complement_binary_10bit, _to_binary_nonneg.
  change (Z.shiftl 1 BIN_NEG_BITS) with 1024.
  destruct (Z.eqb_spec (1024 + n) 0) as [_|Hne]; [reflexivity|].
  by rewrite bits_loop_done by lia.
Qed.

(** X4. Below the ten-bit range the conversion does not fail and does not
    widen the columns: every [n <= -1024] gets the row of [-1024], ten
    zeros in binary and [FFFFFFFF00] in hexadecimal. *)
Theorem convert_below_range (n : Z) :
  n <= - 1024 -> _convert_number n = ("0000000000", "FFFFFFFF00").
Proof.
  intros Hn. unfold _convert_number.
  rewrite (proj2 (Z.leb_gt 0 n)) by lia.
  rewrite twos_complement_below_range by done. vm_compute. reflexivity.
Qed.

Lemma convert_below_range_witness :
  - 5000 <= - 1024 /\ _convert_number (- 5000) = ("0000000000", "FFFFFFFF00").
Proof. split; [lia|apply (convert_below_range (- 5000)); lia]. Defined.

(** The shape of a row, as one boolean: ten characters in each column, the
    binary one over [01], the hexadecimal one over [0-9A-F]. *)
Definition negative_row_shape (n : Z) : bool :=
  let '(bin_s, hex_s) := _convert_number n in
  (Py.len bin_s =? 10) && (Py.len hex_s =? 10)
  && str_all (fun c => Py.char_in c "01") bin_s
  && str_all (fun c => Py.char_in c digits) hex_s.

(** X5. For every negative [n], in the ten-bit range or not, both columns
    are exactly ten characters wide, the binary one written with [0] and
    [1] and the hexadecimal one with [0-9A-F]. *)
Theorem negative_row_width (n : Z) :
  n < 0 ->
  Py.len (_convert_number n).1 = 10
  /\ Py.len (_convert_number n).2 = 10
  /\ str_all (fun c => Py.char_in c "01") (_convert_number n).1 = true
  /\ str_all (fun c => Py.char_in c digits) (_convert_number n).2 = true.
Proof.
  intros Hn.
  assert (negative_row_shape n = true) as Hshape.
  { destruct (Z_le_dec n (- 1024)) as [Hlow|Hin].
    - unfold negative_row_shape, _convert_number.
      rewrite (proj2 (Z.leb_gt 0 n)) by lia.
      rewrite twos_complement_below_range by done. vm_compute. reflexivity.
    - apply (forallb_range negative_row_shape (- 1024) 1024); [|lia].
      vm_compute. reflexivity. }
  unfold negative_row_shape in Hshape.
  destruct (_convert_number n) as [bin_s hex_s]. simpl.
  apply andb_prop in Hshape as [[[Hb Hh]%andb_prop Hbc]%andb_prop Hhc].
  apply Z.eqb_eq in Hb, Hh. done.
Qed.

Lemma negative_row_width_witness :
  - 6 < 0
  /\ Py.len (_convert_number (- 6)).1 = 10
  /\ Py.len (_convert_number (- 6)).2 = 10
  /\ str_all (fun c => Py.char_in c "01") (_convert_number (- 6)).1 = true
  /\ str_all (fun c => Py.char_in c digits) (_convert_number (- 6)).2 = true.
Proof. split; [lia|apply (negative_row_width (- 6)); lia]. Defined.

(** The ten characters of the binary column against the bits of [n]. *)
Definition twos_complement_bits_ok (n : Z) : bool :=
  forallb
    (fun i =>
       match String.get (Z.to_nat i) (_convert_number n).1 with
       | Some c => Ascii.eqb c (if Z.testbit n (9 - i) then "1" else "0")
       | None => false
       end)
    (map Z.of_nat (seq 0 10)).

(** X6. In the ten-bit range, the binary column of a negative [n] is its
    two's-complement representation: the character at position [i], from
    the left, is the bit [9 - i] of [n]. *)
Theorem twos_complement_bits (n i : Z) :
  - 1024 <= n < 0 -> 0 <= i < 10 ->
  String.get (Z.to_nat i) (_convert_number n).1
  = Some (if Z.testbit n (9 - i) then "1"%char else "0"%char).
Proof.
  intros Hn Hi.
  assert (twos_complement_bits_ok n = true) as Hok.
  { apply (forallb_range twos_complement_bits_ok (- 1024) 1024); [|lia].
    vm_compute. reflexivity. }
  unfold twos_complement_bits_ok in Hok. rewrite forallb_forall in Hok.
  specialize (Hok i). 
  destruct (String.get (Z.to_nat i) (_convert_number n).1) as [c|].
  - f_equal. apply Ascii.eqb_eq, Hok, in_map_iff.
    exists (Z.to_nat i). split; [lia|]. apply in_seq. lia.
  - discriminate Hok. apply in_map_iff.
    exists (Z.to_nat i). split; [lia|]. apply in_seq. lia.
Qed.

Lemma twos_complement_bits_witness :
  (- 1024 <= - 6 < 0) /\ (0 <= 9 < 10)
  /\ String.get (Z.to_nat 9) (_convert_number (- 6)).1
     = Some (if Z.testbit (- 6) (9 - 9) then "1"%char else "0"%char).
Proof. split; [lia|split; [lia|apply (twos_complement_bits (- 6) 9); lia]]. Defined.

(** *** Reading the binary column back *)

Lemma bin_value_app (s1 s2 : string) (val : Z) :
  bin_value (s1 +:+ s2) val = bin_value s2 (bin_value s1 val).
Proof.
  revert val. induction s1 as [|c s1 IH]; intros val; [done|].
  rewrite append_cons. simpl. apply IH.
Qed.

Lemma bin_value_zeros (k : Z) : bin_value (Py.str_mul "0" k) 0 = 0.
Proof.
  unfold Py.str_mul. induction (Z.to_nat k) as [|m IH]; [done|exact IH].
Qed.

Lemma binary_digit (c : ascii) (d : Z) :
  digit_value c = Some d -> d < 2 -> (if Ascii.eqb c "1" then 1 else 0) = d.
Proof.
  destruct c as [[] [] [] [] [] [] [] []]; vm_compute;
    intros [= <-] Hd; try reflexivity; discriminate Hd.
Qed.

Lemma bin_value_int_digits (s : string) (val v : Z) :
  int_digits 2 s val = Some v -> bin_value s val = v.
Proof.
  revert val. induction s as [|c s IH]; intros val; simpl; [congruence|].
  destruct (digit_value c) as [d|] eqn:Hd; [|done].
  destruct (Z.ltb_spec d 2) as [Hlt|]; [|done].
  rewrite (binary_digit c d Hd Hlt). apply IH.
Qed.

(** X7. The loop that reads the ten binary characters back undoes
    [_to_binary_nonneg], whatever number of zeros is put before the
    numeral: for [n >= 0], reading [k] zeros followed by the binary string
    of [n] gives [n]. *)
Theorem bin_value_of_binary (n k : Z) :
  0 <= n -> bin_value (Py.str_mul "0" k +:+ _to_binary_nonneg n) 0 = n.
Proof.
  intros Hn. rewrite bin_value_app, bin_value_zeros.
  unfold _to_binary_nonneg. destruct (Z.eqb_spec n 0) as [->|Hne]; [done|].
  destruct (bits_loop_spec n []) as (l & -> & Hv & _ & _).
  rewrite app_nil_l. apply bin_value_int_digits.
  rewrite (int_digits_rev 2 l _ 0 Hv). f_equal. lia.
Qed.

Lemma bin_value_of_binary_witness :
  0 <= 5 /\ bin_value (Py.str_mul "0" 7 +:+ _to_binary_nonneg 5) 0 = 5.
Proof. split; [lia|apply (bin_value_of_binary 5 7); lia]. Defined.

(** *** The report *)

(** One row of the report. *)
Definition report_row (item : Z) (row : Z * string * string) : string :=
  Py.str_of_int item +:+ Py.tab +:+ Py.str_of_int row.1.1 +:+ Py.tab
    +:+ row.1.2 +:+ Py.tab +:+ row.2.

Lemma row_lines_imap (rows : list (Z * string * string)) (idx : Z) :
  Pipelines.printable rows ->
  row_lines rows idx
  = Some (imap (fun i row => report_row (idx + Z.of_nat i) row) rows).
Proof.
  unfold Pipelines.printable. intros Hrows. revert idx.
  induction Hrows as [|[[val bin_s] hex_s] rows [val_s Hval] _ IH]; intros idx;
    [done|].
  cbn [row_lines]. cbn [fst snd] in Hval. rewrite Hval, IH, imap_cons.
  assert (val_s = Py.str_of_int val) as ->.
  { unfold Py.str_int in Hval. by case_match; simplify_eq. }
  f_equal. f_equal.
  - unfold report_row. simpl. by rewrite Z.add_0_r.
  - apply imap_ext. intros i row _. simpl. f_equal. lia.
Qed.

(** X8. When [str] converts the value of every row, the report is the
    header, one line per row in the order of the rows, and the time line:
    the [k]-th row, counted from 0, is written with the item number
    [k + 1], its value in decimal and its two columns, so the items are
    numbered from 1 without gaps. When the value of some row has too many
    digits for [str], no report is built. *)
Theorem report_rows_numbered (rows : list (Z * string * string)) (elapsed : float) :
  (Pipelines.printable rows ->
   _build_report rows elapsed
   = Some (Py.join_lines
             (["ITEM" +:+ Py.tab +:+ "VALUE" +:+ Py.tab +:+ "BIN" +:+ Py.tab
                 +:+ "HEX"]
                ++ imap (fun k row => report_row (Z.of_nat k + 1) row) rows
                ++ [Pipelines.time_line elapsed]) +:+ Py.newline))
  /\ (~ Pipelines.printable rows -> _build_report rows elapsed = None)
  /\ (forall lines : list string,
        row_lines rows 1 = Some lines ->
        List.length lines = List.length rows
        /\ forall (k : nat) (row : Z * string * string),
             rows !! k = Some row ->
             lines !! k = Some (report_row (Z.of_nat k + 1) row)).
Proof.
  assert (imap (fun i row => report_row (1 + Z.of_nat i) row) rows
          = imap (fun k row => report_row (Z.of_nat k + 1) row) rows) as Himap.
  { apply imap_ext. intros i row _. simpl. f_equal. lia. }
  split; [|split].
  - intros Hrows. unfold _build_report, Pipelines.time_line.
    rewrite (row_lines_imap rows 1 Hrows), Himap. by rewrite <- app_assoc.
  - intros Hrows.
    destruct (_build_report rows elapsed) as [report|] eqn:Hreport; [|done].
    exfalso. apply Hrows, (Pipelines.build_report_printable rows elapsed).
    by rewrite Hreport.
  - intros lines Hlines.
    assert (Pipelines.printable rows) as Hrows
      by (apply (Pipelines.row_lines_printable rows 1); by rewrite Hlines).
    rewrite (row_lines_imap rows 1 Hrows), Himap in Hlines.
    injection Hlines as <-. split; [by rewrite length_imap|].
    intros k row Hrow. by rewrite list_lookup_imap, Hrow.
Qed.

End ConvertNumbersMore.

(** ** wordCount.py: further properties *)

Module WordCountMore.
Import WordCount WordCountProofs StringFacts.

(** *** The tokenizer *)

(** A word: not empty, and without a whitespace character. *)
Definition is_word (w : string) : Prop :=
  w <> "" /\ str_all (fun c => negb (Py.isspace c)) w = true.

(** The end of [_tokenize]: the pending word, if there is one, is added. *)
Definition flush (state : list string * list ascii) : list string :=
  match state.2 with
  | [] => state.1
  | current => state.1 ++ [string_of_list_ascii current]
  end.

Lemma tokenize_flush (text : string) :
  _tokenize text = flush (tokenize_loop text [] []).
Proof.
  unfold _tokenize, flush. by destruct (tokenize_loop text [] []) as [ws [|c cur]].
Qed.

Lemma tokenize_loop_app (a b : string) (words : list string) (current : list ascii) :
  tokenize_loop (a +:+ b) words current
  = tokenize_loop b (tokenize_loop a words current).1
      (tokenize_loop a words current).2.
Proof.
  revert words current. induction a as [|ch a IH]; intros words current; [done|].
  rewrite append_cons. simpl.
  destruct (Py.isspace ch); [destruct current|]; apply IH.
Qed.

Lemma tokenize_loop_prefix (text : string) (pre words : list string)
    (current : list ascii) :
  tokenize_loop text (pre ++ words) current
  = (pre ++ (tokenize_loop text words current).1,
     (tokenize_loop text words current).2).
Proof.
  revert words current. induction text as [|ch text IH]; intros words current;
    simpl; [done|].
  destruct (Py.isspace ch); [destruct current|]; rewrite <- ?app_assoc; apply IH.
Qed.

Lemma flush_prefix (pre : list string) (state : list string * list ascii) :
  flush (pre ++ state.1, state.2) = pre ++ flush state.
Proof.
  unfold flush. simpl. destruct state.2; [done|]. by rewrite app_assoc.
Qed.

Lemma spaces_flush (t : string) (words : list string) (current : list ascii) :
  str_all Py.isspace t = true ->
  flush (tokenize_loop t words current) = flush (words, current).
Proof.
  revert words current. induction t as [|ch t IH]; intros words current; simpl;
    [done|].
  intros [-> Ht]%andb_prop. destruct current as [|c current]; rewrite IH by done.
  - done.
  - unfold flush. simpl. done.
Qed.

Lemma word_loop (w : string) (words : list string) (current : list ascii) :
  str_all (fun c => negb (Py.isspace c)) w = true ->
  tokenize_loop w words current = (words, current ++ list_ascii_of_string w).
Proof.
  revert current. induction w as [|ch w IH]; intros current; simpl.
  - by rewrite app_nil_r.
  - intros [Hch Hw]%andb_prop. apply negb_true_iff in Hch as ->.
    rewrite IH by done. by rewrite <- app_assoc.
Qed.

(** X9. Whitespace separates and nothing else does: for a whitespace
    character [sep], the words of [a], [sep], [b] are the words of [a]
    followed by the words of [b]; and a text that is one word, not empty
    and without whitespace, is returned as that one word. Joining words
    with whitespace and tokenizing gives the words back. *)
Theorem tokenize_separator (sep : ascii) :
  Py.isspace sep = true ->
  (forall a b : string,
     _tokenize (a +:+ String sep b) = _tokenize a ++ _tokenize b)
  /\ (forall w : string, is_word w -> _tokenize w = [w]).
Proof.
  intros Hsep. split.
  - intros a b. rewrite !tokenize_flush, tokenize_loop_app. simpl. rewrite Hsep.
    destruct (tokenize_loop a [] []) as [words current] eqn:Ha. simpl.
    assert (forall ws, tokenize_loop b ws [] = (ws ++ (tokenize_loop b [] []).1,
                                                (tokenize_loop b [] []).2)) as Hb.
    { intros ws. rewrite <- (app_nil_r ws) at 1. apply tokenize_loop_prefix. }
    destruct current as [|c current]; rewrite Hb, flush_prefix; [done|].
    f_equal.
  - intros w [Hne Hw]. rewrite tokenize_flush, word_loop by done.
    unfold flush. simpl. destruct w as [|ch w]; [done|].
    simpl. by rewrite string_of_list_ascii_of_string.
Qed.

Lemma tokenize_separator_witness :
  Py.isspace " " = true
  /\ _tokenize ("to be" +:+ String " " "or not") = _tokenize "to be" ++ _tokenize "or not".
Proof.
  split; [reflexivity|].
  apply (proj1 (tokenize_separator " " eq_refl) "to be" "or not").
Defined.

(** The characters of [text] that are not whitespace, in order. *)
Definition word_chars (text : string) : list ascii :=
  List.filter (fun c => negb (Py.isspace c)) (list_ascii_of_string text).

Lemma str_all_of_list p (l : list ascii) :
  Forall (fun c => p c = true) l -> str_all p (string_of_list_ascii l) = true.
Proof. induction 1 as [|c l Hc _ IH]; simpl; [done|]. by rewrite Hc, IH. Qed.

Lemma pending_word (c : ascii) (current : list ascii) :
  Forall (fun c => negb (Py.isspace c) = true) (c :: current) ->
  is_word (string_of_list_ascii (c :: current)).
Proof. intros Hall. split; [done|]. by apply str_all_of_list. Qed.

Lemma tokenize_loop_inv (text : string) (words : list string) (current : list ascii) :
  Forall is_word words ->
  Forall (fun c => negb (Py.isspace c) = true) current ->
  Forall is_word (tokenize_loop text words current).1
  /\ Forall (fun c => negb (Py.isspace c) = true) (tokenize_loop text words current).2
  /\ mjoin (list_ascii_of_string <$> (tokenize_loop text words current).1)
       ++ (tokenize_loop text words current).2
     = mjoin (list_ascii_of_string <$> words) ++ current ++ word_chars text.
Proof.
  revert words current.
  induction text as [|ch text IH]; intros words current Hwords Hcur.
  { simpl. by rewrite app_nil_r. }
  unfold word_chars. cbn [tokenize_loop list_ascii_of_string List.filter].
  destruct (Py.isspace ch) eqn:Hch; cbn [negb].
  - destruct current as [|c current]; [by apply IH|].
    destruct (IH (words ++ [string_of_list_ascii (c :: current)]) [])
      as (Hw & Hc & Heq); [|done|].
    { apply Forall_app. split; [done|]. constructor; [|done].
      by apply pending_word. }
    split; [done|]. split; [done|]. rewrite Heq.
    rewrite fmap_app, join_app. cbn [fmap list_fmap mjoin list_join].
    rewrite list_ascii_of_string_of_list_ascii, app_nil_r.
    by rewrite <- !app_assoc.
  - destruct (IH words (current ++ [ch])) as (Hw & Hc & Heq); [done| |].
    { apply Forall_app. split; [done|]. constructor; [by rewrite Hch|done]. }
    split; [done|]. split; [done|]. rewrite Heq. by rewrite <- !app_assoc.
Qed.

(** X10. The tokenizer loses and invents nothing: every word it returns is
    not empty and holds no whitespace, and the words put end to end are the
    characters of the text that are not whitespace, in their order. *)
Theorem tokens_partition_text (text : string) :
  Forall is_word (_tokenize text)
  /\ mjoin (list_ascii_of_string <$> _tokenize text) = word_chars text.
Proof.
  destruct (tokenize_loop_inv text [] []) as (Hw & Hc & Heq); [done..|].
  rewrite tokenize_flush. unfold flush.
  destruct (tokenize_loop text [] []) as [words [|c current]]; cbn [fst snd] in *.
  - by rewrite app_nil_r in Heq.
  - split.
    + apply Forall_app. split; [done|]. constructor; [|done]. by apply pending_word.
    + rewrite fmap_app, join_app. cbn [fmap list_fmap mjoin list_join].
      by rewrite list_ascii_of_string_of_list_ascii, app_nil_r.
Qed.

(** *** The lines of the file *)

Lemma tokenize_lstrip p (s : string) :
  (forall c, p c = true -> Py.isspace c = true) ->
  _tokenize (Py.lstrip_by p s) = _tokenize s.
Proof.
  intros Hp. rewrite !tokenize_flush. f_equal.
  induction s as [|c s IH]; simpl; [done|].
  destruct (p c) eqn:Hc; [|done]. by rewrite (Hp c Hc).
Qed.

Lemma tokenize_rstrip p (s : string) :
  (forall c, p c = true -> Py.isspace c = true) ->
  _tokenize (Py.rstrip_by p s) = _tokenize s.
Proof.
  intros Hp. destruct (rstrip_by_split p s) as (t & Hs & Ht).
  rewrite Hs at 2. rewrite !tokenize_flush, tokenize_loop_app.
  symmetry. apply spaces_flush. revert Ht. by apply str_all_impl.
Qed.

Lemma tokenize_strip (s : string) : _tokenize (Py.strip s) = _tokenize s.
Proof.
  unfold Py.strip. by rewrite tokenize_rstrip, tokenize_lstrip.
Qed.

Lemma newline_is_space (c : ascii) :
  Py.char_in c Py.newline = true -> Py.isspace c = true.
Proof. destruct c as [[] [] [] [] [] [] [] []]; vm_compute; congruence. Qed.

Lemma tokenize_chomp (raw_line : string) :
  _tokenize (Pipelines.chomp raw_line) = _tokenize raw_line.
Proof.
  unfold Pipelines.chomp, Py.strip_chars.
  rewrite tokenize_rstrip, tokenize_lstrip; [done|apply newline_is_space..].
Qed.

(** X11. The words [main] counts are the words of the raw lines, line after
    line: stripping the newlines changes no word, and a line reported as
    empty has no word to lose. *)
Theorem counted_words_are_tokens (raw_lines : list string) (start : Z) :
  (read_loop raw_lines start).2 = mjoin (_tokenize <$> raw_lines).
Proof.
  rewrite Pipelines.words_read_loop. simpl. f_equal.
  apply list_fmap_ext. intros _ raw_line _. unfold Pipelines.words_of_line.
  destruct (decide (Pipelines.blank (Pipelines.chomp raw_line))) as [Hblank|_].
  - unfold Pipelines.blank in Hblank.
    by rewrite <- tokenize_chomp, <- tokenize_strip, Hblank.
  - apply tokenize_chomp.
Qed.

(** *** The report *)

Lemma word_lines_map (counts : gmap string Z) (order : list string) (f : string -> Z) :
  (forall w, w ∈ order -> counts !! w = Some (f w)) ->
  word_lines counts order
  = Some ((fun w => w +:+ Py.tab +:+ Py.str_of_int (f w)) <$> order).
Proof.
  induction order as [|w order IH]; intros Hall; simpl; [done|].
  rewrite (Hall w) by left. rewrite IH; [done|].
  intros w' Hw'. apply Hall. by right.
Qed.

(** X12. Counting and reporting fit together: on the dictionary and the
    order that [_count_words] returns, [_build_report] finds every key it
    looks up, and the report is the header, one line for each distinct word
    in the order of the first occurrences, with the number of occurrences
    of the word in decimal, and the time line. *)
Theorem word_report_table (words : list string) (elapsed : float) :
  _build_report (_count_words words).1 (_count_words words).2 elapsed
  = Some (Py.join_lines
            (["WORD" +:+ Py.tab +:+ "COUNT"]
               ++ ((fun w => w +:+ Py.tab +:+ Py.str_of_int (occurrences w words))
                     <$> first_appearances words)
               ++ [Pipelines.time_line elapsed]) +:+ Py.newline).
Proof.
  destruct (count_loop_spec words [] ∅ []) as (Hcounts & Horder & _);
    [by intros w; rewrite lookup_empty|done..|].
  simpl in Hcounts, Horder. unfold _build_report, _count_words.
  rewrite (word_lines_map _ _ (fun w => occurrences w words)).
  - rewrite Horder. unfold Pipelines.time_line. by rewrite <- app_assoc.
  - intros w Hw. rewrite Horder in Hw.
    apply (proj1 (first_appearances_elem_of _ _)) in Hw.
    rewrite Hcounts. unfold count_of. by rewrite decide_True.
Qed.

End WordCountMore.

(** ** computeStatistics.py: further properties *)

Module ComputeStatisticsMore.
Import ComputeStatistics ComputeStatisticsProofs StringFacts FloatSign.

(** *** Reading a number *)

Lemma rstrip_by_idem p (s : string) :
  Py.rstrip_by p (Py.rstrip_by p s) = Py.rstrip_by p s.
Proof.
  induction s as [|c s IH]; simpl; [done|].
  destruct (Py.rstrip_by p s) as [|k kept] eqn:Hs.
  - destruct (p c) eqn:Hc; simpl; [done|]. by rewrite Hc.
  - cbn [Py.rstrip_by] in *. by rewrite IH.
Qed.

Lemma lstrip_by_head p (s : string) (c : ascii) (t : string) :
  Py.lstrip_by p s = String c t -> p c = false.
Proof.
  induction s as [|x s IH]; simpl; [done|].
  destruct (p x) eqn:Hx; [done|]. by intros [= <- _].
Qed.

Lemma rstrip_by_keeps_head p (c : ascii) (t : string) :
  p c = false -> exists kept, Py.rstrip_by p (String c t) = String c kept.
Proof.
  intros Hc. simpl. destruct (Py.rstrip_by p t); rewrite ?Hc; eauto.
Qed.

Lemma strip_idem (s : string) : Py.strip (Py.strip s) = Py.strip s.
Proof.
  unfold Py.strip.
  destruct (Py.lstrip_by Py.isspace s) as [|c t] eqn:Hs; [done|].
  destruct (rstrip_by_keeps_head Py.isspace c t (lstrip_by_head _ _ _ _ Hs))
    as [kept Hkept].
  rewrite <- (rstrip_by_idem _ (String c t)) at 2. f_equal.
  rewrite Hkept. simpl. by rewrite (lstrip_by_head _ _ _ _ Hs).
Qed.

Lemma replace_comma_space (c : ascii) :
  Py.isspace (if Ascii.eqb c "," then "."%char else c) = Py.isspace c.
Proof. by destruct c as [[] [] [] [] [] [] [] []]. Qed.

Lemma replace_commas_lstrip (s : string) :
  Py.lstrip_by Py.isspace (replace_commas s)
  = replace_commas (Py.lstrip_by Py.isspace s).
Proof.
  induction s as [|c s IH]; simpl; [done|].
  rewrite replace_comma_space. by destruct (Py.isspace c).
Qed.

Lemma replace_commas_rstrip (s : string) :
  Py.rstrip_by Py.isspace (replace_commas s)
  = replace_commas (Py.rstrip_by Py.isspace s).
Proof.
  induction s as [|c s IH]; simpl; [done|].
  rewrite IH, replace_comma_space.
  destruct (Py.rstrip_by Py.isspace s); simpl; [|done].
  by destruct (Py.isspace c).
Qed.

Lemma replace_commas_strip (s : string) :
  Py.strip (replace_commas s) = replace_commas (Py.strip s).
Proof. unfold Py.strip. by rewrite replace_commas_lstrip, replace_commas_rstrip. Qed.

Lemma replace_commas_idem (s : string) :
  replace_commas (replace_commas s) = replace_commas s.
Proof.
  induction s as [|c s IH]; simpl; [done|]. rewrite IH. f_equal.
  by destruct c as [[] [] [] [] [] [] [] []].
Qed.

Lemma replace_commas_none (s : string) :
  str_all (fun c => negb (Ascii.eqb c ",")) (replace_commas s) = true.
Proof.
  induction s as [|c s IH]; simpl; [done|]. rewrite IH, andb_true_r.
  by destruct c as [[] [] [] [] [] [] [] []].
Qed.

(** X13. What [_try_parse_number] hands to [float] is normalised: the
    result is the same for a line and for the line stripped, the same with
    commas and with points; and on a line that is not blank [float] is
    called on a text that is not empty, has no whitespace around it and no
    comma in it. *)
Theorem parse_number_normalised (float_of_str : string -> option float)
    (raw : string) :
  _try_parse_number float_of_str (Py.strip raw) = _try_parse_number float_of_str raw
  /\ _try_parse_number float_of_str (replace_commas raw)
     = _try_parse_number float_of_str raw
  /\ (Py.strip raw <> "" ->
      exists text,
        _try_parse_number float_of_str raw = float_of_str text
        /\ text <> ""
        /\ Py.strip text = text
        /\ str_all (fun c => negb (Ascii.eqb c ",")) text = true).
Proof.
  unfold _try_parse_number. split; [by rewrite strip_idem|]. split.
  - rewrite replace_commas_strip, replace_commas_idem.
    by destruct (Py.strip raw).
  - intros Hne. exists (replace_commas (Py.strip raw)).
    split; [by destruct (Py.strip raw)|]. split; [by destruct (Py.strip raw)|].
    split; [|apply replace_commas_none].
    by rewrite replace_commas_strip, strip_idem.
Qed.

(** *** Formatting *)

Lemma format_stripped (x : float) :
  Py.rstrip_chars "." (Py.rstrip_chars "0" (Py.format_f 10 x)) <> "".
Proof.
  unfold Py.format_f, Py.fixed_digits.
  destruct (Py.scaled_decimal 10 x) as [[s scaled]|] eqn:Hx.
  - fold (sign_text s). change (Z.of_nat 10) with 10.
    destruct (strip_fixed (sign_text s) (Py.str_of_int (scaled / 10 ^ 10))
                (Py.frac_digits 10 (scaled mod 10 ^ 10))) as [-> Hne].
    + by destruct s.
    + apply str_of_int_no_dot.
    + apply str_of_int_nonempty.
    + apply frac_digits_digits.
    + exact Hne.
  - unfold Py.scaled_decimal in Hx.
    destruct (Prim2SF x) as [s|[]| |s m e]; done.
Qed.

Lemma format_number_stripped (x : float) :
  _format_number x
  = Py.rstrip_chars "." (Py.rstrip_chars "0" (Py.format_f 10 x)).
Proof.
  pose proof (format_stripped x) as Hne. unfold _format_number.
  by destruct (Py.rstrip_chars "." (Py.rstrip_chars "0" (Py.format_f 10 x))).
Qed.

Lemma format_number_nonempty (x : float) : _format_number x <> "".
Proof. rewrite format_number_stripped. apply format_stripped. Qed.

Lemma rstrip_by_prefix p (a b : string) :
  Py.rstrip_by p b <> "" -> Py.rstrip_by p (a +:+ b) = a +:+ Py.rstrip_by p b.
Proof. intros Hne. rewrite rstrip_by_app. by destruct (Py.rstrip_by p b). Qed.

(** X14. The fallback of [_format_number] is never used: whatever the
    float, an infinity and a NaN included, the text left after the two
    strippings is not empty, so that is what is returned. And the time line
    that the conversion and the word-count tools build by stripping the
    whole line is the label followed by [_format_number] of the time: the
    three tools print the elapsed time in the same way. *)
Theorem format_number_fallback_unused (x : float) :
  _format_number x = Py.rstrip_chars "." (Py.rstrip_chars "0" (Py.format_f 10 x))
  /\ _format_number x <> ""
  /\ Pipelines.time_line x = "TIME (seconds): " +:+ _format_number x.
Proof.
  split; [apply format_number_stripped|]. split; [apply format_number_nonempty|].
  rewrite format_number_stripped. pose proof (format_stripped x) as Hne.
  unfold Pipelines.time_line, Py.rstrip_chars in *.
  assert (Py.rstrip_by (fun c => Py.char_in c "0") (Py.format_f 10 x) <> "") as Hne0.
  { intros Heq. by rewrite Heq in Hne. }
  by rewrite (rstrip_by_prefix _ _ _ Hne0), (rstrip_by_prefix _ _ _ Hne).
Qed.

(** *** The whole computation, on every list *)

(** X15. [_compute_statistics] returns a result on every list of values:
    neither the indexing of [_median] nor the lookups of [_mode] nor the
    formatting of the mode can fail. The count of the result is the length
    of the list, the time is the one passed in, and the text of the mode is
    never empty; on the empty list the mean, the median, the variance and
    the standard deviation are zero and the mode is [#N/A]. *)
Theorem compute_statistics_total (nan_order : list float -> list float)
    (libm_pow : float -> float -> float) (values : list float) (seconds : float) :
  exists r,
    _compute_statistics nan_order libm_pow values seconds = Some r
    /\ count r = Z.of_nat (List.length values)
    /\ elapsed r = seconds
    /\ mode r <> ""
    /\ (values = [] ->
        mean r = 0%float /\ median r = 0%float /\ variance r = 0%float
        /\ sd r = 0%float /\ mode r = "#N/A").
Proof.
  destruct (compute_statistics_run nan_order libm_pow values seconds)
    as (median_val & sd_val & Hmed & Hsd & ->).
  eexists. split; [done|]. cbn [count elapsed mode mean median variance sd].
  split; [done|]. split; [done|]. split.
  - unfold mode_text.
    destruct (_mode values) as [[[] [v|]]|]; try done.
    apply format_number_nonempty.
  - intros ->. vm_compute in Hmed, Hsd.
    injection Hmed as <-. injection Hsd as <-.
    repeat split; vm_compute; reflexivity.
Qed.

(** *** The sign of the variance *)

(** X16. The variance is never negative, whatever the values and the mean
    it is taken from: it is [+0], a positive number, [+inf] or a NaN, and
    never [-0]. So [variance ** 0.5] is never the power of a negative
    number: it is a float, not a complex number, and this float is not
    negative either, as soon as the value that [pow] returns for the
    variance is not. *)
Theorem variance_sign (libm_pow : float -> float -> float)
    (values : list float) (mean_val : float) :
  sign_clear (Prim2SF (_population_variance values mean_val)) = true
  /\ (_population_variance values mean_val <? 0)%float = false
  /\ exists sd_val,
       _population_std libm_pow (_population_variance values mean_val)
       = Some sd_val
       /\ (sign_clear
             (Prim2SF (libm_pow (_population_variance values mean_val) 0.5%float))
           = true ->
           sign_clear (Prim2SF sd_val) = true /\ (sd_val <? 0)%float = false).
Proof.
  pose proof (variance_sign_clear values mean_val) as Hvar.
  split; [done|]. split; [by apply sign_clear_ltb|].
  destruct (pow_half_defined libm_pow _ Hvar) as [sd_val Hsd].
  exists sd_val. split; [done|]. intros Hpow.
  assert (sign_clear (Prim2SF sd_val) = true) as Hclear;
    [|split; [done|by apply sign_clear_ltb]].
  unfold Py.pow_half in Hsd.
  rewrite (sign_clear_ltb _ Hvar) in Hsd.
  repeat case_match; simplify_eq; try done.
  rewrite abs_spec.
  by destruct (Prim2SF (_population_variance values mean_val)).
Qed.

End ComputeStatisticsMore.

(** ** The three [main] functions: further properties *)

Module PipelinesMore.
Import Pipelines.

(** The lines a run gets to read: the command line has one argument after
    the program name, and the file it names is opened and read to its
    end. *)
Definition input_of (argv : list string) (fs : string -> Py.file_outcome)
  : option (list string) :=
  match argv with
  | [_; file_path] =>
      match fs file_path with
      | Py.FileLines raw_lines => Some raw_lines
      | _ => None
      end
  | _ => None
  end.


Lemma input_of_Some argv fs raw_lines :
  input_of argv fs = Some raw_lines ->
  exists prog path, argv = [prog; path] /\ fs path = Py.FileLines raw_lines.
Proof.
  unfold input_of. destruct argv as [|prog [|path [|? ?]]]; try done.
  destruct (fs path) as [| |lines|lines failure] eqn:Hfs; try done.
  intros [= <-]. eauto.
Qed.

Lemma conversion_no_input argv fs seconds write_error :
  input_of argv fs = None ->
  exists printed,
    ConvertNumbers.main argv fs seconds write_error = Py.mkRun printed None 1.
Proof.
  unfold input_of, ConvertNumbers.main, ConvertNumbers._read_rows.
  destruct argv as [|prog [|path [|? ?]]]; try by eexists.
  destruct (fs path) as [| |lines|lines [|exc]]; try done;
    try destruct (ConvertNumbers.read_loop lines 0); by eexists.
Qed.

Lemma words_no_input argv fs seconds write_error :
  input_of argv fs = None ->
  exists printed,
    WordCount.main argv fs seconds write_error = Py.mkRun printed None 1.
Proof.
  unfold input_of, WordCount.main.
  destruct argv as [|prog [|path [|? ?]]]; try by eexists.
  destruct (fs path) as [| |lines|lines [|exc]]; try done; by eexists.
Qed.

Lemma stats_no_input float_of_str nan_order libm_pow argv fs seconds
    write_error :
  input_of argv fs = None ->
  exists printed,
    ComputeStatistics.main float_of_str nan_order libm_pow argv fs seconds
      write_error
    = Py.mkRun printed None 1.
Proof.
  unfold input_of, ComputeStatistics.main, ComputeStatistics._read_values.
  destruct argv as [|prog [|path [|? ?]]]; try by eexists.
  destruct (fs path) as [| |lines|lines [|exc]]; try done; by eexists.
Qed.

(** X17. The status of each tool is decided by the command line, the file
    and the values alone. The word-count tool returns 0 exactly when a
    file is read to its end, whatever its lines; the conversion tool
    returns 0 exactly when, in addition, [str] converts every value that
    was accepted; the statistics tool returns 0 exactly when a file is read
    to its end and at least one line is accepted; every other run returns
    1, a run whose file cannot be decoded included. The time and a failure
    to write the results file never change the status. *)
Theorem exit_code_table (float_of_str : string -> option float)
    (nan_order : list float -> list float) (libm_pow : float -> float -> float)
    (argv : list string) (fs : string -> Py.file_outcome) (seconds : float)
    (write_error : option string) :
  Py.exit_code (ConvertNumbers.main argv fs seconds write_error)
  = match input_of argv fs with
    | Some raw_lines =>
        if decide (printable (omap conversion_row raw_lines)) then 0 else 1
    | None => 1
    end
  /\ Py.exit_code (WordCount.main argv fs seconds write_error)
     = (if input_of argv fs then 0 else 1)
  /\ Py.exit_code
       (ComputeStatistics.main float_of_str nan_order libm_pow argv fs seconds
          write_error)
     = match input_of argv fs with
       | Some raw_lines =>
           match stats_values float_of_str raw_lines with
           | [] => 1
           | _ => 0
           end
       | None => 1
       end.
Proof.
  destruct (input_of argv fs) as [raw_lines|] eqn:Hin.
  - destruct (input_of_Some _ _ _ Hin) as (prog & path & -> & Hfs).
    split; [|split].
    + rewrite (conversion_main_run _ _ _ _ _ _ Hfs).
      pose proof (build_report_printable (omap conversion_row raw_lines) seconds)
        as Hreport.
      destruct (ConvertNumbers._build_report _ _) as [report|].
      * rewrite decide_True by (by apply Hreport). apply reported_exit_code.
      * rewrite decide_False; [done|].
        intros Hrows. by apply Hreport in Hrows as [? ?].
    + destruct (words_main_run prog path fs seconds write_error raw_lines Hfs)
        as (report & _ & ->). apply reported_exit_code.
    + destruct (stats_values float_of_str raw_lines) as [|v values] eqn:Hvalues.
      * by rewrite (stats_main_empty _ _ _ _ _ _ _ _ _ Hfs Hvalues).
      * destruct (stats_main_run float_of_str nan_order libm_pow prog path fs
                    seconds write_error raw_lines Hfs)
          as (result & _ & ->); [by rewrite Hvalues|].
        apply reported_exit_code.
  - destruct (conversion_no_input argv fs seconds write_error Hin) as [? ->].
    destruct (words_no_input argv fs seconds write_error Hin) as [? ->].
    destruct (stats_no_input float_of_str nan_order libm_pow argv fs seconds
                write_error Hin) as [? ->].
    done.
Qed.

(** *** The results file *)







(** *** Runs that read no file *)

(** X19. The three tools fail in the same way before any line is read: a
    command line that does not have exactly one argument gives the usage
    message of the tool; a file that is not found, or that cannot be
    opened, gives one error message with the path (and the details of the
    error); in each case that message is all that is printed, no results
    file is written and the status is 1. *)
Theorem no_input_outcome (float_of_str : string -> option float)
    (nan_order : list float -> list float) (libm_pow : float -> float -> float)
    (fs : string -> Py.file_outcome) (seconds : float)
    (write_error : option string) :
  (forall argv : list string,
     List.length argv <> 2%nat ->
     ConvertNumbers.main argv fs seconds write_error
     = Py.mkRun ["Usage: python convertNumbers.py fileWithData.txt"] None 1
     /\ WordCount.main argv fs seconds write_error
        = Py.mkRun ["Usage: python wordCount.py fileWithData.txt"] None 1
     /\ ComputeStatistics.main float_of_str nan_order libm_pow argv fs seconds
          write_error
        = Py.mkRun ["Usage: python computeStatistics.py fileWithData.txt"] None 1)
  /\ (forall prog path : string,
        fs path = Py.FileNotFoundError ->
        let failed := Py.mkRun ["Error: file not found -> " +:+ path] None 1 in
        ConvertNumbers.main [prog; path] fs seconds write_error = failed
        /\ WordCount.main [prog; path] fs seconds write_error = failed
        /\ ComputeStatistics.main float_of_str nan_order libm_pow [prog; path] fs
             seconds write_error
           = failed)
  /\ (forall prog path exc : string,
        fs path = Py.OSError exc ->
        let failed :=
          Py.mkRun ["Error: cannot read file -> " +:+ path +:+ ". Details: "
                      +:+ exc] None 1 in
        ConvertNumbers.main [prog; path] fs seconds write_error = failed
        /\ WordCount.main [prog; path] fs seconds write_error = failed
        /\ ComputeStatistics.main float_of_str nan_order libm_pow [prog; path] fs
             seconds write_error
           = failed).
Proof.
  split; [|split].
  - intros argv Hlen.
    by destruct argv as [|prog [|path [|? ?]]].
  - intros prog path Hfs. cbv zeta.
    unfold ConvertNumbers.main, WordCount.main, ComputeStatistics.main,
      ConvertNumbers._read_rows, ComputeStatistics._read_values.
    by rewrite Hfs.
  - intros prog path exc Hfs. cbv zeta.
    unfold ConvertNumbers.main, WordCount.main, ComputeStatistics.main,
      ConvertNumbers._read_rows, ComputeStatistics._read_values.
    by rewrite Hfs.
Qed.

(** *** Every line is accounted for *)

Lemma parse_int_blank (raw : string) :
  blank raw -> ConvertNumbers._parse_int raw = None.
Proof. unfold blank, ConvertNumbers._parse_int. by intros ->. Qed.

Lemma try_parse_number_blank float_of_str (raw : string) :
  blank raw -> ComputeStatistics._try_parse_number float_of_str raw = None.
Proof. unfold blank, ComputeStatistics._try_parse_number. by intros ->. Qed.

Lemma conversion_lines_accounted (raw_lines : list string) (start : Z) :
  (List.length (ConvertNumbers.read_loop raw_lines start).1
   + List.length (ConvertNumbers.read_loop raw_lines start).2
   = List.length (filter (fun raw => ~ blank raw) raw_lines))%nat.
Proof.
  revert start. induction raw_lines as [|raw rest IH]; intros start; [done|].
  cbn [ConvertNumbers.read_loop]. specialize (IH (start + 1)).
  destruct (ConvertNumbers.read_loop rest (start + 1)) as [printed rows].
  cbn [fst snd] in IH.
  destruct (ConvertNumbers._parse_int raw) as [val|] eqn:Hparse.
  - destruct (ConvertNumbers._convert_number val) as [bin_s hex_s].
    rewrite filter_cons_True.
    + cbn [fst snd List.length]. lia.
    + intros Hblank. by rewrite (parse_int_blank raw Hblank) in Hparse.
  - destruct (Py.strip raw) as [|c s] eqn:Hstrip.
    + by rewrite filter_cons_False by (intros Hn; by apply Hn).
    + rewrite filter_cons_True by (unfold blank; by rewrite Hstrip).
      cbn [fst snd List.length]. lia.
Qed.

Lemma stats_lines_accounted float_of_str (raw_lines : list string) (start : Z) :
  (List.length (ComputeStatistics.read_loop float_of_str raw_lines start).1
   + List.length (ComputeStatistics.read_loop float_of_str raw_lines start).2
   = List.length (filter (fun raw => ~ blank raw) raw_lines))%nat.
Proof.
  revert start. induction raw_lines as [|raw rest IH]; intros start; [done|].
  cbn [ComputeStatistics.read_loop]. specialize (IH (start + 1)).
  destruct (ComputeStatistics.read_loop float_of_str rest (start + 1))
    as [printed values].
  cbn [fst snd] in IH.
  destruct (ComputeStatistics._try_parse_number float_of_str raw) as [val|]
    eqn:Hparse.
  - rewrite filter_cons_True.
    + cbn [fst snd List.length]. lia.
    + intros Hblank.
      by rewrite (try_parse_number_blank float_of_str raw Hblank) in Hparse.
  - destruct (Py.strip raw) as [|c s] eqn:Hstrip.
    + by rewrite filter_cons_False by (intros Hn; by apply Hn).
    + rewrite filter_cons_True by (unfold blank; by rewrite Hstrip).
      cbn [fst snd List.length]. lia.
Qed.

Lemma words_lines_accounted (raw_lines : list string) (start : Z) :
  List.length (WordCount.read_loop raw_lines start).1
  = List.length (filter (fun raw => blank (chomp raw)) raw_lines).
Proof.
  revert start. induction raw_lines as [|raw rest IH]; intros start; [done|].
  cbn [WordCount.read_loop]. specialize (IH (start + 1)).
  destruct (WordCount.read_loop rest (start + 1)) as [printed all_words].
  cbn [fst snd] in IH. fold (chomp raw).
  destruct (Py.strip (chomp raw)) as [|c s] eqn:Hstrip.
  - rewrite filter_cons_True by done. cbn [fst List.length]. by rewrite IH.
  - rewrite filter_cons_False by (unfold blank; by rewrite Hstrip).
    pose proof (WordCountProofs.tokenize_has_word (chomp raw)) as Hword.
    destruct (WordCount._tokenize (chomp raw)) as [|w ws]; [|done].
    exfalso. apply Hword; [|done].
    apply WordCountProofs.strip_nonempty_has_word_char. by rewrite Hstrip.
Qed.

(** X20. No line is dropped in silence except a blank one: in the
    conversion and the statistics tools, the diagnostics printed and the
    rows or values kept are, together, as many as the lines that are not
    blank; in the word-count tool, the diagnostics are as many as the lines
    that are blank once their newlines are taken off. *)
Theorem lines_accounted (float_of_str : string -> option float)
    (raw_lines : list string) (start : Z) :
  (List.length (ConvertNumbers.read_loop raw_lines start).1
   + List.length (ConvertNumbers.read_loop raw_lines start).2
   = List.length (filter (fun raw => ~ blank raw) raw_lines))%nat
  /\ (List.length (ComputeStatistics.read_loop float_of_str raw_lines start).1
      + List.length (ComputeStatistics.read_loop float_of_str raw_lines start).2
      = List.length (filter (fun raw => ~ blank raw) raw_lines))%nat
  /\ List.length (WordCount.read_loop raw_lines start).1
     = List.length (filter (fun raw => blank (chomp raw)) raw_lines).
Proof.
  split; [apply conversion_lines_accounted|].
  split; [apply stats_lines_accounted|apply words_lines_accounted].
Qed.

(** *** A file that fails while it is read *)

(** What is printed for a failure of a read, after the diagnostics of the
    lines before it: the error message for an [OSError], which is caught,
    and nothing for bytes that cannot be decoded, an exception that is
    not. *)
Definition failure_message (path : string) (failure : Py.read_failure)
  : list string :=
  match failure with
  | Py.ReadError exc =>
      ["Error: cannot read file -> " +:+ path +:+ ". Details: " +:+ exc]
  | Py.DecodeError => []
  end.

(** X21. When a read fails in the middle of the file, each tool has printed
    the diagnostics of the lines it read before the failure, numbered as
    in a complete file; an [OSError] adds the error message with the path
    and the details, bytes that are not UTF-8 add nothing to what is
    printed; no report is built, no results file is written and the status
    is 1. *)
Theorem broken_file_outcome (float_of_str : string -> option float)
    (nan_order : list float -> list float) (libm_pow : float -> float -> float)
    (prog path : string) (fs : string -> Py.file_outcome) (seconds : float)
    (write_error : option string) (raw_lines : list string)
    (failure : Py.read_failure) :
  fs path = Py.FileBroken raw_lines failure ->
  ConvertNumbers.main [prog; path] fs seconds write_error
  = Py.mkRun (numbered 0 conversion_diagnostic raw_lines
                ++ failure_message path failure) None 1
  /\ WordCount.main [prog; path] fs seconds write_error
     = Py.mkRun (numbered 0 words_diagnostic raw_lines
                   ++ failure_message path failure) None 1
  /\ ComputeStatistics.main float_of_str nan_order libm_pow [prog; path] fs
       seconds write_error
     = Py.mkRun (numbered 0 (stats_diagnostic float_of_str) raw_lines
                   ++ failure_message path failure) None 1.
Proof.
  intros Hfs.
  unfold ConvertNumbers.main, WordCount.main, ComputeStatistics.main,
    ConvertNumbers._read_rows, ComputeStatistics._read_values.
  rewrite Hfs, conversion_read_loop, words_read_loop, stats_read_loop.
  destruct failure as [|exc]; cbn [failure_message fst]; by rewrite ?app_nil_r.
Qed.

Lemma broken_file_outcome_witness :
  ConvertNumbers.main ["convertNumbers.py"; "data.txt"]
    (fun _ => Py.FileBroken ["12"; "abc"] Py.DecodeError) 0%float None
  = Py.mkRun ["Invalid data at line 2: 'abc' (ignored)"] None 1.
Proof.
  apply (broken_file_outcome ComputeStatistics.float_of_integer_text
           Py.nan_order_kept Py.sqrt_pow "convertNumbers.py" "data.txt"
           (fun _ => Py.FileBroken ["12"; "abc"] Py.DecodeError) 0%float None
           ["12"; "abc"] Py.DecodeError eq_refl).
Defined.

End PipelinesMore.

